(** * traffic-manager-api: metric cache fill, aggregation, ranking, token
      lifecycle and sync jobs

    A shallow embedding of the Go sources
    - [internal/usecases/insighting] (cache fill and metric aggregation),
    - [internal/scheduler] (ranking run and the single-flight sync jobs),
    - [infrastructure/integrator/meta/metaclient] (token manager),
    and the properties the specification states about them.

    Conventions.  A Go [int] is a [Z] kept in the signed 64-bit range, with
    the wrap-around of every arithmetic operation written out ([wrap64]).  A
    [float64] is a primitive binary64 float.  A Go [map\[string\]T] is a
    [gmap string T].  A pointer that the code tests against [nil] is an
    [option]; a pointer that the code dereferences without a test is either
    a value (when nothing in the sources can leave it [nil]) or an [option]
    whose [None] makes the function panic.  Results of functions that can
    panic are wrapped in [go_result]; functions that return [(T, error)]
    return [go_err T]. *)

From Stdlib Require Import ZArith Lia Uint63 Strings.Ascii.
From Stdlib Require Import Floats.PrimFloat Floats.SpecFloat Floats.FloatOps.
From stdpp Require Import base option list gmap strings pretty sorting.

#[local] Set Warnings "-inexact-float".

Local Open Scope Z_scope.

(* ================================================================== *)
(** * Go primitives *)
(* ================================================================== *)

(** A call either returns normally or panics (a nil dereference). *)
Inductive go_result (A : Type) : Type :=
| Returns (a : A)
| Panics.
Arguments Returns {A} a.
Arguments Panics {A}.

(** The Go idiom [(T, error)]: the error carries its message. *)
Inductive go_err (A : Type) : Type :=
| Ok (a : A)
| Err (msg : string).
Arguments Ok {A} a.
Arguments Err {A} msg.

(** Two's complement wrap-around of the 64-bit [int]. *)
Definition wrap64 (z : Z) : Z := (z + 2 ^ 63) mod 2 ^ 64 - 2 ^ 63.

Definition int_add (a b : Z) : Z := wrap64 (a + b).
Definition int_sub (a b : Z) : Z := wrap64 (a - b).

Definition is_int64 (z : Z) : Prop := - 2 ^ 63 <= z < 2 ^ 63.
Definition is_int32 (z : Z) : Prop := - 2 ^ 31 <= z < 2 ^ 31.

Abbreviation float64 := PrimFloat.float (only parsing).

(** The conversion [float64(n)] of an [int]: the nearest binary64 value. *)
Definition float64_of_int (z : Z) : float64 :=
  if z =? - 2 ^ 63 then PrimFloat.opp (FloatOps.Z.ldexp PrimFloat.one 63)
  else if z <? 0 then PrimFloat.opp (PrimFloat.of_uint63 (Uint63.of_Z (- z)))
  else PrimFloat.of_uint63 (Uint63.of_Z z).

(** [math.Round]: the nearest integer, halves away from zero; NaN, the
    infinities, the zeros and every value without a fractional part are
    returned unchanged.  The value of a finite float is [m * 2^e]. *)
Definition math_Round (x : float64) : float64 :=
  match Prim2SF x with
  | S754_finite s m e =>
      if 0 <=? e then x
      else
        let k := - e in
        let q := Z.shiftr (Zpos m) k in
        let r := Z.land (Zpos m) (Z.ones k) in
        let n := if 2 ^ (k - 1) <=? r then q + 1 else q in
        let f := PrimFloat.of_uint63 (Uint63.of_Z n) in
        if s then PrimFloat.opp f else f
  | _ => x
  end.

(** [utils.RoundWithTwoDecimalPlace] (pkg/utils). *)
Definition RoundWithTwoDecimalPlace (f : float64) : float64 :=
  if PrimFloat.eqb f PrimFloat.zero then PrimFloat.zero
  else PrimFloat.div (math_Round (PrimFloat.mul f 100%float)) 100%float.

(** [strconv.Atoi]: an optional sign followed by decimal digits, within the
    range of [int]; anything else is an error. *)
Fixpoint atoi_digits (s : string) (acc : Z) : option Z :=
  match s with
  | EmptyString => Some acc
  | String c s' =>
      match Ascii.is_nat c with
      | Some d => atoi_digits s' (10 * acc + Z.of_nat d)
      | None => None
      end
  end.

Definition Atoi (s : string) : option Z :=
  let parse (neg : bool) (body : string) :=
    match body with
    | EmptyString => None
    | _ =>
        match atoi_digits body 0 with
        | Some n =>
            let v := if neg then - n else n in
            if (- 2 ^ 63 <=? v) && (v <? 2 ^ 63) then Some v else None
        | None => None
        end
    end in
  match s with
  | String "-"%char body => parse true body
  | String "+"%char body => parse false body
  | _ => parse false s
  end.

(** [strconv.Itoa]. *)
Definition Itoa (z : Z) : string := pretty z.

(* ================================================================== *)
(** * time.Time *)
(* ================================================================== *)

(** An instant, in nanoseconds since the Unix epoch, together with the
    offset (seconds east of UTC) of its [Location]; a location is taken to
    have one fixed offset. *)
Record Time : Set := mkTime { unixNano : Z; zoneOffset : Z }.

Global Instance Time_eq_dec : EqDecision Time.
Proof. solve_decision. Defined.

Definition nanosPerSecond : Z := 1000000000.
Definition secondsPerDay : Z := 86400.
Definition Hour : Z := 3600 * nanosPerSecond.

(** [t.After(u)], [t.Before(u)]: comparison of the instants. *)
Definition After (t u : Time) : bool := unixNano u <? unixNano t.
Definition Before (t u : Time) : bool := unixNano t <? unixNano u.

(** The zero [Time]: January 1, year 1, 00:00:00 UTC. *)
Definition zeroTime : Time := mkTime (-62135596800 * nanosPerSecond) 0.
Definition IsZero (t : Time) : bool := unixNano t =? unixNano zeroTime.

(** A [time.Duration] is an [int64] count of nanoseconds; [t.Sub(u)]
    saturates at the ends of that range. *)
Definition Sub (t u : Time) : Z :=
  Z.max (- 2 ^ 63) (Z.min (2 ^ 63 - 1) (unixNano t - unixNano u)).

(** [time.Until(t)] with the clock reading [now]. *)
Definition Until (now t : Time) : Z := Sub t now.

(** [t.Add(d)]. *)
Definition Add (t : Time) (d : Z) : Time := mkTime (unixNano t + d) (zoneOffset t).

(** The number of the civil day of [t] in its location, counted from
    1970-01-01. *)
Definition civilDay (t : Time) : Z :=
  (unixNano t / nanosPerSecond + zoneOffset t) / secondsPerDay.

(** [t.AddDate(0, 0, n)]: the same wall-clock time [n] civil days later. *)
Definition AddDays (t : Time) (n : Z) : Time :=
  mkTime (unixNano t + n * secondsPerDay * nanosPerSecond) (zoneOffset t).

(** [time.Date(t.Year(), t.Month(), t.Day(), 0, 0, 0, 0, t.Location())]:
    midnight of the civil day of [t]. *)
Definition midnight (t : Time) : Time :=
  mkTime ((civilDay t * secondsPerDay - zoneOffset t) * nanosPerSecond) (zoneOffset t).

(** Year, month and day of a day number (proleptic Gregorian calendar). *)
Definition civilFromDays (days : Z) : Z * Z * Z :=
  let z := days + 719468 in
  let era := z / 146097 in
  let doe := z - era * 146097 in
  let yoe := (doe - doe / 1460 + doe / 36524 - doe / 146096) / 365 in
  let doy := doe - (365 * yoe + yoe / 4 - yoe / 100) in
  let mp := (5 * doy + 2) / 153 in
  let d := doy - (153 * mp + 2) / 5 + 1 in
  let m := if mp <? 10 then mp + 3 else mp - 9 in
  let y := yoe + era * 400 + (if m <=? 2 then 1 else 0) in
  (y, m, d).

(** Decimal digits of [z], padded with zeros to [width]; a negative number
    gets a leading minus sign (the layouts' [appendInt]). *)
Definition appendInt (z : Z) (width : nat) : string :=
  let digits := pretty (Z.abs_N z) in
  let pad := fold_right String "" (replicate (width - String.length digits)%nat "0"%char) in
  (if z <? 0 then "-" else "") +:+ pad +:+ digits.

(** [t.Format(time.DateOnly)], the layout "2006-01-02". *)
Definition FormatDateOnly (t : Time) : string :=
  let '(y, m, d) := civilFromDays (civilDay t) in
  appendInt y 4 +:+ "-" +:+ appendInt m 2 +:+ "-" +:+ appendInt d 2.

(** [t.Format("01-2006")], the month key of the ranking. *)
Definition FormatMonthYear (t : Time) : string :=
  let '(y, m, _) := civilFromDays (civilDay t) in
  appendInt m 2 +:+ "-" +:+ appendInt y 4.

(** An instant from a Unix time in seconds, in UTC. *)
Definition Unix (sec : Z) : Time := mkTime (sec * nanosPerSecond) 0.

(* ================================================================== *)
(** * Domain records (internal/domain) *)
(* ================================================================== *)

(** [domain.CampaignInsight]. *)
Record CampaignInsight : Set := mkCampaignInsight {
  ci_CampaignID : string;
  ci_CampaignName : string;
  ci_Clicks : string;
  ci_CostPerResult : float64;
  ci_Frequency : string;
  ci_Impressions : string;
  ci_Objective : string;
  ci_Reach : string;
  ci_Result : Z;
  ci_Spend : float64
}.

(** [domain.AdAccountMetrics], with the embedded [AdAccountInsight]. *)
Record AdAccountMetrics : Type := mkAdAccountMetrics {
  am_AccountID : string;
  am_Campaigns : list CampaignInsight;
  am_CostPerResult : float64;
  am_Frequency : float64;
  am_Impressions : Z;
  am_Name : string;
  am_Objective : string;
  am_Reach : Z;
  am_Result : Z;
  am_Spend : float64;
  am_CostPerResultByDate : gmap string float64;
  am_ResultByDate : gmap string Z
}.

(** [domain.AdInsightEntry]; [AdMetrics] is a pointer the code tests. *)
Record AdInsightEntry : Type := mkAdInsightEntry {
  ae_AccountID : string;
  ae_ExternalID : string;
  ae_Date : Time;
  ae_AdMetrics : option AdAccountMetrics
}.

(** [domain.Sale] and [domain.SalesMetrics]. *)
Record Sale : Set := mkSale { sale_Date : option Time; sale_NetAmount : float64 }.

Record SalesMetrics : Set := mkSalesMetrics {
  sm_TotalRevenue : float64;
  sm_SalesQuantity : Z;
  sm_AverageTicket : float64;
  sm_Sales : list Sale
}.

(** [domain.SalesInsightEntry]; the map may be nil, and so may its
    values. *)
Record SalesInsightEntry : Type := mkSalesInsightEntry {
  se_AccountID : string;
  se_Date : Time;
  se_SalesMetrics : option (gmap string (option SalesMetrics))
}.

(** [domain.AdAccount], the fields the engine reads. *)
Record AdAccount : Set := mkAdAccount {
  acc_ID : string;
  acc_ExternalID : string;
  acc_Name : string;
  acc_CNPJ : option string;
  acc_SecretName : option string
}.

(** [domain.InsigthFilters]. *)
Record InsigthFilters : Set := mkFilters {
  StartDate : option Time;
  EndDate : option Time
}.

(* ================================================================== *)
(** * Metric aggregation (internal/usecases/insighting) *)
(* ================================================================== *)

(** [sumStringInts]. *)
Definition sumStringInts (a b : string) : string :=
  let a := if decide (a = "") then "0" else a in
  match Atoi a with
  | None => "0"
  | Some aVal =>
      let b := if decide (b = "") then "0" else b in
      match Atoi b with
      | None => "0"
      | Some bVal => Itoa (int_add aVal bVal)
      end
  end.

(** [updateCampaignMetrics]: the updated [existing]. *)
Definition updateCampaignMetrics (existing adding : CampaignInsight) : CampaignInsight :=
  {| ci_CampaignID := ci_CampaignID existing;
     ci_CampaignName := ci_CampaignName existing;
     ci_Clicks := sumStringInts (ci_Clicks existing) (ci_Clicks adding);
     ci_CostPerResult := ci_CostPerResult existing;
     ci_Frequency := ci_Frequency existing;
     ci_Impressions := sumStringInts (ci_Impressions existing) (ci_Impressions adding);
     ci_Objective := ci_Objective existing;
     ci_Reach := sumStringInts (ci_Reach existing) (ci_Reach adding);
     ci_Result := int_add (ci_Result existing) (ci_Result adding);
     ci_Spend := PrimFloat.add (ci_Spend existing) (ci_Spend adding) |}.

(** The local variables of [combineAdMetrics] that its loop updates; the
    two per-date maps are the maps of [combined]. *)
Record combineState : Type := mkCombineState {
  totalImpression : Z;
  totalReach : Z;
  totalResults : Z;
  totalSpend : float64;
  costPerResultByDate : gmap string float64;
  resultByDate : gmap string Z;
  campaignMap : gmap string CampaignInsight
}.

(** [m\[k\] += v] on a map of floats and on a map of ints: a missing key
    reads as zero. *)
Definition addAtF (k : string) (v : float64) (m : gmap string float64) : gmap string float64 :=
  <[k := PrimFloat.add (default PrimFloat.zero (m !! k)) v]> m.

Definition addAtZ (k : string) (v : Z) (m : gmap string Z) : gmap string Z :=
  <[k := int_add (default 0 (m !! k)) v]> m.

(** The inner loop over the campaigns of one record. *)
Definition mergeCampaign (cm : gmap string CampaignInsight) (campaign : CampaignInsight)
  : gmap string CampaignInsight :=
  match cm !! ci_CampaignID campaign with
  | None => <[ci_CampaignID campaign := campaign]> cm
  | Some existingCampaign =>
      <[ci_CampaignID campaign := updateCampaignMetrics existingCampaign campaign]> cm
  end.

(** One iteration of the accumulation loop. *)
Definition combineStep (st : combineState) (insight : AdInsightEntry) : combineState :=
  match ae_AdMetrics insight with
  | None => st
  | Some m =>
      let date := FormatDateOnly (ae_Date insight) in
      {| totalImpression := int_add (totalImpression st) (am_Impressions m);
         totalReach := int_add (totalReach st) (am_Reach m);
         totalResults := int_add (totalResults st) (am_Result m);
         totalSpend := PrimFloat.add (totalSpend st) (am_Spend m);
         costPerResultByDate := addAtF date (am_CostPerResult m) (costPerResultByDate st);
         resultByDate := addAtZ date (am_Result m) (resultByDate st);
         campaignMap := fold_left mergeCampaign (am_Campaigns m) (campaignMap st) |}
  end.

Section Combine.

(** [strconv.FormatFloat(x, 'f', -1, 64)], the shortest decimal that reads
    back as [x]; the library function is a parameter of the model. *)
Variable FormatFloat : float64 -> string.

(** The second loop: derived fields of one merged campaign; [None] when an
    [Atoi] fails and the campaign is skipped. *)
Definition finishCampaign (campaign : CampaignInsight) : option CampaignInsight :=
  match Atoi (ci_Impressions campaign) with
  | None => None
  | Some impressionsVal =>
      match Atoi (ci_Reach campaign) with
      | None => None
      | Some reachVal =>
          let cpr :=
            if 0 <? ci_Result campaign
            then RoundWithTwoDecimalPlace
                   (PrimFloat.div (ci_Spend campaign) (float64_of_int (ci_Result campaign)))
            else ci_CostPerResult campaign in
          let freq :=
            if 0 <? reachVal
            then FormatFloat (RoundWithTwoDecimalPlace
                   (PrimFloat.div (float64_of_int impressionsVal) (float64_of_int reachVal)))
            else ci_Frequency campaign in
          Some {| ci_CampaignID := ci_CampaignID campaign;
                  ci_CampaignName := ci_CampaignName campaign;
                  ci_Clicks := ci_Clicks campaign;
                  ci_CostPerResult := cpr;
                  ci_Frequency := freq;
                  ci_Impressions := ci_Impressions campaign;
                  ci_Objective := ci_Objective campaign;
                  ci_Reach := ci_Reach campaign;
                  ci_Result := ci_Result campaign;
                  ci_Spend := RoundWithTwoDecimalPlace (ci_Spend campaign) |}
      end
  end.

(** [calculateDerivedMetrics] applied to the freshly built [combined],
    whose [CostPerResult] and [Frequency] are still zero. *)
Definition calculateDerivedMetrics (accountID name objective : string)
    (campaigns : list CampaignInsight) (st : combineState) : AdAccountMetrics :=
  {| am_AccountID := accountID;
     am_Campaigns := campaigns;
     am_CostPerResult :=
       if 0 <? totalResults st
       then RoundWithTwoDecimalPlace
              (PrimFloat.div (totalSpend st) (float64_of_int (totalResults st)))
       else PrimFloat.zero;
     am_Frequency :=
       if 0 <? totalReach st
       then RoundWithTwoDecimalPlace
              (PrimFloat.div (float64_of_int (totalImpression st)) (float64_of_int (totalReach st)))
       else PrimFloat.zero;
     am_Impressions := totalImpression st;
     am_Name := name;
     am_Objective := objective;
     am_Reach := totalReach st;
     am_Result := totalResults st;
     am_Spend := RoundWithTwoDecimalPlace (totalSpend st);
     am_CostPerResultByDate := costPerResultByDate st;
     am_ResultByDate := resultByDate st |}.

(** [combineAdMetrics].  The first record is read before the loop without a
    nil test on its [AdMetrics].  Go ranges over [campaignMap] in an
    unspecified order; the model lists the campaigns in the order of
    [map_to_list]. *)
Definition combineAdMetrics (adInsights : list AdInsightEntry)
  : go_result (option AdAccountMetrics) :=
  match adInsights with
  | [] => Returns None
  | first :: _ =>
      match ae_AdMetrics first with
      | None => Panics
      | Some m0 =>
          let d0 := FormatDateOnly (ae_Date first) in
          let st0 :=
            {| totalImpression := 0; totalReach := 0; totalResults := 0;
               totalSpend := PrimFloat.zero;
               costPerResultByDate := <[d0 := am_CostPerResult m0]> ∅;
               resultByDate := <[d0 := am_Result m0]> ∅;
               campaignMap := ∅ |} in
          let st := fold_left combineStep adInsights st0 in
          let campaigns := omap (fun kv => finishCampaign (snd kv)) (map_to_list (campaignMap st)) in
          Returns (Some (calculateDerivedMetrics (ae_ExternalID first) (am_Name m0)
                           (am_Objective m0) campaigns st))
      end
  end.

End Combine.

(** [time.Parse(time.DateOnly, s)]: exactly "YYYY-MM-DD" with a month from
    1 to 12 and a day of that month; the result is midnight UTC. *)
Definition daysFromCivil (y m d : Z) : Z :=
  let y' := if m <=? 2 then y - 1 else y in
  let era := y' / 400 in
  let yoe := y' - era * 400 in
  let doy := (153 * (if 2 <? m then m - 3 else m + 9) + 2) / 5 + d - 1 in
  let doe := yoe * 365 + yoe / 4 - yoe / 100 + doy in
  era * 146097 + doe - 719468.

Definition isLeap (y : Z) : bool :=
  (y mod 4 =? 0) && (negb (y mod 100 =? 0) || (y mod 400 =? 0)).

Definition daysIn (m y : Z) : Z :=
  if m =? 2 then (if isLeap y then 29 else 28)
  else if (m =? 4) || (m =? 6) || (m =? 9) || (m =? 11) then 30 else 31.

Definition ParseDateOnly (s : string) : option Time :=
  match s with
  | String y1 (String y2 (String y3 (String y4 (String "-"
      (String m1 (String m2 (String "-" (String d1 (String d2 EmptyString))))))))) =>
      match atoi_digits (String y1 (String y2 (String y3 (String y4 EmptyString)))) 0,
            atoi_digits (String m1 (String m2 EmptyString)) 0,
            atoi_digits (String d1 (String d2 EmptyString)) 0 with
      | Some y, Some m, Some d =>
          if (1 <=? m) && (m <=? 12) && (1 <=? d) && (d <=? daysIn m y)
          then Some (Unix (daysFromCivil y m d * secondsPerDay))
          else None
      | _, _, _ => None
      end
  | _ => None
  end.

(* ================================================================== *)
(** * Sales of the SSOtica integrator (ssotica/domain) *)
(* ================================================================== *)

(** [ssoticadomain.Order], the fields the engine reads. *)
Record Order : Set := mkOrder {
  ord_Date : string;
  ord_NetAmount : float64;
  ord_CustomerOrigins : list string
}.

Definition SocialNetworkOrigin : string := "Redes Sociais".
Definition OthersOrigin : string := "others".

Definition SocialNetworkOrigins : list string :=
  [ SocialNetworkOrigin; "Tráfego Pago"; "Rede Social";
    "Redes Sociais / Trafego Pago"; "Redes Sociais / Trafego Pago";
    "Trafego Pago"; "Redes Sociais / Trafego"; "Redes Socias";
    "Rede Social - Eclel"; "Rede Social - Bruna" ].

(** The test shared by the revenue sums: the first origin of the sale is a
    social-network origin. *)
Definition isSocialNetworkSale (sale : Order) : bool :=
  match ord_CustomerOrigins sale with
  | [] => false
  | o :: _ => bool_decide (o ∈ SocialNetworkOrigins)
  end.

(** [ssoticadomain.GetSumNetAmountSocialNetwork]. *)
Definition GetSumNetAmountSocialNetwork (s : list Order) : float64 :=
  fold_left (fun total sale =>
               if isSocialNetworkSale sale then PrimFloat.add total (ord_NetAmount sale)
               else total) s PrimFloat.zero.

(** Keys of the sales maps ([domain.SocialNetwork], [domain.Store]). *)
Definition SocialNetwork : string := "SocialNetwork".
Definition Store : string := "Store".

(** [getSalesMetricsByOrigin]. *)
Definition getSalesMetricsByOrigin (origin : string) (sales : list Order) : go_err SalesMetrics :=
  let step (acc : go_err (float64 * list Sale)) (sale : Order) :=
    match acc with
    | Err e => Err e
    | Ok (totalRevenue, domainSales) =>
        let shouldCount :=
          if decide (origin = SocialNetworkOrigin) then isSocialNetworkSale sale
          else if decide (origin = OthersOrigin) then negb (isSocialNetworkSale sale)
          else false in
        if shouldCount then
          match ParseDateOnly (ord_Date sale) with
          | None => Err "parsing time"
          | Some date =>
              Ok (PrimFloat.add totalRevenue (ord_NetAmount sale),
                  domainSales ++ [ {| sale_Date := Some date;
                                      sale_NetAmount := ord_NetAmount sale |} ])
          end
        else acc
    end in
  match fold_left step sales (Ok (PrimFloat.zero, [])) with
  | Err e => Err e
  | Ok (totalRevenue, domainSales) =>
      let salesQuantity := Z.of_nat (length domainSales) in
      let averageTicket :=
        if 0 <? salesQuantity
        then RoundWithTwoDecimalPlace (PrimFloat.div totalRevenue (float64_of_int salesQuantity))
        else PrimFloat.zero in
      Ok {| sm_TotalRevenue := RoundWithTwoDecimalPlace totalRevenue;
            sm_SalesQuantity := salesQuantity;
            sm_AverageTicket := averageTicket;
            sm_Sales := domainSales |}
  end.

(** The accumulator of [combineSalesMetrics] for one origin. *)
Record originAggregator : Set := mkOriginAggregator {
  oa_totalRevenue : float64;
  oa_salesQuantity : Z;
  oa_sales : list Sale
}.

(** [processOriginSalesMetrics]. *)
Definition processOriginSalesMetrics (originMetrics : originAggregator) : SalesMetrics :=
  let averageTicket :=
    if 0 <? oa_salesQuantity originMetrics
    then PrimFloat.div (oa_totalRevenue originMetrics)
           (float64_of_int (oa_salesQuantity originMetrics))
    else PrimFloat.zero in
  {| sm_TotalRevenue := RoundWithTwoDecimalPlace (oa_totalRevenue originMetrics);
     sm_SalesQuantity := oa_salesQuantity originMetrics;
     sm_AverageTicket := RoundWithTwoDecimalPlace averageTicket;
     sm_Sales := oa_sales originMetrics |}.

(** [combineSalesMetrics]: the accumulators of distinct origins do not
    interact, so the order in which Go ranges over the map of one record
    does not show in the result. *)
Definition accumulateOrigin (accs : gmap string originAggregator)
    (kv : string * option SalesMetrics) : gmap string originAggregator :=
  match kv.2 with
  | None => accs
  | Some metrics =>
      let accumulator :=
        default {| oa_totalRevenue := PrimFloat.zero; oa_salesQuantity := 0; oa_sales := [] |}
                (accs !! kv.1) in
      <[kv.1 := {| oa_totalRevenue :=
                     PrimFloat.add (oa_totalRevenue accumulator) (sm_TotalRevenue metrics);
                   oa_salesQuantity :=
                     int_add (oa_salesQuantity accumulator) (sm_SalesQuantity metrics);
                   oa_sales := oa_sales accumulator ++ sm_Sales metrics |}]> accs
  end.

Definition combineSalesMetrics (salesInsights : list SalesInsightEntry)
  : option (gmap string (option SalesMetrics)) :=
  match salesInsights with
  | [] => None
  | _ =>
      let originAccumulators :=
        fold_left (fun accs insight =>
                     match se_SalesMetrics insight with
                     | None => accs
                     | Some byOrigin => fold_left accumulateOrigin (map_to_list byOrigin) accs
                     end) salesInsights ∅ in
      Some ((fun a => Some (processOriginSalesMetrics a)) <$> originAccumulators)
  end.

(* ================================================================== *)
(** * Cache fill (internal/usecases/insighting) *)
(* ================================================================== *)

(** [domain.ReachImpressionsResponse]. *)
Record ReachImpressionsResponse : Set := mkReachImpressions {
  ri_AccountID : string;
  ri_Reach : Z;
  ri_Impressions : Z;
  ri_StartDate : string;
  ri_EndDate : string
}.

(** The calls the service makes to its collaborators, in the order in which
    they happen.  A fetch of the cache fill records whether it produced a
    record; a save records the reading of [time.Now()] that its guard
    compared the date with. *)
Inductive Event : Type :=
| EvAccountLookup (externalID : string)
| EvAdRangeQuery (accountID : string) (startDate endDate : Time)
| EvAdFetch (externalID : string) (date : Time) (ok : bool)
| EvAdSave (entry : AdInsightEntry) (now : Time)
| EvSalesRangeQuery (accountID : string) (startDate endDate : Time)
| EvSalesFetch (cnpj secretName : string) (startDate endDate : Time) (ok : bool)
| EvSalesSave (entry : SalesInsightEntry) (now : Time)
| EvAdPeriodFetch (externalID : string) (startDate endDate : Time)
| EvReachFetch (externalID : string) (startDate endDate : Time).

(** The collaborators of [Service]: the repositories (interfaces of package
    repository), the Meta and SSOtica integrators and the clock.  [W] is the
    state of everything outside the service: the database, the remote APIs
    and the time; every call may change it. *)
Class Collaborators (W : Type) : Type := {
  accountRepository_GetAccountByExternalID : string -> W -> go_err (option AdAccount) * W;
  adInsightRepository_GetByDateRange :
    string -> Time -> Time -> W -> go_err (list AdInsightEntry) * W;
  adInsightRepository_SaveOrUpdate : AdInsightEntry -> W -> option string * W;
  salesInsightRepository_GetByDateRange :
    string -> Time -> Time -> W -> go_err (list SalesInsightEntry) * W;
  salesInsightRepository_SaveOrUpdate : SalesInsightEntry -> W -> option string * W;
  (** [MetaIntegrator.GetAdAccountsInsights] returns metrics or an error,
      never [(nil, nil)]. *)
  metaService_GetAdAccountsInsights : string -> Time -> Time -> W -> go_err AdAccountMetrics * W;
  metaService_GetAdAccountReachImpressions :
    string -> Time -> Time -> W -> go_err ReachImpressionsResponse * W;
  (** a nil slice of orders is an empty list *)
  ssoticaService_GetSalesByAccount :
    string -> string -> Time -> Time -> W -> go_err (list Order) * W;
  time_Now : W -> Time * W
}.

(** The state threaded through a call: the outside world and the log of
    the calls made so far. *)
Record Run (W : Type) : Type := mkRun { world : W; log : list Event }.
Arguments mkRun {W} world log.
Arguments world {W} r.
Arguments log {W} r.

Section Insighting.

Context {W : Type} `{Collaborators W}.

(** The order in which the goroutines of the fetch phase complete: the
    tasks of the missing dates run one after the other in the order
    [completion] gives to them (a reordering of the missing dates, chosen
    by the scheduler). *)
Variable completion : list Time -> list Time.

(** [Service.GetSalesMetrics]. *)
Definition GetSalesMetrics (cnpj secretName : string) (startDate endDate : Time) (r : Run W)
  : go_err (gmap string (option SalesMetrics)) * Run W :=
  let '(res, w) := ssoticaService_GetSalesByAccount cnpj secretName startDate endDate (world r) in
  let out :=
    match res with
    | Err e => Err e
    | Ok sales =>
        match getSalesMetricsByOrigin SocialNetworkOrigin sales with
        | Err e => Err e
        | Ok salesMetricsSocialNetwork =>
            match getSalesMetricsByOrigin OthersOrigin sales with
            | Err e => Err e
            | Ok salesMetricsOthers =>
                Ok (<[Store := Some salesMetricsOthers]>
                      (<[SocialNetwork := Some salesMetricsSocialNetwork]> ∅))
            end
        end
    end in
  (out, mkRun w (log r ++ [EvSalesFetch cnpj secretName startDate endDate
                             (match out with Ok _ => true | Err _ => false end)])).

(** The goroutine of [getAdMetricsWithCache] for one missing date: the
    record it appends to the result, if any. *)
Definition fetchAdDate (account : AdAccount) (accountExternalID : string) (date : Time)
    (r : Run W) : option AdInsightEntry * Run W :=
  let '(res, w1) := metaService_GetAdAccountsInsights accountExternalID date date (world r) in
  let r1 := mkRun w1 (log r ++ [EvAdFetch accountExternalID date
                                  (match res with Ok _ => true | Err _ => false end)]) in
  match res with
  | Err _ => (None, r1)
  | Ok adMetrics =>
      let adInsight :=
        {| ae_AccountID := acc_ID account; ae_ExternalID := accountExternalID;
           ae_Date := date; ae_AdMetrics := Some adMetrics |} in
      let '(now, w2) := time_Now (world r1) in
      if decide (FormatDateOnly date <> FormatDateOnly now) then
        let '(_, w3) := adInsightRepository_SaveOrUpdate adInsight w2 in
        (Some adInsight, mkRun w3 (log r1 ++ [EvAdSave adInsight now]))
      else (Some adInsight, mkRun w2 (log r1))
  end.

(** The fetch phase: the tasks of the dates, each appending to the slice. *)
Definition fetchAdDates (account : AdAccount) (accountExternalID : string)
    (dates : list Time) (acc : list AdInsightEntry * Run W) : list AdInsightEntry * Run W :=
  fold_left (fun '(adInsights, r) date =>
               match fetchAdDate account accountExternalID date r with
               | (Some adInsight, r') => (adInsights ++ [adInsight], r')
               | (None, r') => (adInsights, r')
               end) dates acc.

(** [getAdMetricsWithCache]; [startDate] and [endDate] are the dates of the
    filters, which the caller has validated. *)
Definition getAdMetricsWithCache (account : AdAccount) (accountExternalID : string)
    (startDate endDate : Time) (allDates : list Time) (r : Run W)
  : list AdInsightEntry * Run W :=
  let '(res, w1) := adInsightRepository_GetByDateRange (acc_ID account) startDate endDate (world r) in
  let r1 := mkRun w1 (log r ++ [EvAdRangeQuery (acc_ID account) startDate endDate]) in
  let adInsights := match res with Ok rows => rows | Err _ => [] end in
  let existingAdDates : gset string :=
    match res with
    | Ok rows => list_to_set ((fun insight => FormatDateOnly (ae_Date insight)) <$> rows)
    | Err _ => ∅
    end in
  let missingAdDates :=
    filter (fun date => FormatDateOnly date ∉ existingAdDates) allDates in
  match missingAdDates with
  | [] => (adInsights, r1)
  | _ => fetchAdDates account accountExternalID (completion missingAdDates) (adInsights, r1)
  end.

(** The goroutine of [getSalesMetricsWithCache] for one missing date. *)
Definition fetchSalesDate (account : AdAccount) (cnpj secretName : string) (date : Time)
    (r : Run W) : option SalesInsightEntry * Run W :=
  let '(res, r1) := GetSalesMetrics cnpj secretName date date r in
  match res with
  | Err _ => (None, r1)
  | Ok salesMetrics =>
      if decide (size salesMetrics = 0%nat) then (None, r1)
      else
        let salesInsight :=
          {| se_AccountID := acc_ID account; se_Date := date;
             se_SalesMetrics := Some salesMetrics |} in
        let '(now, w2) := time_Now (world r1) in
        if decide (FormatDateOnly date <> FormatDateOnly now) then
          let '(_, w3) := salesInsightRepository_SaveOrUpdate salesInsight w2 in
          (Some salesInsight, mkRun w3 (log r1 ++ [EvSalesSave salesInsight now]))
        else (Some salesInsight, mkRun w2 (log r1))
  end.

Definition fetchSalesDates (account : AdAccount) (cnpj secretName : string)
    (dates : list Time) (acc : list SalesInsightEntry * Run W)
  : list SalesInsightEntry * Run W :=
  fold_left (fun '(salesInsights, r) date =>
               match fetchSalesDate account cnpj secretName date r with
               | (Some salesInsight, r') => (salesInsights ++ [salesInsight], r')
               | (None, r') => (salesInsights, r')
               end) dates acc.

(** The account has a tax id and an API secret, both non-empty. *)
Definition salesCredentials (account : AdAccount) : option (string * string) :=
  match acc_CNPJ account, acc_SecretName account with
  | Some cnpj, Some secretName =>
      if decide (cnpj <> "" /\ secretName <> "") then Some (cnpj, secretName) else None
  | _, _ => None
  end.

(** [getSalesMetricsWithCache]. *)
Definition getSalesMetricsWithCache (account : AdAccount)
    (startDate endDate : Time) (allDates : list Time) (r : Run W)
  : list SalesInsightEntry * Run W :=
  let '(res, w1) :=
    salesInsightRepository_GetByDateRange (acc_ID account) startDate endDate (world r) in
  let r1 := mkRun w1 (log r ++ [EvSalesRangeQuery (acc_ID account) startDate endDate]) in
  let salesInsights := match res with Ok rows => rows | Err _ => [] end in
  let existingSalesDates : gset string :=
    match res with
    | Ok rows => list_to_set ((fun insight => FormatDateOnly (se_Date insight)) <$> rows)
    | Err _ => ∅
    end in
  let missingSalesDates :=
    filter (fun date => FormatDateOnly date ∉ existingSalesDates) allDates in
  match missingSalesDates, salesCredentials account with
  | _ :: _, Some (cnpj, secretName) =>
      fetchSalesDates account cnpj secretName (completion missingSalesDates) (salesInsights, r1)
  | _, _ => (salesInsights, r1)
  end.

End Insighting.

(** The loop of [generateDateRange]; [fuel] bounds the iterations. *)
Fixpoint generateDates (fuel : nat) (currentDate endDateTime : Time) : list Time :=
  match fuel with
  | O => []
  | S fuel' =>
      if After currentDate endDateTime then []
      else currentDate :: generateDates fuel' (AddDays currentDate 1) endDateTime
  end.

(** [generateDateRange]: the days from [startDate] to [endDate], each at
    midnight.  The fuel is the number of days between the two midnights plus
    one, which the loop never exhausts ([generateDates_enough_fuel]). *)
Definition generateDateRange (startDate endDate : option Time) : list Time :=
  match startDate, endDate with
  | Some s, Some e =>
      if After s e then []
      else
        let currentDate := midnight s in
        let endDateTime := midnight e in
        generateDates
          (Z.to_nat ((unixNano endDateTime - unixNano currentDate)
                       / (secondsPerDay * nanosPerSecond) + 1))
          currentDate endDateTime
  | _, _ => []
  end.

(** [domain.AdAccountInsightsResponse], without [ResultMetrics] (a pure
    function of the two aggregates that no property of this development
    reads). *)
Record AdAccountInsightsResponse : Type := mkResponse {
  resp_AdAccountMetrics : option AdAccountMetrics;
  resp_SalesMetrics : option (gmap string (option SalesMetrics));
  resp_Filters : InsigthFilters
}.

Section InsightingService.

Context {W : Type} `{Collaborators W}.

Variable completion : list Time -> list Time.
Variable FormatFloat : float64 -> string.

(** [Service.GetAdAccountsByIDWithCache].  The two goroutines (ads, sales)
    are run one after the other. *)
Definition GetAdAccountsByIDWithCache (account : AdAccount) (accountExternalID : string)
    (filters : InsigthFilters) (startDate endDate : Time) (r : Run W)
  : go_result (go_err AdAccountInsightsResponse) * Run W :=
  let allDates := generateDateRange (Some startDate) (Some endDate) in
  match allDates with
  | [] => (Returns (Err "período de datas inválido"), r)
  | _ =>
      let '(adInsights, r1) :=
        getAdMetricsWithCache completion account accountExternalID startDate endDate allDates r in
      let '(salesInsights, r2) :=
        match salesCredentials account with
        | Some _ => getSalesMetricsWithCache completion account startDate endDate allDates r1
        | None => ([], r1)
        end in
      match combineAdMetrics FormatFloat adInsights with
      | Panics => (Panics, r2)
      | Returns combinedAdMetrics =>
          (Returns (Ok {| resp_AdAccountMetrics := combinedAdMetrics;
                          resp_SalesMetrics := combineSalesMetrics salesInsights;
                          resp_Filters := filters |}), r2)
      end
  end.

(** [Service.GetAdAccountsByIDWithoutCache]. *)
Definition GetAdAccountsByIDWithoutCache (account : AdAccount) (accountExternalID : string)
    (filters : InsigthFilters) (startDate endDate : Time) (r : Run W)
  : go_result (go_err AdAccountInsightsResponse) * Run W :=
  let '(adRes, w1) :=
    metaService_GetAdAccountsInsights accountExternalID startDate endDate (world r) in
  let r1 := mkRun w1 (log r ++ [EvAdPeriodFetch accountExternalID startDate endDate]) in
  let adAccountMetrics := match adRes with Ok m => Some m | Err _ => None end in
  let '(salesMetrics, r2) :=
    match acc_CNPJ account, acc_SecretName account with
    | Some cnpj, Some secretName =>
        let '(res, r2) := GetSalesMetrics cnpj secretName startDate endDate r1 in
        match res with
        | Ok m => (if decide (size m = 0%nat) then None else Some m, r2)
        | Err _ => (None, r2)
        end
    | _, _ => (None, r1)
    end in
  (Returns (Ok {| resp_AdAccountMetrics := adAccountMetrics;
                  resp_SalesMetrics := salesMetrics;
                  resp_Filters := filters |}), r2).

(** [Service.GetAdAccountsByID]; [filters] may be nil. *)
Definition GetAdAccountsByID (useCache : bool) (accountID : string)
    (filters : option InsigthFilters) (r : Run W)
  : go_result (go_err AdAccountInsightsResponse) * Run W :=
  match filters with
  | Some {| StartDate := Some startDate; EndDate := Some endDate |} =>
      if After startDate endDate then
        (Returns (Err "a data de início não pode ser posterior à data de fim"), r)
      else
        let '(res, w1) := accountRepository_GetAccountByExternalID accountID (world r) in
        let r1 := mkRun w1 (log r ++ [EvAccountLookup accountID]) in
        match res with
        | Err e => (Returns (Err e), r1)
        | Ok None => (Returns (Err ("conta não encontrada: " +:+ accountID)), r1)
        | Ok (Some account) =>
            let filters' := {| StartDate := Some startDate; EndDate := Some endDate |} in
            if useCache
            then GetAdAccountsByIDWithCache account accountID filters' startDate endDate r1
            else GetAdAccountsByIDWithoutCache account accountID filters' startDate endDate r1
        end
  | _ => (Returns (Err "é necessário informar as datas de início e fim"), r)
  end.

(** [Service.GetAdAccountReachImpressions]. *)
Definition GetAdAccountReachImpressions (accountID : string)
    (filters : option InsigthFilters) (r : Run W)
  : go_err ReachImpressionsResponse * Run W :=
  match filters with
  | Some {| StartDate := Some startDate; EndDate := Some endDate |} =>
      if After startDate endDate then
        (Err "a data de início não pode ser posterior à data de fim", r)
      else
        let '(res, w1) :=
          metaService_GetAdAccountReachImpressions accountID startDate endDate (world r) in
        (res, mkRun w1 (log r ++ [EvReachFetch accountID startDate endDate]))
  | _ => (Err "é necessário informar as datas de início e fim", r)
  end.

End InsightingService.

(** ** Sample data *)

(** Sample records: one day of metrics with the given counts and spend. *)
Definition sampleMetrics (impressions reach result : Z) (spend cpr : float64) : AdAccountMetrics :=
  {| am_AccountID := "act_1"; am_Campaigns := [];
     am_CostPerResult := cpr; am_Frequency := PrimFloat.zero;
     am_Impressions := impressions; am_Name := "Loja A"; am_Objective := "LINK_CLICKS";
     am_Reach := reach; am_Result := result; am_Spend := spend;
     am_CostPerResultByDate := ∅; am_ResultByDate := ∅ |}.

Definition sampleEntry (day : Z) (m : option AdAccountMetrics) : AdInsightEntry :=
  {| ae_AccountID := "ACC001"; ae_ExternalID := "act_1";
     ae_Date := Unix (1705276800 + day * secondsPerDay); ae_AdMetrics := m |}.

Definition spendDay0 : AdInsightEntry :=
  sampleEntry 0 (Some (sampleMetrics 1000 400 3 0.035%float 0.01%float)).
Definition spendDay1 : AdInsightEntry :=
  sampleEntry 1 (Some (sampleMetrics 2000 500 4 0.3%float 0.08%float)).
Definition spendDay2 : AdInsightEntry :=
  sampleEntry 2 (Some (sampleMetrics 1500 300 2 0.1%float 0.05%float)).
Definition emptyDay3 : AdInsightEntry := sampleEntry 3 None.

(** ** An in-memory double of the collaborators

    Used to run the service on concrete inputs: two tables keyed by account
    and day, a clock that stands still, a Meta API that answers every day
    with the same metrics (or is down), and an SSOtica API that answers
    every request with the same orders. *)
Record MemWorld : Type := mkMemWorld {
  mw_accounts : list AdAccount;
  mw_adRows : list AdInsightEntry;
  mw_salesRows : list SalesInsightEntry;
  mw_now : Time;
  mw_metaAnswer : go_err AdAccountMetrics;
  mw_orders : go_err (list Order)
}.

Definition inDayRange (startDate endDate date : Time) : bool :=
  (civilDay startDate <=? civilDay date) && (civilDay date <=? civilDay endDate).

Definition upsertAd (e : AdInsightEntry) (rows : list AdInsightEntry) : list AdInsightEntry :=
  filter (fun row => ~ (ae_AccountID row = ae_AccountID e
                        /\ FormatDateOnly (ae_Date row) = FormatDateOnly (ae_Date e))) rows
  ++ [e].

Definition upsertSales (e : SalesInsightEntry) (rows : list SalesInsightEntry)
  : list SalesInsightEntry :=
  filter (fun row => ~ (se_AccountID row = se_AccountID e
                        /\ FormatDateOnly (se_Date row) = FormatDateOnly (se_Date e))) rows
  ++ [e].

Global Instance MemWorld_Collaborators : Collaborators MemWorld := {|
  accountRepository_GetAccountByExternalID externalID w :=
    (Ok (list_find (fun a => acc_ExternalID a = externalID) (mw_accounts w) ≫= (fun p => Some p.2)), w);
  adInsightRepository_GetByDateRange accountID startDate endDate w :=
    (Ok (filter (fun row => ae_AccountID row = accountID
                            /\ inDayRange startDate endDate (ae_Date row) = true)
                (mw_adRows w)), w);
  adInsightRepository_SaveOrUpdate e w :=
    (None, mkMemWorld (mw_accounts w) (upsertAd e (mw_adRows w)) (mw_salesRows w)
             (mw_now w) (mw_metaAnswer w) (mw_orders w));
  salesInsightRepository_GetByDateRange accountID startDate endDate w :=
    (Ok (filter (fun row => se_AccountID row = accountID
                            /\ inDayRange startDate endDate (se_Date row) = true)
                (mw_salesRows w)), w);
  salesInsightRepository_SaveOrUpdate e w :=
    (None, mkMemWorld (mw_accounts w) (mw_adRows w) (upsertSales e (mw_salesRows w))
             (mw_now w) (mw_metaAnswer w) (mw_orders w));
  metaService_GetAdAccountsInsights _ _ _ w := (mw_metaAnswer w, w);
  metaService_GetAdAccountReachImpressions externalID startDate endDate w :=
    (match mw_metaAnswer w with
     | Ok m => Ok {| ri_AccountID := externalID; ri_Reach := am_Reach m;
                     ri_Impressions := am_Impressions m;
                     ri_StartDate := FormatDateOnly startDate;
                     ri_EndDate := FormatDateOnly endDate |}
     | Err e => Err e
     end, w);
  ssoticaService_GetSalesByAccount _ _ _ _ w := (mw_orders w, w);
  time_Now w := (mw_now w, w)
|}.

(** A sample account and world: 2024-01-16 at noon, with 2024-01-14
    already cached. *)
Definition sampleAccount : AdAccount :=
  {| acc_ID := "ACC001"; acc_ExternalID := "act_1"; acc_Name := "Loja A";
     acc_CNPJ := Some "12345678901"; acc_SecretName := Some "secret1" |}.

Definition jan (day : Z) : Time := Unix (1704067200 + (day - 1) * secondsPerDay).

Definition sampleOrders : list Order :=
  [ {| ord_Date := "2024-01-15"; ord_NetAmount := 1000%float;
       ord_CustomerOrigins := ["Redes Sociais"] |};
    {| ord_Date := "2024-01-15"; ord_NetAmount := 250%float;
       ord_CustomerOrigins := [] |} ].

Definition sampleWorld : MemWorld :=
  {| mw_accounts := [sampleAccount];
     mw_adRows := [ {| ae_AccountID := "ACC001"; ae_ExternalID := "act_1";
                       ae_Date := jan 14;
                       ae_AdMetrics := Some (sampleMetrics 900 300 2 10%float 5%float) |} ];
     mw_salesRows := [];
     mw_now := Add (jan 16) (12 * Hour);
     mw_metaAnswer := Ok (sampleMetrics 1000 400 3 12%float 4%float);
     mw_orders := Ok sampleOrders |}.

(** The goroutines complete in the order in which they were started. *)
Definition inOrder (dates : list Time) : list Time := dates.

(** A world in which 2024-01-14 and 2024-01-15 are cached for the sample
    account, ads and sales. *)
Definition sampleSalesMap : gmap string (option SalesMetrics) :=
  <[Store := Some {| sm_TotalRevenue := 250%float; sm_SalesQuantity := 1;
                     sm_AverageTicket := 250%float; sm_Sales := [] |}]>
    (<[SocialNetwork := Some {| sm_TotalRevenue := 1000%float; sm_SalesQuantity := 1;
                                sm_AverageTicket := 1000%float; sm_Sales := [] |}]> ∅).

Definition cachedAdRows : list AdInsightEntry :=
  [ {| ae_AccountID := "ACC001"; ae_ExternalID := "act_1"; ae_Date := jan 14;
       ae_AdMetrics := Some (sampleMetrics 900 300 2 10%float 5%float) |};
    {| ae_AccountID := "ACC001"; ae_ExternalID := "act_1"; ae_Date := jan 15;
       ae_AdMetrics := Some (sampleMetrics 800 200 1 8%float 8%float) |} ].

Definition cachedSalesRows : list SalesInsightEntry :=
  [ {| se_AccountID := "ACC001"; se_Date := jan 14; se_SalesMetrics := Some sampleSalesMap |};
    {| se_AccountID := "ACC001"; se_Date := jan 15; se_SalesMetrics := Some sampleSalesMap |} ].

Definition cachedWorld : MemWorld :=
  {| mw_accounts := [sampleAccount];
     mw_adRows := cachedAdRows;
     mw_salesRows := cachedSalesRows;
     mw_now := Add (jan 16) (12 * Hour);
     mw_metaAnswer := Ok (sampleMetrics 1000 400 3 12%float 4%float);
     mw_orders := Ok sampleOrders |}.

(* ================================================================== *)
(** * Ranking run (internal/scheduler/top_ranking_accounts.go) *)
(* ================================================================== *)

(** [domain.StoreRankingItem]. *)
Record StoreRankingItem : Set := mkStoreRankingItem {
  sri_AccountID : string;
  sri_Month : string;
  sri_StoreName : string;
  sri_SocialNetworkRevenue : float64;
  sri_Position : Z;
  sri_PositionChange : Z;
  sri_PreviousPosition : Z
}.

(** The [less] function handed to [sort.Slice]: the revenue of the first
    row is greater than the revenue of the second. *)
Definition revenueGreater (a b : StoreRankingItem) : bool :=
  PrimFloat.ltb (sri_SocialNetworkRevenue b) (sri_SocialNetworkRevenue a).

(** The body of the loop of [updatePositions] at index [i]. *)
Definition setPosition (rankingsBeforeUpdate : gmap string StoreRankingItem)
    (i : nat) (ranking : StoreRankingItem) : StoreRankingItem :=
  let position := Z.of_nat i + 1 in
  match rankingsBeforeUpdate !! sri_AccountID ranking with
  | Some rankingBefore =>
      {| sri_AccountID := sri_AccountID ranking;
         sri_Month := sri_Month ranking;
         sri_StoreName := sri_StoreName ranking;
         sri_SocialNetworkRevenue := sri_SocialNetworkRevenue ranking;
         sri_Position := position;
         sri_PositionChange := int_sub (sri_Position rankingBefore) position;
         sri_PreviousPosition := sri_Position rankingBefore |}
  | None =>
      {| sri_AccountID := sri_AccountID ranking;
         sri_Month := sri_Month ranking;
         sri_StoreName := sri_StoreName ranking;
         sri_SocialNetworkRevenue := sri_SocialNetworkRevenue ranking;
         sri_Position := position;
         sri_PositionChange := sri_PositionChange ranking;
         sri_PreviousPosition := sri_PreviousPosition ranking |}
  end.

(** What the run does not decide itself: the order in which the goroutines
    send on the two channels, and the permutation [sort.Slice] leaves the
    slice in ([sort.Slice] is documented as not stable). *)
Record Scheduling : Type := mkScheduling {
  arrivalRankings : list StoreRankingItem -> list StoreRankingItem;
  arrivalBefore : list StoreRankingItem -> list StoreRankingItem;
  sort_Slice : (StoreRankingItem -> StoreRankingItem -> bool) ->
               list StoreRankingItem -> list StoreRankingItem
}.

(** The contract of [sort.Slice] for one call: the result is a reordering
    of the slice in which no later element is [less] than an earlier one. *)
Definition sortedBy (less : StoreRankingItem -> StoreRankingItem -> bool)
    (input output : list StoreRankingItem) : Prop :=
  input ≡ₚ output /\ StronglySorted (fun a b => less b a = false) output.

(** [updatePositions]: the slice after the call. *)
Definition updatePositions (sched : Scheduling) (updatedRankings : list StoreRankingItem)
    (rankingsBeforeUpdate : gmap string StoreRankingItem) : list StoreRankingItem :=
  imap (setPosition rankingsBeforeUpdate) (sort_Slice sched revenueGreater updatedRankings).

(** The two collaborators of a ranking run, as they answer during the run. *)
Record RankingCollaborators : Type := mkRankingCollaborators {
  rankingRepo_GetByAccountID : string -> string -> go_err (option StoreRankingItem);
  ssotica_GetSalesByAccount : string -> string -> Time -> Time -> go_err (list Order)
}.

(** [getFirstDayOfMonth]. *)
Definition getFirstDayOfMonth (date : Time) : Time :=
  let '(y, m, _) := civilFromDays (civilDay date) in
  mkTime ((daysFromCivil y m 1 * secondsPerDay - zoneOffset date) * nanosPerSecond)
         (zoneOffset date).

(** The filter of [getActiveAccounts]: a tax id and an API secret, both
    non-empty. *)
Definition hasCredentials (account : AdAccount) : bool :=
  match acc_CNPJ account, acc_SecretName account with
  | Some cnpj, Some secretName =>
      negb (String.eqb cnpj "") && negb (String.eqb secretName "")
  | _, _ => false
  end.

Definition getActiveAccounts (listed : go_err (list AdAccount)) : go_err (list AdAccount) :=
  match listed with
  | Err e => Err e
  | Ok accounts => Ok (filter (fun a => hasCredentials a = true) accounts)
  end.

(** The first goroutine of an account: what it sends on
    [rankingBeforeUpdate]. *)
Definition priorRowOf (env : RankingCollaborators) (month : string) (account : AdAccount)
  : option StoreRankingItem :=
  match rankingRepo_GetByAccountID env (acc_ID account) month with
  | Ok (Some topRankingItem) => Some topRankingItem
  | _ => None
  end.

(** The second goroutine of an account: what it sends on [rankings].  It
    dereferences [CNPJ] and [SecretName]. *)
Definition newRowOf (env : RankingCollaborators) (firstDayOfMonth yesterday : Time)
    (account : AdAccount) : go_result (option StoreRankingItem) :=
  match acc_CNPJ account, acc_SecretName account with
  | Some cnpj, Some secretName =>
      match ssotica_GetSalesByAccount env cnpj secretName firstDayOfMonth yesterday with
      | Err _ => Returns None
      | Ok sales =>
          Returns (Some {| sri_AccountID := acc_ID account;
                           sri_Month := FormatMonthYear yesterday;
                           sri_StoreName := acc_Name account;
                           sri_SocialNetworkRevenue := GetSumNetAmountSocialNetwork sales;
                           sri_Position := 0;
                           sri_PositionChange := 0;
                           sri_PreviousPosition := 0 |})
      end
  | _, _ => Panics
  end.

(** All the second goroutines: the rows in the order of the accounts, or a
    panic. *)
Fixpoint newRows (env : RankingCollaborators) (firstDayOfMonth yesterday : Time)
    (accounts : list AdAccount) : go_result (list StoreRankingItem) :=
  match accounts with
  | [] => Returns []
  | account :: rest =>
      match newRowOf env firstDayOfMonth yesterday account,
            newRows env firstDayOfMonth yesterday rest with
      | Returns o, Returns rows => Returns (option_list o ++ rows)
      | _, _ => Panics
      end
  end.

(** The loop that drains [rankingBeforeUpdate] into the map. *)
Definition collectBefore (arrived : list StoreRankingItem) : gmap string StoreRankingItem :=
  fold_left (fun m ranking =>
               if decide (sri_AccountID ranking = "") then m
               else <[sri_AccountID ranking := ranking]> m) arrived ∅.

(** [processTopRankingAccountsWithDate]: the returned slice, which is also
    the batch handed to [SaveOrUpdateStoreRanking] (the outcome of the write
    is only logged). *)
Definition processTopRankingAccountsWithDate (env : RankingCollaborators)
    (sched : Scheduling) (accounts : list AdAccount) (processingDate : Time)
  : go_result (list StoreRankingItem) :=
  let yesterday := AddDays processingDate (-1) in
  let firstDayOfMonth := getFirstDayOfMonth yesterday in
  let month := FormatMonthYear yesterday in
  match newRows env firstDayOfMonth yesterday accounts with
  | Panics => Panics
  | Returns rows =>
      let rankingsBeforeUpdate :=
        collectBefore (arrivalBefore sched (omap (priorRowOf env month) accounts)) in
      let updatedRankings := arrivalRankings sched rows in
      Returns (updatePositions sched updatedRankings rankingsBeforeUpdate)
  end.

(** [insertionSortLessFunc] of package sort, the sort that [sort.Slice]
    runs on short slices: each element moves left past the elements it is
    [less] than. *)
Fixpoint insertLeft {A : Type} (less : A -> A -> bool) (x : A) (revPrefix : list A) : list A :=
  match revPrefix with
  | [] => [x]
  | y :: rest => if less x y then y :: insertLeft less x rest else x :: revPrefix
  end.

Definition insertionSort {A : Type} (less : A -> A -> bool) (l : list A) : list A :=
  rev (fold_left (fun revPrefix x => insertLeft less x revPrefix) l []).

(** Goroutines that send in the order of the accounts, and the sort of
    short slices. *)
Definition inAccountOrder : Scheduling :=
  {| arrivalRankings := id; arrivalBefore := id; sort_Slice := @insertionSort _ |}.

(** Goroutines whose sends arrive in the reverse order. *)
Definition inReverseOrder : Scheduling :=
  {| arrivalRankings := @rev _; arrivalBefore := @rev _; sort_Slice := @insertionSort _ |}.

(** The run at its input is within what the scheduler and [sort.Slice] may
    do: the two arrival orders are reorderings, and the sort met its
    contract. *)
Definition validRun (env : RankingCollaborators) (sched : Scheduling)
    (accounts : list AdAccount) (processingDate : Time) : Prop :=
  let yesterday := AddDays processingDate (-1) in
  let month := FormatMonthYear yesterday in
  let priors := omap (priorRowOf env month) accounts in
  priors ≡ₚ arrivalBefore sched priors
  /\ match newRows env (getFirstDayOfMonth yesterday) yesterday accounts with
     | Panics => True
     | Returns rows =>
         rows ≡ₚ arrivalRankings sched rows
         /\ sortedBy revenueGreater (arrivalRankings sched rows)
              (sort_Slice sched revenueGreater (arrivalRankings sched rows))
     end.

(** Sample rows of a ranking run, before positions are assigned. *)
Definition sampleRow (accountID storeName : string) (revenue : float64) : StoreRankingItem :=
  {| sri_AccountID := accountID; sri_Month := "01-2024"; sri_StoreName := storeName;
     sri_SocialNetworkRevenue := revenue;
     sri_Position := 0; sri_PositionChange := 0; sri_PreviousPosition := 0 |}.

Definition sampleRows : list StoreRankingItem :=
  [ sampleRow "ACC001" "Loja A" 2500%float;
    sampleRow "ACC002" "Loja B" 3000%float;
    sampleRow "ACC003" "Loja C" 1500%float ].

(** The rows persisted by an earlier run: ACC001 second, ACC002 first. *)
Definition sampleBefore : gmap string StoreRankingItem :=
  <["ACC002" := {| sri_AccountID := "ACC002"; sri_Month := "01-2024"; sri_StoreName := "Loja B";
                    sri_SocialNetworkRevenue := 3000%float;
                    sri_Position := 1; sri_PositionChange := 0; sri_PreviousPosition := 0 |}]>
    (<["ACC001" := {| sri_AccountID := "ACC001"; sri_Month := "01-2024";
                      sri_StoreName := "Loja A"; sri_SocialNetworkRevenue := 2000%float;
                      sri_Position := 2; sri_PositionChange := 0; sri_PreviousPosition := 0 |}]> ∅).

(** Collaborators of a sample run: ACC001 was second and ACC002 first; the
    sales fetch of ACC002 fails. *)
Definition sampleRankingEnv : RankingCollaborators :=
  {| rankingRepo_GetByAccountID accountID month :=
       if String.eqb accountID "ACC001"
       then Ok (Some {| sri_AccountID := "ACC001"; sri_Month := month; sri_StoreName := "Loja A";
                        sri_SocialNetworkRevenue := 2000%float;
                        sri_Position := 2; sri_PositionChange := 0; sri_PreviousPosition := 0 |})
       else if String.eqb accountID "ACC002"
       then Ok (Some {| sri_AccountID := "ACC002"; sri_Month := month; sri_StoreName := "Loja B";
                        sri_SocialNetworkRevenue := 3000%float;
                        sri_Position := 1; sri_PositionChange := 0; sri_PreviousPosition := 0 |})
       else Ok None;
     ssotica_GetSalesByAccount cnpj _ _ _ :=
       if String.eqb cnpj "12345678901"
       then Ok [ {| ord_Date := "2024-01-10"; ord_NetAmount := 1500%float;
                    ord_CustomerOrigins := ["Redes Sociais"] |} ]
       else if String.eqb cnpj "12345678902"
       then Err "timeout"
       else Ok [ {| ord_Date := "2024-01-11"; ord_NetAmount := 200%float;
                    ord_CustomerOrigins := ["Rede Social"] |};
                 {| ord_Date := "2024-01-11"; ord_NetAmount := 900%float;
                    ord_CustomerOrigins := ["Loja"] |} ] |}.

Definition sampleAccounts : list AdAccount :=
  [ {| acc_ID := "ACC003"; acc_ExternalID := "act_3"; acc_Name := "Loja C";
       acc_CNPJ := Some "12345678903"; acc_SecretName := Some "secret3" |};
    {| acc_ID := "ACC002"; acc_ExternalID := "act_2"; acc_Name := "Loja B";
       acc_CNPJ := Some "12345678902"; acc_SecretName := Some "secret2" |};
    sampleAccount ].

(* ================================================================== *)
(** * The Meta token manager (infrastructure/integrator/meta/metaclient) *)
(* ================================================================== *)

(** [strings.Contains], on the bytes of the two strings. *)
Fixpoint Contains (s substr : string) : bool :=
  String.prefix substr s
  || match s with
     | EmptyString => false
     | String _ s' => Contains s' substr
     end.

(** [TokenResponse], the decoded body of a token exchange. *)
Record TokenResponse : Set := mkTokenResponse {
  tr_AccessToken : string;
  tr_TokenType : string;
  tr_ExpiresIn : Z
}.

(** [metadomain.ErrorResponse], with the fields of its [Error] that the
    code reads. *)
Record ErrorResponse : Set := mkErrorResponse {
  err_Message : string;
  err_Type : string;
  err_Code : Z;
  err_ErrorSubcode : Z
}.

(** [ErrorResponse.IsTokenExpired]. *)
Definition IsTokenExpired (e : ErrorResponse) : bool :=
  (err_Code e =? 190)
  || (bool_decide (err_Type e = "OAuthException")
      && ((err_ErrorSubcode e =? 460) || (err_ErrorSubcode e =? 463)
          || (err_ErrorSubcode e =? 467))).

(** What an HTTP GET hands to its caller: the error of [client.Get], or a
    response with its status code and what [io.ReadAll] makes of its body
    (the bytes read, and the error if reading failed). *)
Inductive HttpResult : Set :=
| GetFailed (err : string)
| Response (statusCode : Z) (body : string) (readErr : option string).

Definition StatusOK : Z := 200.
Definition StatusBadRequest : Z := 400.

(** The requests that leave the process. *)
Inductive TokenEvent : Set :=
| EvTokenExchange (fb_exchange_token : string)
| EvTokenCheck (access_token : string)
| EvTokenDebug (input_token : string)
| EvSecretUpdate (serviceID secretName secretContent : string).

(** The world outside the token manager, over an abstract state [N]: the
    three Graph API endpoints, the secret store of Render, the JSON decoders
    of the three bodies, the clock and the offset of [time.Local].
    [json_debug_expires_at] gives [int64(data.expires_at)] when the body
    decodes to an object whose [data.expires_at] is a number. *)
Class MetaGraph (N : Type) := {
  graph_oauth_access_token :
    string -> string -> string -> string -> string -> N -> HttpResult * N;
  graph_me : string -> string -> N -> HttpResult * N;
  graph_debug_token :
    string -> string -> string -> string -> string -> N -> HttpResult * N;
  render_AddOrUpdateSecret : string -> string -> string -> N -> N;
  json_TokenResponse : string -> go_err TokenResponse;
  json_ErrorResponse : string -> go_err ErrorResponse;
  json_debug_expires_at : string -> go_err (option Z);
  clock_Now : N -> Time * N;
  time_Local : Z
}.

(** The outside world with the requests made so far, oldest first. *)
Record Net (N : Type) : Type := mkNet { wire : N; calls : list TokenEvent }.
Arguments mkNet {N} wire calls.
Arguments wire {N} n.
Arguments calls {N} n.

(** The fields of [config.Config] that the token manager uses. *)
Record MetaConfig : Set := mkMetaConfig {
  meta_AccessToken : string;
  meta_LongLivedToken : string;
  meta_TokenExpiresAt : Time;
  meta_AppID : string;
  meta_AppSecret : string;
  meta_BaseURL : string;
  meta_Version : string;
  meta_URL : string;
  render_ServiceID : string
}.

(** [TokenManager]: the shared configuration, whether [TokenRefreshMutex]
    is held, and the world. *)
Record TokenManager (N : Type) : Type := mkTokenManager {
  tm_cfg : MetaConfig;
  tm_mutexHeld : bool;
  tm_net : Net N
}.
Arguments mkTokenManager {N} tm_cfg tm_mutexHeld tm_net.
Arguments tm_cfg {N} t.
Arguments tm_mutexHeld {N} t.
Arguments tm_net {N} t.

(** A call either returns, or blocks for ever in [Lock] on a mutex that
    its own goroutine holds ([sync.Mutex] is not reentrant). *)
Inductive Outcome (A : Type) : Type :=
| Done (a : A)
| Blocked.
Arguments Done {A} a.
Arguments Blocked {A}.

(** A Go [error]: nil, or its message. *)
Abbreviation error := (option string) (only parsing).

Section TokenManaging.

Context {N : Type} `{MetaGraph N}.

Definition setNet (tm : TokenManager N) (n : Net N) : TokenManager N :=
  mkTokenManager (tm_cfg tm) (tm_mutexHeld tm) n.

Definition setCfg (tm : TokenManager N) (c : MetaConfig) : TokenManager N :=
  mkTokenManager c (tm_mutexHeld tm) (tm_net tm).

Definition setMutex (tm : TokenManager N) (held : bool) : TokenManager N :=
  mkTokenManager (tm_cfg tm) held (tm_net tm).

(** [tm.TokenRefreshMutex.Lock(); defer tm.TokenRefreshMutex.Unlock()]
    around [body]: the call blocks when the mutex is held, and the deferred
    unlock runs only if [body] returns. *)
Definition withMutex {A : Type} (body : TokenManager N -> Outcome A * TokenManager N)
    (tm : TokenManager N) : Outcome A * TokenManager N :=
  if tm_mutexHeld tm then (Blocked, tm)
  else
    match body (setMutex tm true) with
    | (Done a, tm') => (Done a, setMutex tm' false)
    | (Blocked, tm') => (Blocked, tm')
    end.

(** [time.Now()]. *)
Definition Now (n : Net N) : Time * Net N :=
  let '(now, w) := clock_Now (wire n) in (now, mkNet w (calls n)).

(** [GetLongLivedToken]. *)
Definition GetLongLivedToken (shortLivedToken appID appSecret baseURL version : string)
    (n : Net N) : go_err TokenResponse * Net N :=
  if decide (shortLivedToken = "") then (Err "token de acesso não pode ser vazio", n)
  else
    let '(resp, w) :=
      graph_oauth_access_token baseURL version appID appSecret shortLivedToken (wire n) in
    let n := mkNet w (calls n ++ [EvTokenExchange shortLivedToken]) in
    match resp with
    | GetFailed err => (Err ("erro ao obter token de longa duração: " +:+ err), n)
    | Response statusCode body (Some err) => (Err ("erro ao ler resposta: " +:+ err), n)
    | Response statusCode body None =>
        if negb (statusCode =? StatusOK) then
          (Err ("erro ao obter token de longa duração. Status: " +:+ Itoa statusCode
                +:+ ", Resposta: " +:+ body), n)
        else
          match json_TokenResponse body with
          | Err err => (Err ("erro ao decodificar resposta: " +:+ err), n)
          | Ok tokenResp =>
              if decide (tr_AccessToken tokenResp = "") then
                (Err "token retornado pela API é vazio", n)
              else (Ok tokenResp, n)
          end
    end.

(** [CheckTokenValidity]. *)
Definition CheckTokenValidity (token apiURL : string) (n : Net N) : go_err bool * Net N :=
  if decide (token = "") then (Err "token não pode ser vazio", n)
  else
    let '(resp, w) := graph_me apiURL token (wire n) in
    let n := mkNet w (calls n ++ [EvTokenCheck token]) in
    match resp with
    | GetFailed err => (Err ("erro ao verificar token: " +:+ err), n)
    | Response statusCode _ _ =>
        if negb (statusCode =? StatusOK) then (Ok false, n) else (Ok true, n)
    end.

(** [GetDebugTokenInfo], followed by the two type assertions that
    [ValidateExistingToken] makes on its result. *)
Definition GetDebugTokenInfo (token appID appSecret baseURL version : string)
    (n : Net N) : go_err (option Z) * Net N :=
  let '(resp, w) := graph_debug_token baseURL version token appID appSecret (wire n) in
  let n := mkNet w (calls n ++ [EvTokenDebug token]) in
  match resp with
  | GetFailed err => (Err ("erro ao obter informações de debug do token: " +:+ err), n)
  | Response statusCode body readErr =>
      if negb (statusCode =? StatusOK) then
        (Err ("erro ao obter informações de debug do token. Status: " +:+ Itoa statusCode
              +:+ ", Resposta: " +:+ body), n)
      else
        match readErr with
        | Some err => (Err ("erro ao ler resposta: " +:+ err), n)
        | None =>
            match json_debug_expires_at body with
            | Err err => (Err ("erro ao decodificar resposta: " +:+ err), n)
            | Ok expiresAt => (Ok expiresAt, n)
            end
        end
  end.

(** [CalculateTokenExpiration]: [int64] arithmetic, [/] truncates. *)
Definition CalculateTokenExpiration (expiresIn : Z) (n : Net N) : Time * Net N :=
  let buffer := 24 * 60 * 60 in
  let safeExpiresIn := wrap64 (expiresIn - buffer) in
  let safeExpiresIn := if safeExpiresIn <? 0 then Z.quot expiresIn 2 else safeExpiresIn in
  let '(now, n) := Now n in
  (Add now (wrap64 (safeExpiresIn * nanosPerSecond)), n).

(** [RenderClient.AddOrUpdateSecret]; its error is dropped by the caller. *)
Definition AddOrUpdateSecret (serviceID secretName secretContent : string) (n : Net N) : Net N :=
  mkNet (render_AddOrUpdateSecret serviceID secretName secretContent (wire n))
        (calls n ++ [EvSecretUpdate serviceID secretName secretContent]).

(** The three assignments after a successful exchange. *)
Definition installToken (c : MetaConfig) (tokenResponse : TokenResponse) (expiresAt : Time)
    : MetaConfig :=
  {| meta_AccessToken := tr_AccessToken tokenResponse;
     meta_LongLivedToken := tr_AccessToken tokenResponse;
     meta_TokenExpiresAt := expiresAt;
     meta_AppID := meta_AppID c;
     meta_AppSecret := meta_AppSecret c;
     meta_BaseURL := meta_BaseURL c;
     meta_Version := meta_Version c;
     meta_URL := meta_URL c;
     render_ServiceID := render_ServiceID c |}.

(** [TokenManager.InitiateToken]. *)
Definition InitiateToken : TokenManager N -> Outcome error * TokenManager N :=
  withMutex (fun tm =>
    let c := tm_cfg tm in
    if negb (bool_decide (meta_LongLivedToken c = "")) then (Done None, tm)
    else
      let '(res, n) :=
        GetLongLivedToken (meta_AccessToken c) (meta_AppID c) (meta_AppSecret c)
                          (meta_BaseURL c) (meta_Version c) (tm_net tm) in
      match res with
      | Err err => (Done (Some ("erro ao obter token de longa duração: " +:+ err)), setNet tm n)
      | Ok tokenResponse =>
          let '(expiresAt, n) := CalculateTokenExpiration (tr_ExpiresIn tokenResponse) n in
          let c := installToken c tokenResponse expiresAt in
          let n := AddOrUpdateSecret (render_ServiceID c) "meta_access_token"
                                     (meta_AccessToken c) n in
          (Done None, setNet (setCfg tm c) n)
      end).

(** [TokenManager.refreshTokenInternal].  The test on the expiry only
    logs; it reads the clock when the expiry is set. *)
Definition refreshTokenInternal : TokenManager N -> Outcome error * TokenManager N :=
  withMutex (fun tm =>
    let c := tm_cfg tm in
    let n := if negb (IsZero (meta_TokenExpiresAt c)) then snd (Now (tm_net tm))
             else tm_net tm in
    let '(res, n) :=
      GetLongLivedToken (meta_AccessToken c) (meta_AppID c) (meta_AppSecret c)
                        (meta_BaseURL c) (meta_Version c) n in
    match res with
    | Err errMsg =>
        if Contains errMsg "Error validating access token"
           || Contains errMsg "Session has expired"
           || Contains errMsg "The session has been invalidated"
        then (Done (Some ("o token de acesso expirou e não pode ser renovado automaticamente. "
                          +:+ "É necessário reautorizar o aplicativo através do processo de autenticação OAuth: "
                          +:+ errMsg)), setNet tm n)
        else (Done (Some ("erro ao obter novo token de longa duração: " +:+ errMsg)),
              setNet tm n)
    | Ok tokenResponse =>
        let '(expiresAt, n) := CalculateTokenExpiration (tr_ExpiresIn tokenResponse) n in
        (Done None, setNet (setCfg tm (installToken c tokenResponse expiresAt)) n)
    end).

(** [TokenManager.RefreshToken]. *)
Definition RefreshToken (tm : TokenManager N) : Outcome error * TokenManager N :=
  refreshTokenInternal tm.

(** [TokenManager.ValidateExistingToken]: it calls
    [refreshTokenInternal] while it holds the mutex. *)
Definition ValidateExistingToken : TokenManager N -> Outcome error * TokenManager N :=
  withMutex (fun tm =>
    let c := tm_cfg tm in
    let '(res, n) := CheckTokenValidity (meta_LongLivedToken c) (meta_URL c) (tm_net tm) in
    match res with
    | Err err =>
        (Done (Some ("erro ao verificar validade do token de longa duração: " +:+ err)),
         setNet tm n)
    | Ok false => refreshTokenInternal (setNet tm n)
    | Ok true =>
        let '(debugInfo, n) :=
          GetDebugTokenInfo (meta_LongLivedToken c) (meta_AppID c) (meta_AppSecret c)
                            (meta_BaseURL c) (meta_Version c) n in
        match debugInfo with
        | Err err => (Done (Some ("erro ao obter informações do token: " +:+ err)), setNet tm n)
        | Ok (Some expiresAt) =>
            let c' :=
              {| meta_AccessToken := meta_LongLivedToken c;
                 meta_LongLivedToken := meta_LongLivedToken c;
                 meta_TokenExpiresAt :=
                   Add (mkTime (expiresAt * nanosPerSecond) time_Local) (wrap64 (- 24 * Hour));
                 meta_AppID := meta_AppID c;
                 meta_AppSecret := meta_AppSecret c;
                 meta_BaseURL := meta_BaseURL c;
                 meta_Version := meta_Version c;
                 meta_URL := meta_URL c;
                 render_ServiceID := render_ServiceID c |} in
            (Done None, setNet (setCfg tm c') n)
        | Ok None =>
            (Done (Some "não foi possível determinar quando o token expira"), setNet tm n)
        end
    end).

(** [TokenManager.EnsureValidToken]. *)
Definition EnsureValidToken (tm : TokenManager N) : Outcome error * TokenManager N :=
  if bool_decide (meta_AccessToken (tm_cfg tm) = "") then InitiateToken tm
  else
    let '(now, n) := Now (tm_net tm) in
    if Until now (meta_TokenExpiresAt (tm_cfg tm)) <? 24 * Hour then RefreshToken (setNet tm n)
    else (Done None, setNet tm n).

(** [TokenManager.InitToken]: every error is logged and dropped. *)
Definition InitToken (tm : TokenManager N) : Outcome unit * TokenManager N :=
  let drop (r : Outcome error * TokenManager N) : Outcome unit * TokenManager N :=
    match r with
    | (Done _, tm') => (Done tt, tm')
    | (Blocked, tm') => (Blocked, tm')
    end in
  if bool_decide (meta_LongLivedToken (tm_cfg tm) = "") then drop (InitiateToken tm)
  else if IsZero (meta_TokenExpiresAt (tm_cfg tm)) then
    match ValidateExistingToken tm with
    | (Done (Some _), tm') => drop (RefreshToken tm')
    | (Done None, tm') => (Done tt, tm')
    | (Blocked, tm') => (Blocked, tm')
    end
  else drop (EnsureValidToken tm).

(** [containsTokenExpirationMessage]. *)
Definition containsTokenExpirationMessage (message : string) : bool :=
  Contains message "Error validating access token"
  || Contains message "Session has expired"
  || Contains message "The session has been invalidated".

(** The common body of [handleExpiredToken] and
    [handleExpiredTokenByMessage], which differ in what they log. *)
Definition refreshExpired (tm : TokenManager N) : Outcome (go_err string) * TokenManager N :=
  match RefreshToken tm with
  | (Done (Some refreshErr), tm') =>
      if Contains refreshErr "necessário reautorizar" then
        (Done (Err ("token expirou permanentemente e requer reautorização manual: "
                    +:+ refreshErr)), tm')
      else (Done (Err ("erro ao renovar token expirado: " +:+ refreshErr)), tm')
  | (Done None, tm') => (Done (Err "token expirado e renovado, por favor tente novamente"), tm')
  | (Blocked, tm') => (Blocked, tm')
  end.

(** [TokenManager.handleExpiredToken]. *)
Definition handleExpiredToken (errorResp : ErrorResponse) (tm : TokenManager N)
    : Outcome (go_err string) * TokenManager N :=
  refreshExpired tm.

(** [TokenManager.handleExpiredTokenByMessage]. *)
Definition handleExpiredTokenByMessage (bodyStr : string) (tm : TokenManager N)
    : Outcome (go_err string) * TokenManager N :=
  refreshExpired tm.

(** [TokenManager.handleErrorResponse]. *)
Definition handleErrorResponse (body : string) (tm : TokenManager N)
    : Outcome (go_err string) * TokenManager N :=
  match json_ErrorResponse body with
  | Ok errorResp =>
      if IsTokenExpired errorResp then handleExpiredToken errorResp tm
      else if containsTokenExpirationMessage body then handleExpiredTokenByMessage body tm
      else (Done (Err ("erro na resposta da API. Status: " +:+ Itoa StatusBadRequest
                       +:+ ", Corpo: " +:+ body)), tm)
  | Err _ =>
      if containsTokenExpirationMessage body then handleExpiredTokenByMessage body tm
      else (Done (Err ("erro na resposta da API. Status: " +:+ Itoa StatusBadRequest
                       +:+ ", Corpo: " +:+ body)), tm)
  end.

(** [TokenManager.HandleResponse] on a response with the given status,
    whose body [io.ReadAll] reads as [body] with error [readErr]. *)
Definition HandleResponse (statusCode : Z) (body : string) (readErr : option string)
    (tm : TokenManager N) : Outcome (go_err string) * TokenManager N :=
  match readErr with
  | Some err => (Done (Err ("erro ao ler resposta: " +:+ err)), tm)
  | None =>
      if statusCode =? StatusOK then (Done (Ok body), tm)
      else handleErrorResponse body tm
  end.

End TokenManaging.

(* PROPERTIES *)

(* ================================================================== *)
(** * Properties of the Go primitives *)
(* ================================================================== *)

Lemma wrap64_add_l (a b : Z) : wrap64 (wrap64 a + b) = wrap64 (a + b).
Proof.
  unfold wrap64.
  replace ((a + 2 ^ 63) mod 2 ^ 64 - 2 ^ 63 + b + 2 ^ 63)
    with ((a + 2 ^ 63) mod 2 ^ 64 + b) by lia.
  rewrite Zplus_mod_idemp_l.
  replace (a + 2 ^ 63 + b) with (a + b + 2 ^ 63) by lia.
  reflexivity.
Qed.

Lemma wrap64_small (a : Z) : is_int64 a -> wrap64 a = a.
Proof.
  unfold is_int64, wrap64. intros H.
  rewrite Z.mod_small; lia.
Qed.

Lemma wrap64_range (a : Z) : is_int64 (wrap64 a).
Proof.
  unfold is_int64, wrap64.
  pose proof (Z.mod_pos_bound (a + 2 ^ 63) (2 ^ 64) ltac:(lia)). lia.
Qed.

Lemma wrap64_idemp (a : Z) : wrap64 (wrap64 a) = wrap64 a.
Proof. apply wrap64_small, wrap64_range. Qed.

(* ================================================================== *)
(** * Properties of the aggregation *)
(* ================================================================== *)

(** The contribution of one record to an integer total: records without
    metrics are skipped by the loop. *)
Definition metricOf (f : AdAccountMetrics -> Z) (e : AdInsightEntry) : Z :=
  match ae_AdMetrics e with
  | Some m => f m
  | None => 0
  end.

Definition sumMetric (f : AdAccountMetrics -> Z) (l : list AdInsightEntry) : Z :=
  foldr (fun e acc => metricOf f e + acc) 0 l.

Lemma sumMetric_perm (f : AdAccountMetrics -> Z) (l l' : list AdInsightEntry) :
  l ≡ₚ l' -> sumMetric f l = sumMetric f l'.
Proof.
  induction 1 as [|x l l' _ IH|x y l|l l' l'' _ IH1 _ IH2]; simpl; lia.
Qed.

(** The first record of the slice has metrics (vacuous on the empty slice). *)
Definition headHasMetrics (l : list AdInsightEntry) : Prop :=
  match l with
  | [] => True
  | first :: _ => is_Some (ae_AdMetrics first)
  end.

Lemma fold_combineStep_totals (l : list AdInsightEntry) (st : combineState) :
  let st' := fold_left combineStep l st in
  wrap64 (totalImpression st') = wrap64 (totalImpression st + sumMetric am_Impressions l)
  /\ wrap64 (totalReach st') = wrap64 (totalReach st + sumMetric am_Reach l)
  /\ wrap64 (totalResults st') = wrap64 (totalResults st + sumMetric am_Result l).
Proof.
  revert st. induction l as [|e l IH]; intros st; simpl.
  - rewrite !Z.add_0_r. auto.
  - destruct (IH (combineStep st e)) as (H1 & H2 & H3).
    rewrite H1, H2, H3. clear.
    unfold combineStep, metricOf.
    destruct (ae_AdMetrics e) as [m|]; simpl.
    + unfold int_add. rewrite !wrap64_add_l.
      repeat split; f_equal; lia.
    + repeat split; f_equal; lia.
Qed.

Lemma fold_combineStep_in_range (l : list AdInsightEntry) (st : combineState) :
  is_int64 (totalImpression st) -> is_int64 (totalReach st) -> is_int64 (totalResults st) ->
  let st' := fold_left combineStep l st in
  is_int64 (totalImpression st') /\ is_int64 (totalReach st') /\ is_int64 (totalResults st').
Proof.
  revert st. induction l as [|e l IH]; intros st Hi Hr Hs; simpl; [auto|].
  apply IH; unfold combineStep, int_add; destruct (ae_AdMetrics e); simpl;
    auto using wrap64_range.
Qed.

(** The three integer totals of the loop are the wrapped sums over the
    records that have metrics. *)
Lemma combine_totals (l : list AdInsightEntry) (st : combineState) :
  totalImpression st = 0 -> totalReach st = 0 -> totalResults st = 0 ->
  let st' := fold_left combineStep l st in
  totalImpression st' = wrap64 (sumMetric am_Impressions l)
  /\ totalReach st' = wrap64 (sumMetric am_Reach l)
  /\ totalResults st' = wrap64 (sumMetric am_Result l).
Proof.
  intros Hi Hr Hs st'.
  destruct (fold_combineStep_totals l st) as (H1 & H2 & H3).
  destruct (fold_combineStep_in_range l st) as (R1 & R2 & R3);
    try (rewrite ?Hi, ?Hr, ?Hs; unfold is_int64; lia).
  fold st' in H1, H2, H3, R1, R2, R3.
  rewrite Hi in H1. rewrite Hr in H2. rewrite Hs in H3. simpl in H1, H2, H3.
  rewrite wrap64_small in H1 by assumption.
  rewrite wrap64_small in H2 by assumption.
  rewrite wrap64_small in H3 by assumption.
  auto.
Qed.

(** Two results of [combineAdMetrics] agree on the integer totals and on the
    frequency derived from them. *)
Definition sameCountTotals (r r' : go_result (option AdAccountMetrics)) : Prop :=
  match r, r' with
  | Returns None, Returns None => True
  | Returns (Some c), Returns (Some c') =>
      am_Impressions c = am_Impressions c'
      /\ am_Reach c = am_Reach c'
      /\ am_Result c = am_Result c'
      /\ am_Frequency c = am_Frequency c'
  | _, _ => False
  end.

Section CombineProperties.

Variable FormatFloat : float64 -> string.

Lemma combineAdMetrics_returns (first : AdInsightEntry) (rest : list AdInsightEntry)
    (m0 : AdAccountMetrics) :
  ae_AdMetrics first = Some m0 ->
  combineAdMetrics FormatFloat (first :: rest) =
    let st := fold_left combineStep (first :: rest)
      {| totalImpression := 0; totalReach := 0; totalResults := 0;
         totalSpend := PrimFloat.zero;
         costPerResultByDate := <[FormatDateOnly (ae_Date first) := am_CostPerResult m0]> ∅;
         resultByDate := <[FormatDateOnly (ae_Date first) := am_Result m0]> ∅;
         campaignMap := ∅ |} in
    Returns (Some (calculateDerivedMetrics (ae_ExternalID first) (am_Name m0)
      (am_Objective m0)
      (omap (fun kv => finishCampaign FormatFloat (snd kv)) (map_to_list (campaignMap st))) st)).
Proof. intros H. unfold combineAdMetrics. rewrite H. reflexivity. Qed.

(** C8 (as amended).  Permuting the records leaves the summed impressions,
    reach and result, and the frequency computed from them, unchanged,
    provided the first record of either order has metrics. *)
Theorem combineAdMetrics_count_totals_perm (l l' : list AdInsightEntry) :
  l ≡ₚ l' -> headHasMetrics l -> headHasMetrics l' ->
  sameCountTotals (combineAdMetrics FormatFloat l) (combineAdMetrics FormatFloat l').
Proof.
  intros HP Hl Hl'.
  destruct l as [|e l0]; destruct l' as [|e' l0'].
  - exact I.
  - apply Permutation_nil_l in HP. discriminate.
  - apply Permutation_nil_r in HP. discriminate.
  - destruct Hl as [m Hm]. destruct Hl' as [m' Hm'].
    rewrite (combineAdMetrics_returns e l0 m Hm).
    rewrite (combineAdMetrics_returns e' l0' m' Hm').
    cbv zeta. unfold sameCountTotals, calculateDerivedMetrics; cbn [am_Impressions am_Reach am_Result am_Frequency].
    match goal with
    | |- context [fold_left combineStep (e :: l0) ?s] =>
        destruct (combine_totals (e :: l0) s eq_refl eq_refl eq_refl) as (H1 & H2 & H3)
    end.
    match goal with
    | |- context [fold_left combineStep (e' :: l0') ?s] =>
        destruct (combine_totals (e' :: l0') s eq_refl eq_refl eq_refl) as (H1' & H2' & H3')
    end.
    cbv zeta in H1, H2, H3, H1', H2', H3'.
    rewrite H1, H2, H3, H1', H2', H3'.
    rewrite (sumMetric_perm am_Impressions _ _ HP).
    rewrite (sumMetric_perm am_Reach _ _ HP).
    rewrite (sumMetric_perm am_Result _ _ HP).
    auto.
Qed.

(** Records of other days leave the entries of a day untouched. *)
Lemma fold_combineStep_other_dates (l : list AdInsightEntry) (st : combineState) (d : string) :
  (forall e, e ∈ l -> FormatDateOnly (ae_Date e) <> d) ->
  resultByDate (fold_left combineStep l st) !! d = resultByDate st !! d
  /\ costPerResultByDate (fold_left combineStep l st) !! d = costPerResultByDate st !! d.
Proof.
  revert st. induction l as [|e l IH]; intros st H; simpl; [auto|].
  destruct (IH (combineStep st e)) as [H1 H2].
  { intros e' He'. apply H. by right. }
  rewrite H1, H2.
  assert (Hd : FormatDateOnly (ae_Date e) <> d) by (apply H; by left).
  unfold combineStep. destruct (ae_AdMetrics e); simpl; [|auto].
  unfold addAtZ, addAtF. by rewrite !lookup_insert_ne.
Qed.

(** C10.  The per-date maps are seeded with the first record and the loop
    adds the first record again: when no other record has the date of the
    first one, the entries of that date are the first record's result and
    cost-per-result added to themselves. *)
Theorem combineAdMetrics_first_record_counted_twice
    (first : AdInsightEntry) (rest : list AdInsightEntry) (m0 : AdAccountMetrics) :
  ae_AdMetrics first = Some m0 ->
  (forall e, e ∈ rest -> FormatDateOnly (ae_Date e) <> FormatDateOnly (ae_Date first)) ->
  exists c,
    combineAdMetrics FormatFloat (first :: rest) = Returns (Some c)
    /\ am_ResultByDate c !! FormatDateOnly (ae_Date first)
       = Some (wrap64 (2 * am_Result m0))
    /\ am_CostPerResultByDate c !! FormatDateOnly (ae_Date first)
       = Some (PrimFloat.add (am_CostPerResult m0) (am_CostPerResult m0)).
Proof.
  intros Hm Hrest.
  rewrite (combineAdMetrics_returns first rest m0 Hm).
  cbv zeta. eexists. split; [reflexivity|].
  unfold calculateDerivedMetrics; cbn [am_ResultByDate am_CostPerResultByDate fold_left].
  match goal with
  | |- context [fold_left combineStep rest ?s] =>
      destruct (fold_combineStep_other_dates rest s _ Hrest) as [H1 H2];
      rewrite H1, H2; clear H1 H2
  end.
  unfold combineStep. rewrite Hm. simpl.
  unfold addAtZ, addAtF.
  rewrite !lookup_insert_eq. simpl.
  split; [|reflexivity].
  unfold int_add. do 2 f_equal. lia.
Qed.

End CombineProperties.

(** The formatter of campaign frequencies used in the sample runs; the
    sample records carry no campaigns. *)
Definition sampleFormatFloat (x : float64) : string := "".

Lemma combineAdMetrics_count_totals_perm_witness :
  sameCountTotals
    (combineAdMetrics sampleFormatFloat [spendDay0; spendDay1; emptyDay3; spendDay2])
    (combineAdMetrics sampleFormatFloat [spendDay2; emptyDay3; spendDay1; spendDay0]).
Proof.
  apply (combineAdMetrics_count_totals_perm sampleFormatFloat
           [spendDay0; spendDay1; emptyDay3; spendDay2]
           [spendDay2; emptyDay3; spendDay1; spendDay0]).
  - change [spendDay2; emptyDay3; spendDay1; spendDay0]
      with (rev [spendDay0; spendDay1; emptyDay3; spendDay2]).
    apply Permutation_rev.
  - simpl. eauto.
  - simpl. eauto.
Defined.

(** The spend of the result, or NaN when there is no result. *)
Definition spendOf (r : go_result (option AdAccountMetrics)) : float64 :=
  match r with
  | Returns (Some c) => am_Spend c
  | _ => PrimFloat.nan
  end.

Definition costPerResultOf (r : go_result (option AdAccountMetrics)) : float64 :=
  match r with
  | Returns (Some c) => am_CostPerResult c
  | _ => PrimFloat.nan
  end.

(** C8 fails as stated.  The spend is a [float64] sum taken in list order:
    the daily spends 0.035, 0.3 and 0.1 add up to 0.43 in this order and to
    0.44 in the reverse order, and the cost per result follows the spend. *)
Lemma combineAdMetrics_spend_depends_on_order :
  [spendDay0; spendDay1; spendDay2] ≡ₚ [spendDay2; spendDay1; spendDay0]
  /\ spendOf (combineAdMetrics sampleFormatFloat [spendDay0; spendDay1; spendDay2]) = 0.43%float
  /\ spendOf (combineAdMetrics sampleFormatFloat [spendDay2; spendDay1; spendDay0]) = 0.44%float
  /\ spendOf (combineAdMetrics sampleFormatFloat [spendDay0; spendDay1; spendDay2])
     <> spendOf (combineAdMetrics sampleFormatFloat [spendDay2; spendDay1; spendDay0]).
Proof.
  split; [|split; [|split]].
  - change [spendDay2; spendDay1; spendDay0] with (rev [spendDay0; spendDay1; spendDay2]).
    apply Permutation_rev.
  - vm_compute. reflexivity.
  - vm_compute. reflexivity.
  - vm_compute. intros H. discriminate H.
Qed.

(** The guard of the loop is missing before the loop: a record without
    metrics is skipped in second place and panics in first place. *)
Lemma combineAdMetrics_nil_first_panics :
  (exists c, combineAdMetrics sampleFormatFloat [spendDay0; emptyDay3] = Returns (Some c))
  /\ combineAdMetrics sampleFormatFloat [emptyDay3; spendDay0] = Panics.
Proof. split; [eexists|]; reflexivity. Qed.

Lemma combineAdMetrics_first_record_counted_twice_witness :
  exists c,
    combineAdMetrics sampleFormatFloat [spendDay0; spendDay1; spendDay2] = Returns (Some c)
    /\ am_ResultByDate c !! "2024-01-15" = Some 6
    /\ am_CostPerResultByDate c !! "2024-01-15" = Some 0.02%float.
Proof.
  destruct (combineAdMetrics_first_record_counted_twice sampleFormatFloat
              spendDay0 [spendDay1; spendDay2]
              (sampleMetrics 1000 400 3 0.035%float 0.01%float) eq_refl)
    as (c & Hc & Hr & Hf).
  - intros e He.
    apply elem_of_cons in He as [->|He]; [vm_compute; discriminate|].
    apply elem_of_cons in He as [->|He]; [vm_compute; discriminate|].
    apply elem_of_nil in He. destruct He.
  - exists c. split; [exact Hc|]. split; [exact Hr | exact Hf].
Defined.

(* ================================================================== *)
(** * Properties of the cache fill *)
(* ================================================================== *)

(** A save event was allowed by its guard: the date of the record formats
    to another day than the reading of the clock. *)
Definition saveGuarded (ev : Event) : Prop :=
  match ev with
  | EvAdSave entry now => FormatDateOnly (ae_Date entry) <> FormatDateOnly now
  | EvSalesSave entry now => FormatDateOnly (se_Date entry) <> FormatDateOnly now
  | _ => True
  end.

(** A fetch that produced a record is followed by that record in the
    result, whether or not it was saved. *)
Definition adFetchKept (result : list AdInsightEntry) (ev : Event) : Prop :=
  match ev with
  | EvAdFetch _ date true =>
      exists entry, entry ∈ result /\ ae_Date entry = date /\ is_Some (ae_AdMetrics entry)
  | _ => True
  end.

Definition salesFetchKept (result : list SalesInsightEntry) (ev : Event) : Prop :=
  match ev with
  | EvSalesFetch _ _ date _ true =>
      exists entry, entry ∈ result /\ se_Date entry = date /\ is_Some (se_SalesMetrics entry)
  | _ => True
  end.

Lemma adFetchKept_mono (result more : list AdInsightEntry) (ev : Event) :
  adFetchKept result ev -> adFetchKept (result ++ more) ev.
Proof.
  destruct ev as [| | x d [|] | | | | | |]; simpl; auto.
  intros (e & He & Hd & Hm). exists e. split; [apply elem_of_app; auto|auto].
Qed.

Lemma salesFetchKept_mono (result more : list SalesInsightEntry) (ev : Event) :
  salesFetchKept result ev -> salesFetchKept (result ++ more) ev.
Proof.
  destruct ev as [| | | | | c n d d' [|] | | |]; simpl; auto.
  intros (e & He & Hd & Hm). exists e. split; [apply elem_of_app; auto|auto].
Qed.

Section CacheFillProperties.

Context {W : Type} `{Collaborators W}.
Variable completion : list Time -> list Time.

(** What one goroutine of the ad fetch phase does. *)
Lemma fetchAdDate_events (account : AdAccount) (accountExternalID : string) (date : Time)
    (r : Run W) :
  let out := fetchAdDate account accountExternalID date r in
  exists evs,
    log out.2 = log r ++ evs
    /\ Forall saveGuarded evs
    /\ Forall (adFetchKept (option_list out.1)) evs
    /\ Forall (fun ev => forall e now, ev <> EvSalesSave e now) evs.
Proof.
  unfold fetchAdDate.
  destruct (metaService_GetAdAccountsInsights accountExternalID date date (world r))
    as [[adMetrics|msg] w1]; cbn [world log].
  - destruct (time_Now w1) as [now w2].
    destruct (decide (FormatDateOnly date <> FormatDateOnly now)) as [Hne|Heq].
    + destruct (adInsightRepository_SaveOrUpdate _ w2) as [err w3]. cbn.
      eexists. split; [rewrite <- app_assoc; reflexivity|].
      repeat split; repeat constructor; simpl; eauto; try discriminate.
      eexists. split; [by left|]. eauto.
    + cbn. eexists. split; [reflexivity|].
      repeat split; repeat constructor; simpl; eauto; try discriminate.
      eexists. split; [by left|]. eauto.
  - cbn. eexists. split; [reflexivity|].
    repeat split; repeat constructor; simpl; auto; discriminate.
Qed.

Lemma fetchAdDates_events (account : AdAccount) (accountExternalID : string)
    (dates : list Time) (acc : list AdInsightEntry) (r : Run W) :
  let out := fetchAdDates account accountExternalID dates (acc, r) in
  exists evs more,
    log out.2 = log r ++ evs
    /\ out.1 = acc ++ more
    /\ Forall saveGuarded evs
    /\ Forall (adFetchKept out.1) evs.
Proof.
  revert acc r. induction dates as [|date dates IH]; intros acc r.
  - exists [], []. cbn. rewrite !app_nil_r. auto.
  - unfold fetchAdDates. cbn [fold_left].
    destruct (fetchAdDate_events account accountExternalID date r)
      as (evs1 & Hlog1 & Hg1 & Hk1 & _).
    destruct (fetchAdDate account accountExternalID date r) as [o r1]; cbn [fst snd] in *.
    match goal with
    | |- context [fold_left ?f dates ?a] =>
        change (fold_left f dates a) with (fetchAdDates account accountExternalID dates a)
    end.
    destruct o as [adInsight|].
    + destruct (IH (acc ++ [adInsight]) r1) as (evs2 & more & Hlog2 & Hres2 & Hg2 & Hk2).
      exists (evs1 ++ evs2), (adInsight :: more).
      rewrite Hlog2, Hlog1, Hres2, <- !app_assoc. repeat split; auto.
      * apply Forall_app; auto.
      * apply Forall_app. split; [|by rewrite Hres2, <- app_assoc in Hk2].
        eapply Forall_impl; [exact Hk1|]. intros ev Hev.
        destruct ev as [| | x d [|] | | | | | |]; simpl in *; auto.
        destruct Hev as (e & He & Hd & Hm). apply list_elem_of_singleton in He. subst e.
        exists adInsight. split; [|auto].
        apply elem_of_app. right. by left.
    + destruct (IH acc r1) as (evs2 & more & Hlog2 & Hres2 & Hg2 & Hk2).
      exists (evs1 ++ evs2), more.
      rewrite Hlog2, Hlog1, Hres2, <- !app_assoc. repeat split; auto.
      * apply Forall_app; auto.
      * apply Forall_app. split; [|by rewrite Hres2 in Hk2].
        eapply Forall_impl; [exact Hk1|]. intros ev Hev.
        destruct ev as [| | x d [|] | | | | | |]; simpl in *; auto.
        destruct Hev as (e & He & _). by apply elem_of_nil in He.
Qed.

Lemma getAdMetricsWithCache_events (account : AdAccount) (accountExternalID : string)
    (startDate endDate : Time) (allDates : list Time) (r : Run W) :
  let out := getAdMetricsWithCache completion account accountExternalID
               startDate endDate allDates r in
  exists evs,
    log out.2 = log r ++ evs
    /\ Forall saveGuarded evs
    /\ Forall (adFetchKept out.1) evs.
Proof.
  unfold getAdMetricsWithCache.
  destruct (adInsightRepository_GetByDateRange _ _ _ _) as [res w1].
  match goal with
  | |- context [filter ?P allDates] => destruct (filter P allDates) as [|d0 missing] eqn:Hmiss
  end.
  - cbn. eexists. split; [reflexivity|]. split; repeat constructor.
  - match goal with
    | |- context [fetchAdDates _ _ ?ds (?a, ?r1)] =>
        destruct (fetchAdDates_events account accountExternalID ds a r1)
          as (evs & more & Hlog & Hres & Hg & Hk)
    end.
    cbn [log] in Hlog. cbv zeta.
    eexists. split; [rewrite Hlog, <- app_assoc; reflexivity|].
    split; constructor; simpl; auto.
Qed.

(** A successful [GetSalesMetrics] answers with the two origins. *)
Lemma GetSalesMetrics_result (cnpj secretName : string) (startDate endDate : Time) (r : Run W) :
  let out := GetSalesMetrics cnpj secretName startDate endDate r in
  (exists ok, log out.2 = log r ++ [EvSalesFetch cnpj secretName startDate endDate ok]
              /\ (ok = true <-> exists m, out.1 = Ok m))
  /\ (forall m, out.1 = Ok m -> size m <> 0%nat).
Proof.
  unfold GetSalesMetrics.
  destruct (ssoticaService_GetSalesByAccount _ _ _ _ _) as [[sales|msg] w]; cbn [fst snd log].
  - destruct (getSalesMetricsByOrigin SocialNetworkOrigin sales) as [m1|e1].
    + destruct (getSalesMetricsByOrigin OthersOrigin sales) as [m2|e2].
      * split.
        -- eexists. split; [reflexivity|]. split; eauto.
        -- intros m [= <-]. apply map_size_non_empty_iff, insert_non_empty.
      * split; [|discriminate].
        eexists. split; [reflexivity|]. split; [discriminate|]. intros [? [=]].
    + split; [|discriminate].
      eexists. split; [reflexivity|]. split; [discriminate|]. intros [? [=]].
  - split; [|discriminate].
    eexists. split; [reflexivity|]. split; [discriminate|]. intros [? [=]].
Qed.

(** What one goroutine of the sales fetch phase does. *)
Lemma fetchSalesDate_events (account : AdAccount) (cnpj secretName : string) (date : Time)
    (r : Run W) :
  let out := fetchSalesDate account cnpj secretName date r in
  exists evs,
    log out.2 = log r ++ evs
    /\ Forall saveGuarded evs
    /\ Forall (salesFetchKept (option_list out.1)) evs.
Proof.
  unfold fetchSalesDate.
  destruct (GetSalesMetrics_result cnpj secretName date date r) as [(ok & Hlog & Hok) Hsize].
  destruct (GetSalesMetrics cnpj secretName date date r) as [[salesMetrics|msg] r1];
    cbn [fst snd] in *.
  - destruct (decide (size salesMetrics = 0%nat)) as [Hz|_].
    { by destruct (Hsize salesMetrics eq_refl). }
    destruct (time_Now (world r1)) as [now w2].
    destruct (decide (FormatDateOnly date <> FormatDateOnly now)) as [Hne|Heq].
    + destruct (salesInsightRepository_SaveOrUpdate _ w2) as [err w3]. cbn.
      eexists. split; [rewrite Hlog, <- app_assoc; reflexivity|].
      split; repeat constructor; simpl; auto.
      destruct ok; [|exact I].
      eexists. split; [by left|]. eauto.
    + cbn. eexists. split; [rewrite Hlog; reflexivity|].
      split; repeat constructor; simpl; auto.
      destruct ok; [|exact I].
      eexists. split; [by left|]. eauto.
  - eexists. split; [rewrite Hlog; reflexivity|].
    split; repeat constructor; simpl; auto.
    destruct ok; [|exact I].
    destruct Hok as [Hok _]. destruct (Hok eq_refl) as [m [=]].
Qed.

Lemma fetchSalesDates_events (account : AdAccount) (cnpj secretName : string)
    (dates : list Time) (acc : list SalesInsightEntry) (r : Run W) :
  let out := fetchSalesDates account cnpj secretName dates (acc, r) in
  exists evs more,
    log out.2 = log r ++ evs
    /\ out.1 = acc ++ more
    /\ Forall saveGuarded evs
    /\ Forall (salesFetchKept out.1) evs.
Proof.
  revert acc r. induction dates as [|date dates IH]; intros acc r.
  - exists [], []. cbn. rewrite !app_nil_r. auto.
  - unfold fetchSalesDates. cbn [fold_left].
    destruct (fetchSalesDate_events account cnpj secretName date r)
      as (evs1 & Hlog1 & Hg1 & Hk1).
    destruct (fetchSalesDate account cnpj secretName date r) as [o r1]; cbn [fst snd] in *.
    match goal with
    | |- context [fold_left ?f dates ?a] =>
        change (fold_left f dates a) with (fetchSalesDates account cnpj secretName dates a)
    end.
    destruct o as [salesInsight|].
    + destruct (IH (acc ++ [salesInsight]) r1) as (evs2 & more & Hlog2 & Hres2 & Hg2 & Hk2).
      exists (evs1 ++ evs2), (salesInsight :: more).
      rewrite Hlog2, Hlog1, Hres2, <- !app_assoc. repeat split; auto.
      * apply Forall_app; auto.
      * apply Forall_app. split; [|by rewrite Hres2, <- app_assoc in Hk2].
        eapply Forall_impl; [exact Hk1|]. intros ev Hev.
        destruct ev as [| | | | | c n d d' [|] | | |]; simpl in *; auto.
        destruct Hev as (e & He & Hd & Hm). apply list_elem_of_singleton in He. subst e.
        exists salesInsight. split; [|auto].
        apply elem_of_app. right. by left.
    + destruct (IH acc r1) as (evs2 & more & Hlog2 & Hres2 & Hg2 & Hk2).
      exists (evs1 ++ evs2), more.
      rewrite Hlog2, Hlog1, Hres2, <- !app_assoc. repeat split; auto.
      * apply Forall_app; auto.
      * apply Forall_app. split; [|by rewrite Hres2 in Hk2].
        eapply Forall_impl; [exact Hk1|]. intros ev Hev.
        destruct ev as [| | | | | c n d d' [|] | | |]; simpl in *; auto.
        destruct Hev as (e & He & _). by apply elem_of_nil in He.
Qed.

Lemma getSalesMetricsWithCache_events (account : AdAccount)
    (startDate endDate : Time) (allDates : list Time) (r : Run W) :
  let out := getSalesMetricsWithCache completion account startDate endDate allDates r in
  exists evs,
    log out.2 = log r ++ evs
    /\ Forall saveGuarded evs
    /\ Forall (salesFetchKept out.1) evs.
Proof.
  unfold getSalesMetricsWithCache.
  destruct (salesInsightRepository_GetByDateRange _ _ _ _) as [res w1].
  match goal with
  | |- context [filter ?P allDates] => destruct (filter P allDates) as [|d0 missing] eqn:Hmiss
  end.
  - cbn. eexists. split; [reflexivity|]. split; repeat constructor.
  - destruct (salesCredentials account) as [[cnpj secretName]|].
    + match goal with
      | |- context [fetchSalesDates _ _ _ ?ds (?a, ?r1)] =>
          destruct (fetchSalesDates_events account cnpj secretName ds a r1)
            as (evs & more & Hlog & Hres & Hg & Hk)
      end.
      cbn [log] in Hlog. cbv zeta.
      eexists. split; [rewrite Hlog, <- app_assoc; reflexivity|].
      split; constructor; simpl; auto.
    + cbn. eexists. split; [reflexivity|]. split; repeat constructor.
Qed.

(** C1.  Whatever the collaborators answer and in whatever order the
    goroutines complete, every [SaveOrUpdate] of a cache fill is made for a
    date that formats to another day than the [time.Now()] of its guard,
    and every fetched record, saved or not, is in the returned slice. *)
Theorem cache_fill_never_persists_today (account : AdAccount) (accountExternalID : string)
    (startDate endDate : Time) (allDates : list Time) (r : Run W) :
  let ads := getAdMetricsWithCache completion account accountExternalID
               startDate endDate allDates r in
  let sales := getSalesMetricsWithCache completion account startDate endDate allDates r in
  (exists evs, log ads.2 = log r ++ evs
               /\ Forall saveGuarded evs /\ Forall (adFetchKept ads.1) evs)
  /\ (exists evs, log sales.2 = log r ++ evs
                  /\ Forall saveGuarded evs /\ Forall (salesFetchKept sales.1) evs).
Proof.
  split.
  - apply getAdMetricsWithCache_events.
  - apply getSalesMetricsWithCache_events.
Qed.

End CacheFillProperties.

Lemma filter_none {A : Type} (P : A -> Prop) `{forall x, Decision (P x)} (l : list A) :
  (forall x, x ∈ l -> ~ P x) -> filter P l = [].
Proof.
  induction l as [|x l IH]; intros Hl; [reflexivity|].
  rewrite filter_cons_False by (apply Hl; by left).
  apply IH. intros y Hy. apply Hl. by right.
Qed.

Section CacheFillCovered.

Context {W : Type} `{Collaborators W}.
Variable completion : list Time -> list Time.

Lemma getAdMetricsWithCache_fully_cached (account : AdAccount) (accountExternalID : string)
    (startDate endDate : Time) (allDates : list Time) (r : Run W)
    (rows : list AdInsightEntry) (w1 : W) :
  adInsightRepository_GetByDateRange (acc_ID account) startDate endDate (world r) = (Ok rows, w1) ->
  (forall d, d ∈ allDates ->
     exists row, row ∈ rows /\ FormatDateOnly (ae_Date row) = FormatDateOnly d) ->
  getAdMetricsWithCache completion account accountExternalID startDate endDate allDates r
  = (rows, mkRun w1 (log r ++ [EvAdRangeQuery (acc_ID account) startDate endDate])).
Proof.
  intros Hq Hcov. unfold getAdMetricsWithCache. rewrite Hq.
  rewrite filter_none; [reflexivity|].
  intros d Hd Hnot. apply Hnot.
  destruct (Hcov d Hd) as (row & Hrow & Hfmt).
  apply elem_of_list_to_set, list_elem_of_fmap.
  exists row. split; [symmetry; exact Hfmt | exact Hrow].
Qed.

Lemma getSalesMetricsWithCache_fully_cached (account : AdAccount)
    (startDate endDate : Time) (allDates : list Time) (r : Run W)
    (rows : list SalesInsightEntry) (w1 : W) :
  salesInsightRepository_GetByDateRange (acc_ID account) startDate endDate (world r)
  = (Ok rows, w1) ->
  (forall d, d ∈ allDates ->
     exists row, row ∈ rows /\ FormatDateOnly (se_Date row) = FormatDateOnly d) ->
  getSalesMetricsWithCache completion account startDate endDate allDates r
  = (rows, mkRun w1 (log r ++ [EvSalesRangeQuery (acc_ID account) startDate endDate])).
Proof.
  intros Hq Hcov. unfold getSalesMetricsWithCache. rewrite Hq.
  rewrite filter_none; [reflexivity|].
  intros d Hd Hnot. apply Hnot.
  destruct (Hcov d Hd) as (row & Hrow & Hfmt).
  apply elem_of_list_to_set, list_elem_of_fmap.
  exists row. split; [symmetry; exact Hfmt | exact Hrow].
Qed.

(** C6.  When the range query of the store answers with a record for every
    requested day, the list of missing dates is empty: the cache fill makes
    the range query and nothing else (no fetch, no save) and returns exactly
    the cached records.  For the ads and for the sales. *)
Theorem cache_fill_fully_cached_issues_no_fetch (account : AdAccount)
    (accountExternalID : string) (startDate endDate : Time) (allDates : list Time)
    (r : Run W) (adRows : list AdInsightEntry) (salesRows : list SalesInsightEntry)
    (wAd wSales : W) :
  adInsightRepository_GetByDateRange (acc_ID account) startDate endDate (world r)
  = (Ok adRows, wAd) ->
  salesInsightRepository_GetByDateRange (acc_ID account) startDate endDate (world r)
  = (Ok salesRows, wSales) ->
  (forall d, d ∈ allDates ->
     (exists row, row ∈ adRows /\ FormatDateOnly (ae_Date row) = FormatDateOnly d)
     /\ (exists row, row ∈ salesRows /\ FormatDateOnly (se_Date row) = FormatDateOnly d)) ->
  getAdMetricsWithCache completion account accountExternalID startDate endDate allDates r
  = (adRows, mkRun wAd (log r ++ [EvAdRangeQuery (acc_ID account) startDate endDate]))
  /\ getSalesMetricsWithCache completion account startDate endDate allDates r
     = (salesRows, mkRun wSales (log r ++ [EvSalesRangeQuery (acc_ID account) startDate endDate])).
Proof.
  intros Had Hsales Hcov. split.
  - apply getAdMetricsWithCache_fully_cached; [exact Had|].
    intros d Hd. apply (Hcov d Hd).
  - apply getSalesMetricsWithCache_fully_cached; [exact Hsales|].
    intros d Hd. apply (Hcov d Hd).
Qed.

End CacheFillCovered.

Section ValidationProperties.

Context {W : Type} `{Collaborators W}.
Variable completion : list Time -> list Time.
Variable FormatFloat : float64 -> string.

(** C9.  With a start date after the end date, [GetAdAccountsByID] and
    [GetAdAccountReachImpressions] return the validation error and leave
    the world and the log of calls as they were: no repository lookup, no
    fetch, no save. *)
Theorem start_after_end_fails_without_work (useCache : bool) (accountID : string)
    (startDate endDate : Time) (r : Run W) :
  After startDate endDate = true ->
  let filters := Some {| StartDate := Some startDate; EndDate := Some endDate |} in
  GetAdAccountsByID completion FormatFloat useCache accountID filters r
  = (Returns (Err "a data de início não pode ser posterior à data de fim"), r)
  /\ GetAdAccountReachImpressions accountID filters r
     = (Err "a data de início não pode ser posterior à data de fim", r).
Proof.
  intros Hafter. cbn. rewrite Hafter. split; reflexivity.
Qed.

End ValidationProperties.

(** ** Runs of the cache fill on the in-memory double *)

Lemma cache_fill_fully_cached_issues_no_fetch_witness :
  getAdMetricsWithCache inOrder sampleAccount "act_1" (jan 14) (jan 15)
    [jan 14; jan 15] (mkRun cachedWorld [])
  = (cachedAdRows, mkRun cachedWorld [EvAdRangeQuery "ACC001" (jan 14) (jan 15)])
  /\ getSalesMetricsWithCache inOrder sampleAccount (jan 14) (jan 15)
       [jan 14; jan 15] (mkRun cachedWorld [])
     = (cachedSalesRows, mkRun cachedWorld [EvSalesRangeQuery "ACC001" (jan 14) (jan 15)]).
Proof.
  apply (cache_fill_fully_cached_issues_no_fetch inOrder sampleAccount "act_1"
           (jan 14) (jan 15) [jan 14; jan 15] (mkRun cachedWorld [])
           cachedAdRows cachedSalesRows cachedWorld cachedWorld).
  - reflexivity.
  - reflexivity.
  - intros d Hd.
    apply elem_of_cons in Hd as [->|Hd].
    { split; eexists; (split; [by left | reflexivity]). }
    apply list_elem_of_singleton in Hd as ->.
    split; eexists; (split; [right; by left | reflexivity]).
Defined.

Lemma start_after_end_fails_without_work_witness :
  GetAdAccountsByID inOrder sampleFormatFloat true "act_1"
    (Some {| StartDate := Some (jan 16); EndDate := Some (jan 14) |}) (mkRun sampleWorld [])
  = (Returns (Err "a data de início não pode ser posterior à data de fim"),
     mkRun sampleWorld [])
  /\ GetAdAccountReachImpressions "act_1"
       (Some {| StartDate := Some (jan 16); EndDate := Some (jan 14) |}) (mkRun sampleWorld [])
     = (Err "a data de início não pode ser posterior à data de fim", mkRun sampleWorld []).
Proof.
  apply (start_after_end_fails_without_work inOrder sampleFormatFloat true "act_1"
           (jan 16) (jan 14) (mkRun sampleWorld [])).
  reflexivity.
Defined.

(** With valid dates the same calls do reach the collaborators. *)
Lemma valid_range_reaches_collaborators :
  log (GetAdAccountsByID inOrder sampleFormatFloat true "act_1"
         (Some {| StartDate := Some (jan 14); EndDate := Some (jan 15) |})
         (mkRun cachedWorld [])).2
  = [ EvAccountLookup "act_1";
      EvAdRangeQuery "ACC001" (jan 14) (jan 15);
      EvSalesRangeQuery "ACC001" (jan 14) (jan 15) ]
  /\ log (GetAdAccountReachImpressions "act_1"
            (Some {| StartDate := Some (jan 14); EndDate := Some (jan 15) |})
            (mkRun cachedWorld [])).2
     = [ EvReachFetch "act_1" (jan 14) (jan 15) ].
Proof. split; vm_compute; reflexivity. Qed.

(** The range 14..16 January requested on the 16th: the 14th is cached,
    the 15th and the 16th are fetched, only the 15th is saved, and the
    three records are returned. *)
Lemma cache_fill_run_including_today :
  let out := getAdMetricsWithCache inOrder sampleAccount "act_1" (jan 14) (jan 16)
               (generateDateRange (Some (jan 14)) (Some (jan 16))) (mkRun sampleWorld []) in
  (FormatDateOnly ∘ ae_Date) <$> out.1 = ["2024-01-14"; "2024-01-15"; "2024-01-16"]
  /\ (FormatDateOnly ∘ ae_Date) <$> mw_adRows (world out.2) = ["2024-01-14"; "2024-01-15"]
  /\ FormatDateOnly (mw_now (world out.2)) = "2024-01-16"
  /\ length (log out.2) = 4%nat.
Proof. vm_compute. auto. Qed.

(* ================================================================== *)
(** * Properties of the ranking run *)
(* ================================================================== *)

(** A row of the result at an index is the row the sort left at that index
    with the loop body applied. *)
Lemma updatePositions_lookup (sched : Scheduling) (rows : list StoreRankingItem)
    (before : gmap string StoreRankingItem) (i : nat) :
  updatePositions sched rows before !! i
  = setPosition before i <$> sort_Slice sched revenueGreater rows !! i.
Proof. unfold updatePositions. apply list_lookup_imap. Qed.

Lemma setPosition_keeps (before : gmap string StoreRankingItem) (i : nat)
    (r : StoreRankingItem) :
  sri_AccountID (setPosition before i r) = sri_AccountID r
  /\ sri_Month (setPosition before i r) = sri_Month r
  /\ sri_StoreName (setPosition before i r) = sri_StoreName r
  /\ sri_SocialNetworkRevenue (setPosition before i r) = sri_SocialNetworkRevenue r
  /\ sri_Position (setPosition before i r) = Z.of_nat i + 1.
Proof. unfold setPosition. destruct (before !! sri_AccountID r); simpl; auto. Qed.

(** [updatePositions] numbers the rows 1, 2, ..., N in the order the sort
    leaves them in, so no two rows share a position; the accounts and their
    revenues are those of the input, each once. *)
Theorem updatePositions_numbers_rows (sched : Scheduling) (rows : list StoreRankingItem)
    (before : gmap string StoreRankingItem) :
  rows ≡ₚ sort_Slice sched revenueGreater rows ->
  let out := updatePositions sched rows before in
  sri_Position <$> out = (fun i => Z.of_nat i + 1) <$> seq 0 (length rows)
  /\ NoDup (sri_Position <$> out)
  /\ (fun r => (sri_AccountID r, sri_SocialNetworkRevenue r)) <$> out
     ≡ₚ (fun r => (sri_AccountID r, sri_SocialNetworkRevenue r)) <$> rows.
Proof.
  intros HP out.
  assert (Hpos : sri_Position <$> out = (fun i => Z.of_nat i + 1) <$> seq 0 (length rows)).
  { apply list_eq. intros i. subst out.
    rewrite !list_lookup_fmap, updatePositions_lookup.
    rewrite (Permutation_length HP).
    destruct (sort_Slice sched revenueGreater rows !! i) as [r|] eqn:Hi; simpl.
    - rewrite lookup_seq_lt by (eapply lookup_lt_Some; eauto). simpl.
      f_equal. apply setPosition_keeps.
    - rewrite lookup_seq_ge by (by apply lookup_ge_None). reflexivity. }
  split; [exact Hpos|]. split.
  - rewrite Hpos. apply NoDup_fmap_2; [|apply NoDup_seq].
    intros a b Hab. lia.
  - rewrite (fmap_Permutation _ _ _ HP). subst out.
    match goal with |- ?x ≡ₚ ?y => assert (Heq : x = y); [|by rewrite Heq] end.
    apply list_eq. intros i.
    rewrite !list_lookup_fmap, updatePositions_lookup.
    destruct (sort_Slice sched revenueGreater rows !! i) as [r|]; simpl; [|reflexivity].
    destruct (setPosition_keeps before i r) as (-> & _ & _ & -> & _). reflexivity.
Qed.

(** The deltas written by [updatePositions]: a row whose account is a key
    of the map gets the difference of the two positions and the previous
    position; any other row keeps the deltas it came with. *)
Theorem updatePositions_deltas (sched : Scheduling) (rows : list StoreRankingItem)
    (before : gmap string StoreRankingItem) (i : nat) (r : StoreRankingItem) :
  updatePositions sched rows before !! i = Some r ->
  exists r0,
    sort_Slice sched revenueGreater rows !! i = Some r0
    /\ sri_AccountID r = sri_AccountID r0
    /\ match before !! sri_AccountID r with
       | Some rankingBefore =>
           sri_PositionChange r = int_sub (sri_Position rankingBefore) (sri_Position r)
           /\ sri_PreviousPosition r = sri_Position rankingBefore
       | None =>
           sri_PositionChange r = sri_PositionChange r0
           /\ sri_PreviousPosition r = sri_PreviousPosition r0
       end.
Proof.
  rewrite updatePositions_lookup. intros Hr.
  destruct (sort_Slice sched revenueGreater rows !! i) as [r0|]; [|discriminate].
  injection Hr as <-. exists r0. split; [reflexivity|].
  unfold setPosition.
  destruct (before !! sri_AccountID r0) as [b|] eqn:Hb; simpl; rewrite Hb; auto.
Qed.

(** Between int32 positions, as the INT columns of the table hold them, the
    subtraction of positions does not wrap. *)
Lemma int_sub_int32 (a b : Z) : is_int32 a -> is_int32 b -> int_sub a b = a - b.
Proof.
  unfold is_int32, int_sub. intros Ha Hb. apply wrap64_small. unfold is_int64. lia.
Qed.

(** A strongly sorted list, read by index. *)
Lemma StronglySorted_lookup {A : Type} (R : A -> A -> Prop) (l : list A) (i j : nat) (a b : A) :
  StronglySorted R l -> (i < j)%nat -> l !! i = Some a -> l !! j = Some b -> R a b.
Proof.
  intros Hs. revert i j. induction Hs as [|x l Hs IH Hall]; intros i j Hij Hi Hj.
  - discriminate.
  - destruct j as [|j]; [lia|]. destruct i as [|i]; simpl in *.
    + injection Hi as ->. rewrite Forall_forall in Hall. apply Hall.
      eapply list_elem_of_lookup_2; eauto.
    + apply (IH i j); [lia|exact Hi|exact Hj].
Qed.

(** When [sort.Slice] met its contract, the result is in descending order
    of revenue: no row has a smaller revenue than a row after it. *)
Theorem updatePositions_descending (sched : Scheduling) (rows : list StoreRankingItem)
    (before : gmap string StoreRankingItem) (i j : nat) (a b : StoreRankingItem) :
  sortedBy revenueGreater rows (sort_Slice sched revenueGreater rows) ->
  (i < j)%nat ->
  updatePositions sched rows before !! i = Some a ->
  updatePositions sched rows before !! j = Some b ->
  PrimFloat.ltb (sri_SocialNetworkRevenue a) (sri_SocialNetworkRevenue b) = false
  /\ sri_Position a < sri_Position b.
Proof.
  intros [_ Hs] Hij Ha Hb.
  rewrite updatePositions_lookup in Ha, Hb.
  destruct (sort_Slice sched revenueGreater rows !! i) as [a0|] eqn:Ha0; [|discriminate].
  destruct (sort_Slice sched revenueGreater rows !! j) as [b0|] eqn:Hb0; [|discriminate].
  injection Ha as <-. injection Hb as <-.
  destruct (setPosition_keeps before i a0) as (_ & _ & _ & -> & ->).
  destruct (setPosition_keeps before j b0) as (_ & _ & _ & -> & ->).
  split; [|lia].
  exact (StronglySorted_lookup _ _ i j a0 b0 Hs Hij Ha0 Hb0).
Qed.

(** A slice whose rows can be listed with strictly decreasing revenues has
    one sorted order only: whatever [sort.Slice] does with it within its
    contract, and in whatever order the rows arrived, the result is that
    listing. *)
Lemma sortedBy_unique (less : StoreRankingItem -> StoreRankingItem -> bool)
    (listing output : list StoreRankingItem) :
  StronglySorted (fun a b => less a b = true) listing ->
  listing ≡ₚ output ->
  StronglySorted (fun a b => less b a = false) output ->
  output = listing.
Proof.
  intros Hl. revert output. induction Hl as [|x l Hl IH Hx]; intros output HP Ho.
  - by apply Permutation_nil_l in HP.
  - destruct output as [|y output'].
    { by apply Permutation_nil_r in HP. }
    assert (Hxy : x = y).
    { assert (Hxin : x ∈ y :: output') by (rewrite <- HP; by left).
      assert (Hyin : y ∈ x :: l) by (rewrite HP; by left).
      apply elem_of_cons in Hxin as [?|Hxin]; [done|].
      apply elem_of_cons in Hyin as [?|Hyin]; [done|].
      apply StronglySorted_cons in Ho as [Hy _].
      rewrite Forall_forall in Hx, Hy.
      specialize (Hx y Hyin). specialize (Hy x Hxin). congruence. }
    subst y. f_equal. apply IH.
    + exact (Permutation.Permutation_cons_inv HP).
    + by apply StronglySorted_cons in Ho as [_ ?].
Qed.

Theorem updatePositions_strict_revenues_determined (sched : Scheduling)
    (rows listing : list StoreRankingItem) (before : gmap string StoreRankingItem) :
  StronglySorted (fun a b => revenueGreater a b = true) listing ->
  listing ≡ₚ rows ->
  sortedBy revenueGreater rows (sort_Slice sched revenueGreater rows) ->
  updatePositions sched rows before = imap (setPosition before) listing.
Proof.
  intros Hl HP [HP' Hs]. unfold updatePositions. f_equal.
  apply (sortedBy_unique revenueGreater); [exact Hl| |exact Hs].
  by rewrite HP.
Qed.

(** ** The whole run *)

(** Both pointers of the account are set (they may still point to empty
    strings). *)
Definition credentialsSet (account : AdAccount) : Prop :=
  is_Some (acc_CNPJ account) /\ is_Some (acc_SecretName account).

Lemma hasCredentials_set (account : AdAccount) :
  hasCredentials account = true -> credentialsSet account.
Proof.
  unfold hasCredentials, credentialsSet.
  destruct (acc_CNPJ account), (acc_SecretName account); try discriminate; eauto.
Qed.

Lemma newRows_returns (env : RankingCollaborators) (firstDay yesterday : Time)
    (accounts : list AdAccount) :
  Forall credentialsSet accounts ->
  exists rows, newRows env firstDay yesterday accounts = Returns rows.
Proof.
  induction 1 as [|a l [[c Hc] [n Hn]] _ [rows IH]]; simpl; [eauto|].
  unfold newRowOf. rewrite Hc, Hn, IH.
  destruct (ssotica_GetSalesByAccount env c n firstDay yesterday); eauto.
Qed.

Lemma newRows_panics (env : RankingCollaborators) (firstDay yesterday : Time)
    (accounts : list AdAccount) :
  Exists (fun a => ~ credentialsSet a) accounts ->
  newRows env firstDay yesterday accounts = Panics.
Proof.
  induction 1 as [a l Ha|a l _ IH]; simpl.
  - unfold newRowOf. unfold credentialsSet in Ha.
    destruct (acc_CNPJ a), (acc_SecretName a); try reflexivity.
    destruct Ha; eauto.
  - rewrite IH. by destruct (newRowOf env firstDay yesterday a).
Qed.

(** The run dereferences the tax id and the secret of every account: it
    returns when all accounts have both and panics as soon as one account
    lacks one.  The accounts [getActiveAccounts] lets through have both, so
    a run started from them returns. *)
Theorem ranking_run_panics_only_without_credentials (env : RankingCollaborators)
    (sched : Scheduling) (accounts : list AdAccount) (processingDate : Time) :
  (Forall credentialsSet accounts ->
   exists out, processTopRankingAccountsWithDate env sched accounts processingDate = Returns out)
  /\ (Exists (fun a => ~ credentialsSet a) accounts ->
      processTopRankingAccountsWithDate env sched accounts processingDate = Panics)
  /\ (forall listed active,
        getActiveAccounts (Ok listed) = Ok active ->
        active = filter (fun a => hasCredentials a = true) listed
        /\ exists out,
             processTopRankingAccountsWithDate env sched active processingDate = Returns out).
Proof.
  unfold processTopRankingAccountsWithDate. split; [|split].
  - intros Hall.
    destruct (newRows_returns env (getFirstDayOfMonth (AddDays processingDate (-1)))
                (AddDays processingDate (-1)) accounts Hall) as [rows ->]. eauto.
  - intros Hex. by rewrite newRows_panics.
  - intros listed active [= <-]. split; [reflexivity|].
    match goal with
    | |- context [newRows ?e ?f ?y ?l] =>
        destruct (newRows_returns e f y l) as [rows ->]; [|eauto]
    end.
    apply Forall_forall. intros a Ha.
    apply list_elem_of_filter in Ha as [Ha _]. by apply hasCredentials_set.
Qed.

Lemma ranking_run_panics_only_without_credentials_witness :
  processTopRankingAccountsWithDate
    {| rankingRepo_GetByAccountID := fun _ _ => Ok None;
       ssotica_GetSalesByAccount := fun _ _ _ _ => Ok sampleOrders |}
    inAccountOrder
    [ {| acc_ID := "ACC002"; acc_ExternalID := "act_2"; acc_Name := "Loja B";
         acc_CNPJ := None; acc_SecretName := Some "secret2" |} ]
    (jan 16)
  = Panics.
Proof.
  apply (ranking_run_panics_only_without_credentials _ inAccountOrder _ (jan 16)).
  constructor. intros [[c Hc] _]. discriminate Hc.
Defined.

(** ** The sort of short slices meets the contract on the sample rows *)

Lemma insertLeft_Permutation {A : Type} (less : A -> A -> bool) (x : A) (revPrefix : list A) :
  insertLeft less x revPrefix ≡ₚ x :: revPrefix.
Proof.
  induction revPrefix as [|y l IH]; simpl; [reflexivity|].
  destruct (less x y); [|reflexivity].
  rewrite IH. apply Permutation_swap.
Qed.

(** Whatever [less] is, the insertion sort only reorders the slice. *)
Lemma insertionSort_Permutation {A : Type} (less : A -> A -> bool) (l : list A) :
  l ≡ₚ insertionSort less l.
Proof.
  unfold insertionSort. rewrite <- Permutation_rev.
  assert (H : forall acc, fold_left (fun rp x => insertLeft less x rp) l acc ≡ₚ l ++ acc).
  { induction l as [|x l IH]; intros acc; simpl; [reflexivity|].
    rewrite IH, insertLeft_Permutation. by rewrite Permutation_middle. }
  by rewrite H, app_nil_r.
Qed.

Lemma sampleRows_sorted :
  sortedBy revenueGreater sampleRows (sort_Slice inAccountOrder revenueGreater sampleRows).
Proof.
  split; [apply insertionSort_Permutation|].
  vm_compute. repeat constructor.
Qed.

Lemma updatePositions_numbers_rows_witness :
  let out := updatePositions inAccountOrder sampleRows ∅ in
  sri_Position <$> out = [1; 2; 3]
  /\ NoDup (sri_Position <$> out)
  /\ (fun r => (sri_AccountID r, sri_SocialNetworkRevenue r)) <$> out
     ≡ₚ [("ACC001", 2500%float); ("ACC002", 3000%float); ("ACC003", 1500%float)].
Proof.
  apply (updatePositions_numbers_rows inAccountOrder sampleRows ∅).
  apply insertionSort_Permutation.
Defined.

Lemma updatePositions_deltas_witness :
  exists r0,
    sort_Slice inAccountOrder revenueGreater sampleRows !! 1%nat = Some r0
    /\ "ACC001" = sri_AccountID r0
    /\ 1 = int_sub 2 2 + 1 /\ 2 = 2.
Proof.
  destruct (updatePositions_deltas inAccountOrder sampleRows sampleBefore 1
              {| sri_AccountID := "ACC001"; sri_Month := "01-2024"; sri_StoreName := "Loja A";
                 sri_SocialNetworkRevenue := 2500%float;
                 sri_Position := 2; sri_PositionChange := 0; sri_PreviousPosition := 2 |}
              ltac:(vm_compute; reflexivity)) as (r0 & Hr0 & Hid & Hd).
  exists r0. split; [exact Hr0|]. split; [exact Hid|]. split; reflexivity.
Defined.

Lemma updatePositions_descending_witness :
  PrimFloat.ltb 3000 2500 = false /\ 1 < 2.
Proof.
  apply (updatePositions_descending inAccountOrder sampleRows sampleBefore 0 1
           {| sri_AccountID := "ACC002"; sri_Month := "01-2024"; sri_StoreName := "Loja B";
              sri_SocialNetworkRevenue := 3000%float;
              sri_Position := 1; sri_PositionChange := 0; sri_PreviousPosition := 1 |}
           {| sri_AccountID := "ACC001"; sri_Month := "01-2024"; sri_StoreName := "Loja A";
              sri_SocialNetworkRevenue := 2500%float;
              sri_Position := 2; sri_PositionChange := 0; sri_PreviousPosition := 2 |}).
  - apply sampleRows_sorted.
  - lia.
  - vm_compute. reflexivity.
  - vm_compute. reflexivity.
Defined.

(** The three sample accounts, whatever the arrival order: ACC002 first
    (it stays first), ACC001 second (it stays second), ACC003 third (new). *)
Lemma updatePositions_strict_revenues_determined_witness :
  updatePositions inReverseOrder (rev sampleRows) sampleBefore
  = [ {| sri_AccountID := "ACC002"; sri_Month := "01-2024"; sri_StoreName := "Loja B";
         sri_SocialNetworkRevenue := 3000%float;
         sri_Position := 1; sri_PositionChange := 0; sri_PreviousPosition := 1 |};
      {| sri_AccountID := "ACC001"; sri_Month := "01-2024"; sri_StoreName := "Loja A";
         sri_SocialNetworkRevenue := 2500%float;
         sri_Position := 2; sri_PositionChange := 0; sri_PreviousPosition := 2 |};
      {| sri_AccountID := "ACC003"; sri_Month := "01-2024"; sri_StoreName := "Loja C";
         sri_SocialNetworkRevenue := 1500%float;
         sri_Position := 3; sri_PositionChange := 0; sri_PreviousPosition := 0 |} ].
Proof.
  apply (updatePositions_strict_revenues_determined inReverseOrder (rev sampleRows)
           [ sampleRow "ACC002" "Loja B" 3000%float;
             sampleRow "ACC001" "Loja A" 2500%float;
             sampleRow "ACC003" "Loja C" 1500%float ] sampleBefore).
  - repeat constructor.
  - rewrite <- Permutation_rev. apply Permutation_swap.
  - split; [apply insertionSort_Permutation|].
    vm_compute. repeat constructor.
Defined.

(** The sales fetch of the account's second goroutine succeeds. *)
Definition salesFetched (env : RankingCollaborators) (firstDay yesterday : Time)
    (account : AdAccount) : bool :=
  match acc_CNPJ account, acc_SecretName account with
  | Some cnpj, Some secretName =>
      match ssotica_GetSalesByAccount env cnpj secretName firstDay yesterday with
      | Ok _ => true
      | Err _ => false
      end
  | _, _ => false
  end.

(** A fresh row of the run: the month of yesterday, the name of the
    account, the social-network revenue of its sales, and zero position
    fields. *)
Definition freshRowOf (env : RankingCollaborators) (firstDay yesterday : Time)
    (accounts : list AdAccount) (r : StoreRankingItem) : Prop :=
  exists account cnpj secretName sales,
    account ∈ accounts
    /\ acc_CNPJ account = Some cnpj /\ acc_SecretName account = Some secretName
    /\ ssotica_GetSalesByAccount env cnpj secretName firstDay yesterday = Ok sales
    /\ r = {| sri_AccountID := acc_ID account;
              sri_Month := FormatMonthYear yesterday;
              sri_StoreName := acc_Name account;
              sri_SocialNetworkRevenue := GetSumNetAmountSocialNetwork sales;
              sri_Position := 0; sri_PositionChange := 0; sri_PreviousPosition := 0 |}.

Lemma newRows_spec (env : RankingCollaborators) (firstDay yesterday : Time)
    (accounts : list AdAccount) (rows : list StoreRankingItem) :
  newRows env firstDay yesterday accounts = Returns rows ->
  sri_AccountID <$> rows
  = acc_ID <$> filter (fun a => salesFetched env firstDay yesterday a = true) accounts
  /\ Forall (freshRowOf env firstDay yesterday accounts) rows.
Proof.
  revert rows. induction accounts as [|a l IH]; intros rows Hrows; simpl in Hrows.
  - injection Hrows as <-. split; [reflexivity|constructor].
  - unfold newRowOf in Hrows.
    destruct (acc_CNPJ a) as [cnpj|] eqn:Hc; [|discriminate].
    destruct (acc_SecretName a) as [secretName|] eqn:Hn; [|discriminate].
    destruct (newRows env firstDay yesterday l) as [rows'|]; cycle 1.
    { destruct (ssotica_GetSalesByAccount env cnpj secretName firstDay yesterday);
        discriminate. }
    destruct (IH rows' eq_refl) as [Hids Hfresh].
    assert (Hmono : Forall (freshRowOf env firstDay yesterday (a :: l)) rows').
    { eapply Forall_impl; [exact Hfresh|].
      intros r (a' & c & n & s & Ha' & ?). exists a', c, n, s.
      split; [by right|assumption]. }
    destruct (ssotica_GetSalesByAccount env cnpj secretName firstDay yesterday)
      as [sales|msg] eqn:Hs; injection Hrows as <-; cbn [option_list app].
    + rewrite filter_cons_True by (unfold salesFetched; by rewrite Hc, Hn, Hs).
      rewrite !fmap_cons, Hids. split; [reflexivity|].
      constructor; [|exact Hmono].
      exists a, cnpj, secretName, sales. split; [by left|auto].
    + rewrite filter_cons_False by (unfold salesFetched; by rewrite Hc, Hn, Hs).
      auto.
Qed.

(** A run within what the scheduler and [sort.Slice] may do ranks exactly
    the accounts whose sales fetch succeeded (a failing fetch drops the
    account, the others go on); every row carries the month of yesterday and
    position [index + 1]; a row of an account with a prior row in the map
    gets the two deltas, any other row has both deltas zero. *)
Theorem ranking_run_rows (env : RankingCollaborators) (sched : Scheduling)
    (accounts : list AdAccount) (processingDate : Time) :
  Forall credentialsSet accounts ->
  validRun env sched accounts processingDate ->
  let yesterday := AddDays processingDate (-1) in
  let firstDay := getFirstDayOfMonth yesterday in
  let before :=
    collectBefore (arrivalBefore sched
                     (omap (priorRowOf env (FormatMonthYear yesterday)) accounts)) in
  exists out,
    processTopRankingAccountsWithDate env sched accounts processingDate = Returns out
    /\ sri_AccountID <$> out
       ≡ₚ acc_ID <$> filter (fun a => salesFetched env firstDay yesterday a = true) accounts
    /\ forall i r, out !! i = Some r ->
         sri_Month r = FormatMonthYear yesterday
         /\ sri_Position r = Z.of_nat i + 1
         /\ match before !! sri_AccountID r with
            | Some rankingBefore =>
                sri_PositionChange r = int_sub (sri_Position rankingBefore) (sri_Position r)
                /\ sri_PreviousPosition r = sri_Position rankingBefore
            | None => sri_PositionChange r = 0 /\ sri_PreviousPosition r = 0
            end.
Proof.
  intros Hcred Hvalid yesterday firstDay before.
  unfold validRun in Hvalid. fold yesterday in Hvalid. fold firstDay in Hvalid.
  destruct Hvalid as [_ Hvalid].
  unfold processTopRankingAccountsWithDate. fold yesterday. fold firstDay.
  destruct (newRows_returns env firstDay yesterday accounts Hcred) as [rows Hrows].
  rewrite Hrows in Hvalid |- *.
  destruct Hvalid as [Harr [Hperm Hsorted]].
  destruct (newRows_spec env firstDay yesterday accounts rows Hrows) as [Hids Hfresh].
  fold before. eexists. split; [reflexivity|].
  set (arrived := arrivalRankings sched rows) in *.
  assert (Hall : Forall (freshRowOf env firstDay yesterday accounts)
                   (sort_Slice sched revenueGreater arrived)).
  { rewrite <- Hperm. subst arrived. by rewrite <- Harr. }
  split.
  - rewrite <- Hids, Harr. fold arrived.
    match goal with |- ?x ≡ₚ ?y => assert (Heq : x ≡ₚ sri_AccountID <$> sort_Slice sched revenueGreater arrived) end.
    { match goal with |- ?x ≡ₚ ?y => assert (Heq : x = y); [|by rewrite Heq] end.
      apply list_eq. intros i.
      rewrite !list_lookup_fmap, updatePositions_lookup.
      destruct (sort_Slice sched revenueGreater arrived !! i) as [r|]; simpl; [|reflexivity].
      by destruct (setPosition_keeps before i r) as (-> & _). }
    rewrite Heq. by rewrite <- Hperm.
  - intros i r Hr.
    destruct (updatePositions_deltas sched arrived before i r Hr) as (r0 & Hr0 & Hid & Hd).
    rewrite updatePositions_lookup, Hr0 in Hr. injection Hr as Hr.
    destruct (setPosition_keeps before i r0) as (_ & Hm & _ & _ & Hp).
    rewrite Hr in Hm, Hp.
    rewrite Forall_forall in Hall.
    destruct (Hall r0) as (a & c & n & s & _ & _ & _ & _ & Hr0eq).
    { eapply list_elem_of_lookup_2; eauto. }
    split; [|split; [exact Hp|]].
    + rewrite Hm, Hr0eq. reflexivity.
    + destruct (before !! sri_AccountID r); [exact Hd|].
      destruct Hd as [-> ->]. rewrite Hr0eq. auto.
Qed.

Lemma sampleAccounts_credentials : Forall credentialsSet sampleAccounts.
Proof. repeat constructor; simpl; eauto. Qed.

Lemma sampleRun_valid : validRun sampleRankingEnv inAccountOrder sampleAccounts (jan 16).
Proof.
  split; [reflexivity|].
  vm_compute. split; [reflexivity|]. split; [apply Permutation_swap|repeat constructor].
Qed.

Lemma ranking_run_rows_witness :
  exists out,
    processTopRankingAccountsWithDate sampleRankingEnv inAccountOrder sampleAccounts (jan 16)
    = Returns out
    /\ sri_AccountID <$> out ≡ₚ ["ACC003"; "ACC001"].
Proof.
  destruct (ranking_run_rows sampleRankingEnv inAccountOrder sampleAccounts (jan 16)
              sampleAccounts_credentials sampleRun_valid) as (out & Hout & Hids & _).
  exists out. split; [exact Hout|].
  vm_compute in Hids |- *. exact Hids.
Defined.

(** The same run, evaluated: ACC001 rose from second to first; ACC003 is a
    new entrant; ACC002, whose fetch failed, is not ranked. *)
Lemma sampleRun_result :
  processTopRankingAccountsWithDate sampleRankingEnv inAccountOrder sampleAccounts (jan 16)
  = Returns
      [ {| sri_AccountID := "ACC001"; sri_Month := "01-2024"; sri_StoreName := "Loja A";
           sri_SocialNetworkRevenue := 1500%float;
           sri_Position := 1; sri_PositionChange := 1; sri_PreviousPosition := 2 |};
        {| sri_AccountID := "ACC003"; sri_Month := "01-2024"; sri_StoreName := "Loja C";
           sri_SocialNetworkRevenue := 200%float;
           sri_Position := 2; sri_PositionChange := 0; sri_PreviousPosition := 0 |} ].
Proof. vm_compute. reflexivity. Qed.

(** ** The map of prior rows *)

(** One step of the loop that drains [rankingBeforeUpdate]. *)
Definition collectStep (ranking : StoreRankingItem) (m : gmap string StoreRankingItem)
  : gmap string StoreRankingItem :=
  if decide (sri_AccountID ranking = "") then m else <[sri_AccountID ranking := ranking]> m.

Lemma collectBefore_foldr (arrived : list StoreRankingItem) :
  collectBefore arrived = foldr collectStep ∅ (rev arrived).
Proof.
  unfold collectBefore. rewrite <- fold_left_rev_right. reflexivity.
Qed.

Lemma foldr_collectStep_lookup (l : list StoreRankingItem) (k : string) (b : StoreRankingItem) :
  foldr collectStep ∅ l !! k = Some b ->
  b ∈ l /\ sri_AccountID b = k /\ k <> "".
Proof.
  induction l as [|r l IH]; simpl.
  - rewrite lookup_empty. discriminate.
  - unfold collectStep at 1. destruct (decide (sri_AccountID r = "")) as [He|Hne].
    + intros H. destruct (IH H) as (? & ? & ?). split; [by right|auto].
    + destruct (decide (sri_AccountID r = k)) as [<-|Hk].
      * rewrite lookup_insert_eq. intros [= <-]. split; [by left|auto].
      * rewrite lookup_insert_ne by exact Hk.
        intros H. destruct (IH H) as (? & ? & ?). split; [by right|auto].
Qed.

(** The map of prior rows holds only rows that arrived, each under its own
    account id, and never under the empty id; when no two prior rows share
    an account id, the order in which the goroutines sent them does not
    show in the map. *)
Theorem collectBefore_order_independent (priors arrived : list StoreRankingItem) :
  NoDup (sri_AccountID <$> priors) ->
  priors ≡ₚ arrived ->
  collectBefore arrived = collectBefore priors
  /\ forall k b, collectBefore arrived !! k = Some b ->
       b ∈ priors /\ sri_AccountID b = k /\ k <> "".
Proof.
  intros Hnd HP.
  assert (Heq : collectBefore arrived = collectBefore priors).
  { rewrite !collectBefore_foldr.
    apply (foldr_permutation (=) collectStep ∅).
    - intros j1 a1 j2 a2 m Hj H1 H2.
      assert (Hids : sri_AccountID a1 <> sri_AccountID a2).
      { intros Hsame.
        assert (Hnd' : NoDup (sri_AccountID <$> rev arrived)).
        { rewrite <- Permutation_rev, <- HP. exact Hnd. }
        apply Hj. eapply NoDup_lookup; [exact Hnd'| |].
        - rewrite list_lookup_fmap, H1. reflexivity.
        - rewrite list_lookup_fmap, H2. simpl. by rewrite Hsame. }
      unfold collectStep.
      destruct (decide (sri_AccountID a1 = "")), (decide (sri_AccountID a2 = ""));
        try reflexivity.
      by apply insert_insert_ne.
    - by rewrite <- !Permutation_rev. }
  split; [exact Heq|].
  intros k b Hb. rewrite Heq, collectBefore_foldr in Hb.
  destruct (foldr_collectStep_lookup _ _ _ Hb) as (Hin & ? & ?).
  split; [|auto]. by rewrite Permutation_rev.
Qed.

Lemma collectBefore_order_independent_witness :
  collectBefore
    [ sampleRow "ACC002" "Loja B" 3000%float; sampleRow "ACC001" "Loja A" 2000%float ]
  = collectBefore
      [ sampleRow "ACC001" "Loja A" 2000%float; sampleRow "ACC002" "Loja B" 3000%float ].
Proof.
  apply (collectBefore_order_independent
           [ sampleRow "ACC001" "Loja A" 2000%float; sampleRow "ACC002" "Loja B" 3000%float ]
           [ sampleRow "ACC002" "Loja B" 3000%float; sampleRow "ACC001" "Loja A" 2000%float ]).
  - vm_compute. repeat constructor; [|apply not_elem_of_nil].
    intros H. apply list_elem_of_singleton in H. discriminate H.
  - apply Permutation_swap.
Defined.

(* ================================================================== *)
(** * Further properties of the cache fill *)
(* ================================================================== *)

(** The dates of the daily ad fetches in a log, in the order of the calls. *)
Definition adFetchDates (evs : list Event) : list Time :=
  omap (fun ev => match ev with EvAdFetch _ date _ => Some date | _ => None end) evs.

Lemma adFetchDates_app (evs1 evs2 : list Event) :
  adFetchDates (evs1 ++ evs2) = adFetchDates evs1 ++ adFetchDates evs2.
Proof. apply omap_app. Qed.

Section CacheFillFetches.

Context {W : Type} `{Collaborators W}.
Variable completion : list Time -> list Time.

Lemma fetchAdDate_fetches (account : AdAccount) (accountExternalID : string) (date : Time)
    (r : Run W) :
  exists evs, log (fetchAdDate account accountExternalID date r).2 = log r ++ evs
              /\ adFetchDates evs = [date].
Proof.
  unfold fetchAdDate.
  destruct (metaService_GetAdAccountsInsights accountExternalID date date (world r))
    as [[adMetrics|msg] w1]; cbn [world log].
  - destruct (time_Now w1) as [now w2].
    destruct (decide (FormatDateOnly date <> FormatDateOnly now)) as [Hne|Heq].
    + destruct (adInsightRepository_SaveOrUpdate _ w2) as [err w3]. cbn [snd log].
      eexists. split; [rewrite <- app_assoc; reflexivity|reflexivity].
    + cbn [snd log]. eexists. split; reflexivity.
  - cbn [snd log]. eexists. split; reflexivity.
Qed.

Lemma fetchAdDates_fetches (account : AdAccount) (accountExternalID : string)
    (dates : list Time) (acc : list AdInsightEntry) (r : Run W) :
  let out := fetchAdDates account accountExternalID dates (acc, r) in
  exists evs more,
    log out.2 = log r ++ evs /\ adFetchDates evs = dates
    /\ out.1 = acc ++ more /\ (length more <= length dates)%nat.
Proof.
  revert acc r. induction dates as [|date dates IH]; intros acc r.
  - exists [], []. cbn. rewrite !app_nil_r. auto.
  - unfold fetchAdDates. cbn [fold_left].
    destruct (fetchAdDate_fetches account accountExternalID date r) as (evs1 & Hlog1 & Hf1).
    destruct (fetchAdDate account accountExternalID date r) as [o r1]; cbn [fst snd] in *.
    match goal with
    | |- context [fold_left ?f dates ?a] =>
        change (fold_left f dates a) with (fetchAdDates account accountExternalID dates a)
    end.
    destruct o as [adInsight|].
    + destruct (IH (acc ++ [adInsight]) r1) as (evs2 & more & Hlog2 & Hf2 & Hres2 & Hlen).
      exists (evs1 ++ evs2), (adInsight :: more).
      rewrite Hlog2, Hlog1, Hres2, <- !app_assoc, adFetchDates_app, Hf1, Hf2.
      repeat split; simpl; auto. lia.
    + destruct (IH acc r1) as (evs2 & more & Hlog2 & Hf2 & Hres2 & Hlen).
      exists (evs1 ++ evs2), more.
      rewrite Hlog2, Hlog1, Hres2, <- !app_assoc, adFetchDates_app, Hf1, Hf2.
      repeat split; simpl; auto.
Qed.

(** [getAdMetricsWithCache] makes one range query, then one daily fetch
    for each missing date and for no other date, in the order in which the
    goroutines complete; the cached records come first in the result, in
    the order of the store, followed by at most one record per missing
    date.  When the range query fails, nothing counts as cached and every
    requested date is fetched. *)
Theorem getAdMetricsWithCache_fetches_missing_dates (account : AdAccount)
    (accountExternalID : string) (startDate endDate : Time) (allDates : list Time)
    (r : Run W) (res : go_err (list AdInsightEntry)) (w1 : W) :
  adInsightRepository_GetByDateRange (acc_ID account) startDate endDate (world r) = (res, w1) ->
  let cached := match res with Ok rows => rows | Err _ => [] end in
  let covered : gset string := list_to_set ((fun e => FormatDateOnly (ae_Date e)) <$> cached) in
  let missing := filter (fun date => FormatDateOnly date ∉ covered) allDates in
  let out := getAdMetricsWithCache completion account accountExternalID
               startDate endDate allDates r in
  (exists evs more,
     log out.2 = log r ++ EvAdRangeQuery (acc_ID account) startDate endDate :: evs
     /\ adFetchDates evs = match missing with [] => [] | _ => completion missing end
     /\ out.1 = cached ++ more
     /\ (length more <= length (completion missing))%nat)
  /\ ((exists msg, res = Err msg) -> missing = allDates).
Proof.
  intros Hq cached covered missing out. split.
  - subst out. unfold getAdMetricsWithCache. rewrite Hq.
    assert (Hcov : match res with
                   | Ok rows => list_to_set ((fun e => FormatDateOnly (ae_Date e)) <$> rows)
                   | Err _ => ∅
                   end = covered).
    { subst covered cached. destruct res; reflexivity. }
    rewrite Hcov. fold cached. fold missing.
    destruct missing as [|d0 rest] eqn:Hmiss.
    + exists [], []. cbn. rewrite app_nil_r. repeat split; auto. lia.
    + match goal with
      | |- context [fetchAdDates _ _ ?ds (?a, ?r1)] =>
          destruct (fetchAdDates_fetches account accountExternalID ds a r1)
            as (evs & more & Hlog & Hf & Hres & Hlen)
      end.
      cbn [log] in Hlog. exists evs, more.
      rewrite Hlog, <- app_assoc. auto.
  - intros [msg ->]. subst missing covered cached. simpl.
    induction allDates as [|d l IH]; [reflexivity|].
    rewrite filter_cons_True by apply not_elem_of_empty. by rewrite IH.
Qed.

(** [getSalesMetricsWithCache] never calls SSOtica for an account without
    a tax id or without an API secret (nil or empty): it makes the range
    query and returns the cached records, whatever dates are missing. *)
Theorem getSalesMetricsWithCache_without_credentials (account : AdAccount)
    (startDate endDate : Time) (allDates : list Time) (r : Run W)
    (res : go_err (list SalesInsightEntry)) (w1 : W) :
  salesCredentials account = None ->
  salesInsightRepository_GetByDateRange (acc_ID account) startDate endDate (world r)
  = (res, w1) ->
  getSalesMetricsWithCache completion account startDate endDate allDates r
  = (match res with Ok rows => rows | Err _ => [] end,
     mkRun w1 (log r ++ [EvSalesRangeQuery (acc_ID account) startDate endDate])).
Proof.
  intros Hcred Hq. unfold getSalesMetricsWithCache. rewrite Hq, Hcred.
  by destruct (filter _ allDates).
Qed.

End CacheFillFetches.

Lemma getAdMetricsWithCache_fetches_missing_dates_witness :
  let out := getAdMetricsWithCache inOrder sampleAccount "act_1" (jan 14) (jan 16)
               [jan 14; jan 15; jan 16] (mkRun sampleWorld []) in
  exists evs more,
    log out.2 = [] ++ EvAdRangeQuery "ACC001" (jan 14) (jan 16) :: evs
    /\ adFetchDates evs = [jan 15; jan 16]
    /\ out.1 = mw_adRows sampleWorld ++ more
    /\ (length more <= 2)%nat.
Proof.
  assert (Hq : adInsightRepository_GetByDateRange "ACC001" (jan 14) (jan 16) sampleWorld
               = (Ok (mw_adRows sampleWorld), sampleWorld)) by (vm_compute; reflexivity).
  pose proof (getAdMetricsWithCache_fetches_missing_dates inOrder sampleAccount "act_1"
                (jan 14) (jan 16) [jan 14; jan 15; jan 16] (mkRun sampleWorld [])
                (Ok (mw_adRows sampleWorld)) sampleWorld Hq) as [Hw _].
  vm_compute in Hw |- *. exact Hw.
Defined.

(** An account whose secret is the empty string: no SSOtica call. *)
Lemma getSalesMetricsWithCache_without_credentials_witness :
  getSalesMetricsWithCache inOrder
    {| acc_ID := "ACC001"; acc_ExternalID := "act_1"; acc_Name := "Loja A";
       acc_CNPJ := Some "12345678901"; acc_SecretName := Some "" |}
    (jan 14) (jan 16) [jan 14; jan 15; jan 16] (mkRun sampleWorld [])
  = ([], mkRun sampleWorld [EvSalesRangeQuery "ACC001" (jan 14) (jan 16)]).
Proof.
  apply (getSalesMetricsWithCache_without_credentials inOrder
           {| acc_ID := "ACC001"; acc_ExternalID := "act_1"; acc_Name := "Loja A";
              acc_CNPJ := Some "12345678901"; acc_SecretName := Some "" |}
           (jan 14) (jan 16) [jan 14; jan 15; jan 16] (mkRun sampleWorld [])
           (Ok []) sampleWorld).
  - vm_compute. reflexivity.
  - vm_compute. reflexivity.
Defined.

(* ================================================================== *)
(** * Properties of the date range *)
(* ================================================================== *)

Definition nanosPerDay : Z := secondsPerDay * nanosPerSecond.

Lemma AddDays_0 (t : Time) : AddDays t 0 = t.
Proof. destruct t as [u o]. unfold AddDays. simpl. f_equal. lia. Qed.

Lemma AddDays_AddDays (t : Time) (a b : Z) : AddDays (AddDays t a) b = AddDays t (a + b).
Proof. unfold AddDays. simpl. f_equal. lia. Qed.

Lemma civilDay_AddDays (t : Time) (n : Z) : civilDay (AddDays t n) = civilDay t + n.
Proof.
  unfold civilDay, AddDays, secondsPerDay, nanosPerSecond. simpl.
  replace (unixNano t + n * 86400 * 1000000000)
    with (unixNano t + (n * 86400) * 1000000000) by lia.
  rewrite Z.div_add by lia.
  replace (unixNano t / 1000000000 + n * 86400 + zoneOffset t)
    with (unixNano t / 1000000000 + zoneOffset t + n * 86400) by lia.
  rewrite Z.div_add by lia. reflexivity.
Qed.

Lemma civilDay_midnight (t : Time) : civilDay (midnight t) = civilDay t.
Proof.
  unfold midnight. generalize (civilDay t). intros d.
  unfold civilDay, secondsPerDay, nanosPerSecond. simpl.
  rewrite Z.div_mul by lia.
  replace (d * 86400 - zoneOffset t + zoneOffset t) with (d * 86400) by lia.
  apply Z.div_mul. lia.
Qed.

(** The loop of [generateDateRange] runs once for each whole day between
    the two instants; any fuel of at least that many iterations gives the
    same slice. *)
Lemma generateDates_spec (fuel : nat) (currentDate endDateTime : Time) :
  (Z.to_nat ((unixNano endDateTime - unixNano currentDate) / nanosPerDay + 1) <= fuel)%nat ->
  generateDates fuel currentDate endDateTime
  = (fun i => AddDays currentDate (Z.of_nat i))
      <$> seq 0 (Z.to_nat ((unixNano endDateTime - unixNano currentDate) / nanosPerDay + 1)).
Proof.
  revert currentDate. induction fuel as [|fuel IH]; intros cur Hfuel.
  - assert (Hz : Z.to_nat ((unixNano endDateTime - unixNano cur) / nanosPerDay + 1) = 0%nat)
      by lia.
    rewrite Hz. reflexivity.
  - simpl. unfold After.
    destruct (Z.ltb_spec (unixNano endDateTime) (unixNano cur)) as [Hlt|Hge].
    + assert (Hneg : (unixNano endDateTime - unixNano cur) / nanosPerDay < 0).
      { apply Z.div_lt_upper_bound; unfold nanosPerDay, secondsPerDay, nanosPerSecond; lia. }
      replace (Z.to_nat ((unixNano endDateTime - unixNano cur) / nanosPerDay + 1))
        with 0%nat by lia.
      reflexivity.
    + assert (Hpos : 0 <= (unixNano endDateTime - unixNano cur) / nanosPerDay).
      { apply Z.div_pos; unfold nanosPerDay, secondsPerDay, nanosPerSecond; lia. }
      assert (Hnext : (unixNano endDateTime - unixNano (AddDays cur 1)) / nanosPerDay + 1
                      = (unixNano endDateTime - unixNano cur) / nanosPerDay).
      { unfold AddDays. simpl. fold nanosPerDay.
        replace (unixNano endDateTime - (unixNano cur + 1 * secondsPerDay * nanosPerSecond))
          with (unixNano endDateTime - unixNano cur + (-1) * nanosPerDay)
          by (unfold nanosPerDay; lia).
        rewrite Z.div_add by (unfold nanosPerDay, secondsPerDay, nanosPerSecond; lia). lia. }
      rewrite IH by (rewrite Hnext; lia).
      rewrite Hnext.
      replace (Z.to_nat ((unixNano endDateTime - unixNano cur) / nanosPerDay + 1))
        with (S (Z.to_nat ((unixNano endDateTime - unixNano cur) / nanosPerDay))) by lia.
      cbn [seq fmap list_fmap]. rewrite AddDays_0. f_equal.
      rewrite <- fmap_S_seq, <- list_fmap_compose.
      apply list_fmap_ext. intros i x _. simpl.
      rewrite AddDays_AddDays. f_equal. lia.
Qed.

(** [generateDateRange] on two dates of one location, the first not after
    the second: one date per civil day from the day of the start to the day
    of the end, first day first, each at midnight in that location.  The
    loop stops by its own test. *)
Theorem generateDateRange_days (startDate endDate : Time) :
  zoneOffset startDate = zoneOffset endDate ->
  After startDate endDate = false ->
  let days := Z.to_nat (civilDay endDate - civilDay startDate + 1) in
  generateDateRange (Some startDate) (Some endDate)
  = (fun i => AddDays (midnight startDate) (Z.of_nat i)) <$> seq 0 days
  /\ civilDay <$> generateDateRange (Some startDate) (Some endDate)
     = (fun i => civilDay startDate + Z.of_nat i) <$> seq 0 days
  /\ (0 < days)%nat.
Proof.
  intros Hzone Hafter days.
  assert (Hdiff : (unixNano (midnight endDate) - unixNano (midnight startDate)) / nanosPerDay
                  = civilDay endDate - civilDay startDate).
  { unfold midnight. simpl. rewrite Hzone.
    replace ((civilDay endDate * secondsPerDay - zoneOffset endDate) * nanosPerSecond
             - (civilDay startDate * secondsPerDay - zoneOffset endDate) * nanosPerSecond)
      with ((civilDay endDate - civilDay startDate) * nanosPerDay)
      by (unfold nanosPerDay; lia).
    apply Z.div_mul. unfold nanosPerDay, secondsPerDay, nanosPerSecond. lia. }
  assert (Hgen : generateDateRange (Some startDate) (Some endDate)
                 = (fun i => AddDays (midnight startDate) (Z.of_nat i)) <$> seq 0 days).
  { unfold generateDateRange. rewrite Hafter. fold nanosPerDay.
    rewrite generateDates_spec by (fold nanosPerDay; lia).
    rewrite Hdiff. reflexivity. }
  split; [exact Hgen|]. split.
  - rewrite Hgen, <- list_fmap_compose. apply list_fmap_ext. intros i x _. simpl.
    by rewrite civilDay_AddDays, civilDay_midnight.
  - subst days. unfold After in Hafter. apply Z.ltb_ge in Hafter.
    assert (civilDay startDate <= civilDay endDate); [|lia].
    unfold civilDay. rewrite Hzone.
    apply Z.div_le_mono; [unfold secondsPerDay; lia|].
    apply Z.add_le_mono_r.
    apply Z.div_le_mono; [unfold nanosPerSecond; lia|lia].
Qed.

Lemma generateDateRange_days_witness :
  generateDateRange (Some (Add (jan 14) (15 * Hour))) (Some (Add (jan 16) (9 * Hour)))
  = [jan 14; jan 15; jan 16].
Proof.
  destruct (generateDateRange_days (Add (jan 14) (15 * Hour)) (Add (jan 16) (9 * Hour))
              eq_refl ltac:(vm_compute; reflexivity)) as (Hgen & _ & _).
  rewrite Hgen. vm_compute. reflexivity.
Defined.

(* ================================================================== *)
(** * Error paths of the service entry points *)
(* ================================================================== *)

(** The filters are nil or lack one of the two dates. *)
Definition datesMissing (filters : option InsigthFilters) : Prop :=
  match filters with
  | Some {| StartDate := Some _; EndDate := Some _ |} => False
  | _ => True
  end.

Section EntryPointErrors.

Context {W : Type} `{Collaborators W}.
Variable completion : list Time -> list Time.
Variable FormatFloat : float64 -> string.

(** Nil filters or a nil date are an error, not a panic, and no
    collaborator is called; with valid dates, an account lookup that fails
    or finds nothing ends the call after that one lookup, with the error of
    the repository or with "conta não encontrada". *)
Theorem GetAdAccountsByID_early_errors (useCache : bool) (accountID : string) (r : Run W) :
  (forall filters, datesMissing filters ->
     GetAdAccountsByID completion FormatFloat useCache accountID filters r
     = (Returns (Err "é necessário informar as datas de início e fim"), r)
     /\ GetAdAccountReachImpressions accountID filters r
        = (Err "é necessário informar as datas de início e fim", r))
  /\ (forall startDate endDate res w1,
        After startDate endDate = false ->
        accountRepository_GetAccountByExternalID accountID (world r) = (res, w1) ->
        (forall account, res <> Ok (Some account)) ->
        GetAdAccountsByID completion FormatFloat useCache accountID
          (Some {| StartDate := Some startDate; EndDate := Some endDate |}) r
        = (Returns (Err match res with
                        | Err e => e
                        | Ok _ => "conta não encontrada: " +:+ accountID
                        end),
           mkRun w1 (log r ++ [EvAccountLookup accountID]))).
Proof.
  split.
  - intros [[[s|] [e|]]|] Hmiss; try destruct Hmiss; split; reflexivity.
  - intros s e res w1 Hafter Hq Hres. cbn. rewrite Hafter, Hq.
    destruct res as [[account|]|msg]; [|reflexivity|reflexivity].
    by destruct (Hres account).
Qed.

End EntryPointErrors.

Lemma GetAdAccountsByID_early_errors_witness :
  GetAdAccountsByID inOrder sampleFormatFloat true "act_9"
    (Some {| StartDate := Some (jan 14); EndDate := Some (jan 15) |}) (mkRun sampleWorld [])
  = (Returns (Err "conta não encontrada: act_9"),
     mkRun sampleWorld [EvAccountLookup "act_9"]).
Proof.
  assert (Hq : accountRepository_GetAccountByExternalID "act_9" sampleWorld
               = (Ok None, sampleWorld)) by (vm_compute; reflexivity).
  destruct (GetAdAccountsByID_early_errors inOrder sampleFormatFloat true "act_9"
              (mkRun sampleWorld [])) as [_ Hw].
  apply (Hw (jan 14) (jan 15) (Ok None) sampleWorld); [vm_compute; reflexivity|exact Hq|].
  intros account. discriminate.
Defined.

(* ================================================================== *)
(** * Properties of the sales metrics *)
(* ================================================================== *)

(** Whether [getSalesMetricsByOrigin] counts the sale for the origin. *)
Definition shouldCount (origin : string) (sale : Order) : bool :=
  if decide (origin = SocialNetworkOrigin) then isSocialNetworkSale sale
  else if decide (origin = OthersOrigin) then negb (isSocialNetworkSale sale)
  else false.

(** The loop body of [getSalesMetricsByOrigin]. *)
Definition salesStep (origin : string) (acc : go_err (float64 * list Sale)) (sale : Order)
  : go_err (float64 * list Sale) :=
  match acc with
  | Err e => Err e
  | Ok (totalRevenue, domainSales) =>
      if shouldCount origin sale then
        match ParseDateOnly (ord_Date sale) with
        | None => Err "parsing time"
        | Some date =>
            Ok (PrimFloat.add totalRevenue (ord_NetAmount sale),
                domainSales ++ [ {| sale_Date := Some date;
                                    sale_NetAmount := ord_NetAmount sale |} ])
        end
      else acc
  end.

Lemma getSalesMetricsByOrigin_unfold (origin : string) (sales : list Order) :
  getSalesMetricsByOrigin origin sales
  = match fold_left (salesStep origin) sales (Ok (PrimFloat.zero, [])) with
    | Err e => Err e
    | Ok (totalRevenue, domainSales) =>
        Ok {| sm_TotalRevenue := RoundWithTwoDecimalPlace totalRevenue;
              sm_SalesQuantity := Z.of_nat (length domainSales);
              sm_AverageTicket :=
                if 0 <? Z.of_nat (length domainSales)
                then RoundWithTwoDecimalPlace
                       (PrimFloat.div totalRevenue (float64_of_int (Z.of_nat (length domainSales))))
                else PrimFloat.zero;
              sm_Sales := domainSales |}
    end.
Proof. reflexivity. Qed.

(** The sum of the net amounts of the counted sales, in slice order. *)
Definition countedRevenue (origin : string) (sales : list Order) (start : float64) : float64 :=
  fold_left (fun total sale =>
               if shouldCount origin sale then PrimFloat.add total (ord_NetAmount sale)
               else total) sales start.

Lemma salesStep_fold_ok (origin : string) (sales : list Order) (total : float64)
    (domainSales : list Sale) :
  Forall (fun sale => shouldCount origin sale = true ->
                      is_Some (ParseDateOnly (ord_Date sale))) sales ->
  exists more,
    fold_left (salesStep origin) sales (Ok (total, domainSales))
    = Ok (countedRevenue origin sales total, domainSales ++ more)
    /\ length more = length (filter (fun sale => shouldCount origin sale = true) sales)
    /\ sale_NetAmount <$> more
       = ord_NetAmount <$> filter (fun sale => shouldCount origin sale = true) sales.
Proof.
  intros Hall. revert total domainSales.
  induction Hall as [|sale sales Hsale _ IH]; intros total domainSales.
  - exists []. simpl. rewrite app_nil_r. auto.
  - cbn [fold_left]. unfold countedRevenue. cbn [fold_left]. fold (countedRevenue origin).
    unfold salesStep at 2.
    destruct (shouldCount origin sale) eqn:Hc.
    + destruct (Hsale eq_refl) as [date Hdate]. rewrite Hdate.
      destruct (IH (PrimFloat.add total (ord_NetAmount sale))
                  (domainSales ++ [ {| sale_Date := Some date;
                                       sale_NetAmount := ord_NetAmount sale |} ]))
        as (more & Hfold & Hlen & Hamt).
      eexists (_ :: more). rewrite Hfold, <- app_assoc.
      rewrite filter_cons_True by exact Hc.
      split; [reflexivity|].
      split; [cbn [length]; by rewrite Hlen | rewrite !fmap_cons, Hamt; reflexivity].
    + destruct (IH total domainSales) as (more & Hfold & Hlen & Hamt).
      exists more. rewrite Hfold.
      rewrite filter_cons_False by (rewrite Hc; discriminate).
      auto.
Qed.

Lemma salesStep_fold_err (origin : string) (sales : list Order) (e : string) :
  fold_left (salesStep origin) sales (Err e) = Err e.
Proof. induction sales as [|s l IH]; [reflexivity|exact IH]. Qed.

Lemma countedRevenue_social (sales : list Order) :
  countedRevenue SocialNetworkOrigin sales PrimFloat.zero = GetSumNetAmountSocialNetwork sales.
Proof. reflexivity. Qed.

Lemma shouldCount_partition (sale : Order) :
  shouldCount OthersOrigin sale = negb (shouldCount SocialNetworkOrigin sale).
Proof. reflexivity. Qed.

Lemma filter_partition_length {A : Type} (f : A -> bool) (l : list A) :
  (length (filter (fun x => f x = true) l) + length (filter (fun x => negb (f x) = true) l)
   = length l)%nat.
Proof.
  induction l as [|x l IH]; [reflexivity|].
  destruct (f x) eqn:Hf.
  - rewrite filter_cons_True by exact Hf.
    rewrite (filter_cons_False (fun x => negb (f x) = true)) by (rewrite Hf; discriminate).
    simpl. lia.
  - rewrite filter_cons_False by (rewrite Hf; discriminate).
    rewrite (filter_cons_True (fun x => negb (f x) = true)) by (by rewrite Hf).
    simpl. lia.
Qed.

(** When the date of every sale parses, both origins are computed and
    every sale is counted by exactly one of them: the two quantities add up
    to the number of sales.  The social-network metrics list the sales whose
    first origin is a social-network origin, in slice order, and their total
    revenue is the rounded sum that the ranking uses unrounded. *)
Theorem getSalesMetricsByOrigin_partition (sales : list Order) :
  Forall (fun sale => is_Some (ParseDateOnly (ord_Date sale))) sales ->
  exists social others,
    getSalesMetricsByOrigin SocialNetworkOrigin sales = Ok social
    /\ getSalesMetricsByOrigin OthersOrigin sales = Ok others
    /\ sm_SalesQuantity social + sm_SalesQuantity others = Z.of_nat (length sales)
    /\ sale_NetAmount <$> sm_Sales social
       = ord_NetAmount <$> filter (fun sale => isSocialNetworkSale sale = true) sales
    /\ sm_SalesQuantity social = Z.of_nat (length (sm_Sales social))
    /\ sm_TotalRevenue social
       = RoundWithTwoDecimalPlace (GetSumNetAmountSocialNetwork sales).
Proof.
  intros Hall.
  destruct (salesStep_fold_ok SocialNetworkOrigin sales PrimFloat.zero [])
    as (ms & Hs & Hls & Has).
  { eapply Forall_impl; [exact Hall|]. auto. }
  destruct (salesStep_fold_ok OthersOrigin sales PrimFloat.zero [])
    as (mo & Ho & Hlo & Hao).
  { eapply Forall_impl; [exact Hall|]. auto. }
  rewrite !getSalesMetricsByOrigin_unfold, Hs, Ho. cbn [app].
  do 2 eexists. split; [reflexivity|]. split; [reflexivity|].
  cbn [sm_SalesQuantity sm_Sales sm_TotalRevenue].
  split; [|split; [exact Has|split; [reflexivity|by rewrite countedRevenue_social]]].
  assert (Hlo' : length mo
                 = length (filter (fun x => negb (shouldCount SocialNetworkOrigin x) = true)
                             sales)) by exact Hlo.
  pose proof (filter_partition_length (shouldCount SocialNetworkOrigin) sales) as Hp.
  rewrite <- Hp, Hls, Hlo'. lia.
Qed.

(** A counted sale whose date does not parse makes the computation of its
    origin fail; since every sale is counted by one of the two origins, a
    single malformed date fails the metrics of the whole answer. *)
Theorem getSalesMetricsByOrigin_malformed_date (sales : list Order) (sale : Order) :
  sale ∈ sales ->
  ParseDateOnly (ord_Date sale) = None ->
  (forall origin, shouldCount origin sale = true ->
     getSalesMetricsByOrigin origin sales = Err "parsing time")
  /\ (getSalesMetricsByOrigin SocialNetworkOrigin sales = Err "parsing time"
      \/ getSalesMetricsByOrigin OthersOrigin sales = Err "parsing time").
Proof.
  intros Hin Hparse.
  assert (Hmain : forall origin, shouldCount origin sale = true ->
                    getSalesMetricsByOrigin origin sales = Err "parsing time").
  { intros origin Hc. rewrite getSalesMetricsByOrigin_unfold.
    assert (Hfold : forall acc,
               fold_left (salesStep origin) sales (Ok acc) = Err "parsing time");
      [|by rewrite Hfold].
    induction sales as [|s l IH]; intros [total ds].
    - by apply elem_of_nil in Hin.
    - cbn [fold_left]. unfold salesStep at 2.
      apply elem_of_cons in Hin as [<-|Hin].
      + rewrite Hc, Hparse. apply salesStep_fold_err.
      + destruct (shouldCount origin s); [|by apply IH].
        destruct (ParseDateOnly (ord_Date s)); [by apply IH|apply salesStep_fold_err]. }
  split; [exact Hmain|].
  destruct (shouldCount SocialNetworkOrigin sale) eqn:Hc.
  - left. by apply Hmain.
  - right. apply Hmain. by rewrite shouldCount_partition, Hc.
Qed.

Lemma getSalesMetricsByOrigin_partition_witness :
  exists social others,
    getSalesMetricsByOrigin SocialNetworkOrigin sampleOrders = Ok social
    /\ getSalesMetricsByOrigin OthersOrigin sampleOrders = Ok others
    /\ sm_SalesQuantity social + sm_SalesQuantity others = 2
    /\ sm_TotalRevenue social = 1000%float.
Proof.
  destruct (getSalesMetricsByOrigin_partition sampleOrders)
    as (social & others & Hs & Ho & Hsum & _ & _ & Hrev).
  - repeat constructor; vm_compute; eexists; reflexivity.
  - exists social, others. split; [exact Hs|]. split; [exact Ho|].
    split; [exact Hsum|]. rewrite Hrev. vm_compute. reflexivity.
Defined.

Lemma getSalesMetricsByOrigin_malformed_date_witness :
  getSalesMetricsByOrigin OthersOrigin
    [ {| ord_Date := "2024-01-15"; ord_NetAmount := 1000%float;
         ord_CustomerOrigins := ["Redes Sociais"] |};
      {| ord_Date := "15/01/2024"; ord_NetAmount := 250%float;
         ord_CustomerOrigins := [] |} ]
  = Err "parsing time".
Proof.
  apply (getSalesMetricsByOrigin_malformed_date _
           {| ord_Date := "15/01/2024"; ord_NetAmount := 250%float;
              ord_CustomerOrigins := [] |}).
  - right. left.
  - vm_compute. reflexivity.
  - vm_compute. reflexivity.
Defined.

(* ================================================================== *)
(** * Properties of the string counters of campaigns *)
(* ================================================================== *)

Lemma is_nat_pretty_N_char (d : N) :
  (d < 10)%N -> Ascii.is_nat (pretty_N_char d) = Some (N.to_nat d).
Proof.
  intros Hd.
  assert (Hcases : d = 0%N \/ d = 1%N \/ d = 2%N \/ d = 3%N \/ d = 4%N \/ d = 5%N
                   \/ d = 6%N \/ d = 7%N \/ d = 8%N \/ d = 9%N) by lia.
  repeat (destruct Hcases as [->|Hcases]; [reflexivity|]). subst d. reflexivity.
Qed.

(** Reading back the digits that [pretty_N_go] writes in front of [s]. *)
Lemma atoi_digits_pretty_N_go (x : N) (s : string) :
  exists k : nat, forall acc,
    atoi_digits (pretty_N_go x s) acc = atoi_digits s (acc * 10 ^ Z.of_nat k + Z.of_N x).
Proof.
  revert s. induction (N.lt_wf_0 x) as [x _ IH]. intros s.
  destruct (N.eq_dec x 0%N) as [->|Hx].
  - exists 0%nat. intros acc. rewrite pretty_N_go_0. f_equal. simpl. lia.
  - rewrite pretty_N_go_step by lia.
    destruct (IH (x `div` 10)%N ltac:(apply N.div_lt; lia)
                (String (pretty_N_char (x `mod` 10)%N) s)) as [k Hk].
    exists (S k). intros acc. rewrite Hk. cbn [atoi_digits].
    rewrite is_nat_pretty_N_char by (apply N.mod_lt; lia).
    f_equal. rewrite N_nat_Z, Nat2Z.inj_succ, Z.pow_succ_r by lia.
    rewrite N2Z.inj_div.
    pose proof (Z.div_mod (Z.of_N x) 10 ltac:(lia)) as Hdm.
    rewrite N2Z.inj_mod. change (Z.of_N 10) with 10 in *.
    generalize dependent (10 ^ Z.of_nat k). intros P _. lia.
Qed.

Lemma atoi_digits_pretty_N (n : N) : atoi_digits (pretty n) 0 = Some (Z.of_N n).
Proof.
  unfold pretty, pretty_N. destruct (decide (n = 0%N)) as [->|Hn]; [reflexivity|].
  destruct (atoi_digits_pretty_N_go n "") as [k Hk]. rewrite Hk. cbn [atoi_digits]. f_equal.
Qed.

(** A string of digits does not start with a sign and is read as it is. *)
Lemma Atoi_unsigned (s : string) (n : Z) :
  s <> "" -> atoi_digits s 0 = Some n ->
  Atoi s = if (- 2 ^ 63 <=? n) && (n <? 2 ^ 63) then Some n else None.
Proof.
  intros Hs Hn. destruct s as [|c s']; [done|].
  assert (Hc : is_Some (Ascii.is_nat c)).
  { cbn [atoi_digits] in Hn. destruct (Ascii.is_nat c); [eauto|discriminate]. }
  assert (Hshape : Atoi (String c s')
                   = match atoi_digits (String c s') 0 with
                     | Some m => if (- 2 ^ 63 <=? m) && (m <? 2 ^ 63) then Some m else None
                     | None => None
                     end).
  { destruct Hc as [d Hd]. clear Hn Hs.
    destruct c as [[] [] [] [] [] [] [] []]; try discriminate Hd; reflexivity. }
  rewrite Hshape, Hn. reflexivity.
Qed.

Lemma pretty_N_nonempty (n : N) : pretty n <> "".
Proof.
  intros Hempty. pose proof (atoi_digits_pretty_N n) as Hread.
  unfold pretty, pretty_N in *. destruct (decide (n = 0%N)) as [->|Hn]; [discriminate|].
  rewrite Hempty in Hread. simpl in Hread. injection Hread as Hread. lia.
Qed.

(** [strconv.Atoi] reads back what [strconv.Itoa] writes. *)
Lemma Atoi_Itoa (z : Z) : is_int64 z -> Atoi (Itoa z) = Some z.
Proof.
  unfold is_int64, Itoa. intros Hz. destruct z as [|p|p].
  - reflexivity.
  - change (pretty (Z.pos p)) with (pretty (N.pos p)).
    rewrite (Atoi_unsigned _ (Z.of_N (N.pos p)));
      [|apply pretty_N_nonempty|apply atoi_digits_pretty_N].
    change (Z.of_N (N.pos p)) with (Z.pos p).
    destruct (Z.leb_spec (- 2 ^ 63) (Z.pos p)); [|lia].
    destruct (Z.ltb_spec (Z.pos p) (2 ^ 63)); [reflexivity|lia].
  - change (pretty (Z.neg p)) with ("-" +:+ pretty (N.pos p)).
    pose proof (atoi_digits_pretty_N (N.pos p)) as Hread.
    pose proof (pretty_N_nonempty (N.pos p)) as Hne.
    destruct (pretty (N.pos p)) as [|c s'] eqn:Hp; [done|].
    change (Atoi ("-" +:+ String c s'))
      with (match atoi_digits (String c s') 0 with
            | Some n => if (- 2 ^ 63 <=? - n) && (- n <? 2 ^ 63) then Some (- n) else None
            | None => None
            end).
    rewrite Hread.
    change (- Z.of_N (N.pos p)) with (Z.neg p).
    destruct (Z.leb_spec (- 2 ^ 63) (Z.neg p)); [|lia].
    destruct (Z.ltb_spec (Z.neg p) (2 ^ 63)); [reflexivity|lia].
Qed.

Lemma Itoa_nonempty (z : Z) : Itoa z <> "".
Proof.
  unfold Itoa. destruct z as [|p|p]; [discriminate|apply (pretty_N_nonempty (N.pos p))|].
  change (pretty (Z.neg p)) with ("-" +:+ pretty (N.pos p)). discriminate.
Qed.

(** [sumStringInts] adds two counters written by [strconv.Itoa], with
    the wrap-around of [int], and an empty string on either side counts as
    zero. *)
Theorem sumStringInts_adds (a b : Z) :
  is_int64 a -> is_int64 b ->
  sumStringInts (Itoa a) (Itoa b) = Itoa (int_add a b)
  /\ sumStringInts "" (Itoa b) = Itoa b
  /\ sumStringInts (Itoa b) "" = Itoa b.
Proof.
  intros Ha Hb. unfold sumStringInts.
  destruct (decide ("" = "")) as [_|Hc]; [|destruct Hc; reflexivity].
  destruct (decide (Itoa a = "")) as [He|_]; [destruct (Itoa_nonempty a He)|].
  destruct (decide (Itoa b = "")) as [He|_]; [destruct (Itoa_nonempty b He)|].
  rewrite !Atoi_Itoa by assumption.
  change (Atoi "0") with (Some 0).
  split; [reflexivity|].
  unfold int_add. rewrite Z.add_0_l, Z.add_0_r, wrap64_small by exact Hb. auto.
Qed.

Lemma sumStringInts_adds_witness :
  sumStringInts "120" "35" = "155" /\ sumStringInts "" "35" = "35"
  /\ sumStringInts "35" "" = "35".
Proof.
  assert (Ha : is_int64 120) by (unfold is_int64; lia).
  assert (Hb : is_int64 35) by (unfold is_int64; lia).
  pose proof (sumStringInts_adds 120 35 Ha Hb) as H.
  vm_compute in H |- *. exact H.
Defined.

(** An operand that is neither empty nor a decimal [int] makes
    [sumStringInts] return "0" on whichever side it stands: the other
    operand is dropped, not kept. *)
Theorem sumStringInts_unparsable (a b : string) :
  a <> "" -> Atoi a = None ->
  sumStringInts a b = "0" /\ sumStringInts b a = "0".
Proof.
  intros Ha Hnone. unfold sumStringInts.
  destruct (decide (a = "")) as [He|_]; [destruct (Ha He)|].
  rewrite Hnone. split; [reflexivity|].
  destruct (Atoi (if decide (b = "") then "0" else b)); reflexivity.
Qed.

Lemma sumStringInts_unparsable_witness :
  sumStringInts "12x" "7" = "0" /\ sumStringInts "7" "12x" = "0".
Proof.
  assert (Ha : "12x" <> "") by (intros He; discriminate He).
  assert (Hn : Atoi "12x" = None) by (vm_compute; reflexivity).
  exact (sumStringInts_unparsable "12x" "7" Ha Hn).
Defined.

(* ================================================================== *)
(** * Properties of the token manager *)
(* ================================================================== *)

Lemma prefix_app_l (sub s t : string) :
  String.prefix sub s = true -> String.prefix sub (s +:+ t) = true.
Proof.
  revert s. induction sub as [|c sub IH]; intros s Hp; [by destruct (s +:+ t)|].
  destruct s as [|d s]; [discriminate|].
  change (String d s +:+ t) with (String d (s +:+ t)).
  cbn [String.prefix] in Hp |- *.
  destruct (ascii_dec c d); [by apply IH|discriminate].
Qed.

Lemma Contains_app_l (s t sub : string) :
  Contains s sub = true -> Contains (s +:+ t) sub = true.
Proof.
  induction s as [|c s IH]; intros Hc.
  - cbn in Hc. rewrite orb_false_r in Hc. destruct sub; [by destruct t|discriminate].
  - cbn [Contains] in Hc. apply orb_true_iff in Hc as [Hp|Hc].
    + change (String c s +:+ t) with (String c (s +:+ t)) in *.
      cbn [Contains]. apply orb_true_iff. left.
      exact (prefix_app_l sub (String c s) t Hp).
    + change (String c s +:+ t) with (String c (s +:+ t)).
      cbn [Contains]. apply orb_true_iff. right. by apply IH.
Qed.

Lemma Contains_app_r (s t sub : string) :
  Contains t sub = true -> Contains (s +:+ t) sub = true.
Proof.
  intros Hc. induction s as [|c s IH]; [exact Hc|].
  change (String c s +:+ t) with (String c (s +:+ t)).
  cbn [Contains]. apply orb_true_iff. by right.
Qed.

(** The events a list of requests holds that are token exchanges. *)
Definition exchanges (l : list TokenEvent) : list string :=
  omap (fun e => match e with EvTokenExchange t => Some t | _ => None end) l.

(** [k] calls of [RefreshToken], one after the other: what [k] goroutines
    that call it at the same time amount to, since each holds the mutex
    from its first statement to its return. *)
Fixpoint refreshTimes {N : Type} `{MetaGraph N} (k : nat) (tm : TokenManager N)
    : TokenManager N :=
  match k with
  | O => tm
  | S k => refreshTimes k (snd (RefreshToken tm))
  end.

Section TokenProperties.

Context {N : Type} `{MetaGraph N}.

Lemma Now_calls (n : Net N) : calls (snd (Now n)) = calls n.
Proof. unfold Now. by destruct (clock_Now (wire n)). Qed.

Lemma CalculateTokenExpiration_calls (expiresIn : Z) (n : Net N) :
  calls (snd (CalculateTokenExpiration expiresIn n)) = calls n.
Proof.
  unfold CalculateTokenExpiration. pose proof (Now_calls n) as Hn.
  by destruct (Now n).
Qed.

Lemma GetLongLivedToken_calls (t a s b v : string) (n : Net N) :
  calls (snd (GetLongLivedToken t a s b v n))
  = calls n ++ (if decide (t = "") then [] else [EvTokenExchange t]).
Proof.
  unfold GetLongLivedToken. destruct (decide (t = "")) as [_|_]; [by rewrite app_nil_r|].
  destruct (graph_oauth_access_token b v a s t (wire n)) as [resp w].
  destruct resp as [err|st body [err|]]; try reflexivity.
  destruct (negb (st =? StatusOK)); [reflexivity|].
  destruct (json_TokenResponse body) as [tok|err]; [|reflexivity].
  by destruct (decide (tr_AccessToken tok = "")).
Qed.

Lemma GetLongLivedToken_ok (t a s b v : string) (n n' : Net N) (tok : TokenResponse) :
  GetLongLivedToken t a s b v n = (Ok tok, n') -> t <> "" /\ tr_AccessToken tok <> "".
Proof.
  unfold GetLongLivedToken. destruct (decide (t = "")) as [_|Ht]; [discriminate|].
  destruct (graph_oauth_access_token b v a s t (wire n)) as [resp w].
  destruct resp as [err|st body [err|]]; try discriminate.
  destruct (negb (st =? StatusOK)); [discriminate|].
  destruct (json_TokenResponse body) as [tok'|err]; [|discriminate].
  destruct (decide (tr_AccessToken tok' = "")) as [|Hne]; [discriminate|].
  intros [= <- _]. by split.
Qed.

Lemma setMutex_free (tm : TokenManager N) :
  tm_mutexHeld tm = false -> setMutex (setMutex tm true) false = tm.
Proof. destruct tm as [c m n]. cbn. by intros ->. Qed.

(** What one call of [refreshTokenInternal] does when the mutex is free. *)
Lemma refreshTokenInternal_spec (tm : TokenManager N) :
  tm_mutexHeld tm = false ->
  exists (e : option string) (tm' : TokenManager N),
    refreshTokenInternal tm = (Done e, tm')
    /\ tm_mutexHeld tm' = false
    /\ calls (tm_net tm')
       = calls (tm_net tm)
         ++ (if decide (meta_AccessToken (tm_cfg tm) = "") then []
             else [EvTokenExchange (meta_AccessToken (tm_cfg tm))])
    /\ match e with
       | Some _ => tm_cfg tm' = tm_cfg tm
       | None =>
           meta_AccessToken (tm_cfg tm) <> ""
           /\ meta_AccessToken (tm_cfg tm') <> ""
           /\ meta_LongLivedToken (tm_cfg tm') = meta_AccessToken (tm_cfg tm')
       end.
Proof.
  intros Hfree. unfold refreshTokenInternal, withMutex. rewrite Hfree.
  cbn [setMutex tm_cfg tm_net tm_mutexHeld].
  set (n0 := if negb (IsZero (meta_TokenExpiresAt (tm_cfg tm)))
             then snd (Now (tm_net tm)) else tm_net tm).
  assert (Hn0 : calls n0 = calls (tm_net tm)).
  { subst n0. destruct (negb _); [apply Now_calls|reflexivity]. }
  pose proof (GetLongLivedToken_calls (meta_AccessToken (tm_cfg tm)) (meta_AppID (tm_cfg tm))
                (meta_AppSecret (tm_cfg tm)) (meta_BaseURL (tm_cfg tm))
                (meta_Version (tm_cfg tm)) n0) as Hcalls.
  destruct (GetLongLivedToken _ _ _ _ _ n0) as [res n1] eqn:HG.
  cbn [snd] in Hcalls. rewrite Hn0 in Hcalls.
  destruct res as [tok|errMsg].
  - apply GetLongLivedToken_ok in HG as [Ht Htok].
    pose proof (CalculateTokenExpiration_calls (tr_ExpiresIn tok) n1) as Hexp.
    destruct (CalculateTokenExpiration (tr_ExpiresIn tok) n1) as [expiresAt n2].
    cbn [snd] in Hexp. eexists None, _. split; [reflexivity|].
    cbn. rewrite Hexp, Hcalls. auto.
  - destruct (Contains errMsg "Error validating access token"
              || Contains errMsg "Session has expired"
              || Contains errMsg "The session has been invalidated");
      (eexists (Some _), _; split; [reflexivity|]); cbn; auto.
Qed.

End TokenProperties.

(** A scripted world for concrete runs: the replies of the exchange
    endpoint in the order they are given, the reply of [/me] and of
    [debug_token], and a clock that stands still.  A body decodes to a
    token response that carries the body as its token. *)
Record Script : Set := mkScript {
  exchangeReplies : list HttpResult;
  meReply : HttpResult;
  debugReply : HttpResult;
  scriptNow : Time
}.

Global Instance Script_MetaGraph : MetaGraph Script := {|
  graph_oauth_access_token _ _ _ _ _ w :=
    match exchangeReplies w with
    | [] => (GetFailed "connection refused", w)
    | r :: rs => (r, mkScript rs (meReply w) (debugReply w) (scriptNow w))
    end;
  graph_me _ _ w := (meReply w, w);
  graph_debug_token _ _ _ _ _ w := (debugReply w, w);
  render_AddOrUpdateSecret _ _ _ w := w;
  json_TokenResponse body := Ok (mkTokenResponse body "bearer" 5184000);
  json_ErrorResponse body := Err "invalid character";
  json_debug_expires_at body := Ok None;
  clock_Now w := (scriptNow w, w);
  time_Local := 0
|}.

Definition sampleConfig (accessToken longLivedToken : string) (expiresAt : Time) : MetaConfig :=
  mkMetaConfig accessToken longLivedToken expiresAt "app" "secret"
               "https://graph.facebook.com" "v22.0" "https://graph.facebook.com/v22.0" "srv-1".

Definition sampleManager (accessToken longLivedToken : string) (expiresAt : Time)
    (replies : list HttpResult) (me : HttpResult) : TokenManager Script :=
  mkTokenManager (sampleConfig accessToken longLivedToken expiresAt) false
                 (mkNet (mkScript replies me (GetFailed "unused") (Unix 1700000000)) []).

Section TokenTheorems.

Context {N : Type} `{MetaGraph N}.

Lemma exchanges_snoc (l : list TokenEvent) (t : string) :
  exchanges (l ++ [EvTokenExchange t]) = exchanges l ++ [t].
Proof. unfold exchanges. by rewrite omap_app. Qed.

(** Every call of [RefreshToken] with a non-empty access token makes its
    own token exchange: [k] calls that the mutex lets through one after the
    other make [k] exchanges, whether they succeed or fail, and each leaves
    the mutex free and the access token non-empty for the next. *)
Theorem RefreshToken_every_call_exchanges (k : nat) (tm : TokenManager N) :
  tm_mutexHeld tm = false ->
  meta_AccessToken (tm_cfg tm) <> "" ->
  length (exchanges (calls (tm_net (refreshTimes k tm))))
  = (length (exchanges (calls (tm_net tm))) + k)%nat
  /\ tm_mutexHeld (refreshTimes k tm) = false
  /\ meta_AccessToken (tm_cfg (refreshTimes k tm)) <> "".
Proof.
  revert tm. induction k as [|k IH]; intros tm Hfree Htok.
  - cbn. repeat split; auto.
  - cbn [refreshTimes]. unfold RefreshToken.
    destruct (refreshTokenInternal_spec tm Hfree) as (e & tm' & Hrun & Hfree' & Hcalls & He).
    rewrite Hrun. cbn [snd].
    rewrite decide_False in Hcalls by exact Htok.
    assert (Htok' : meta_AccessToken (tm_cfg tm') <> "").
    { destruct e as [msg|]; [by rewrite He|by destruct He as (_ & ? & _)]. }
    destruct (IH tm' Hfree' Htok') as (Hlen & Hm & Ht).
    repeat split; [|exact Hm|exact Ht].
    rewrite Hlen, Hcalls, exchanges_snoc, length_app. cbn. lia.
Qed.

(** A call of [RefreshToken] with the mutex free returns and frees the
    mutex again.  If it returns an error, the configuration is what it was:
    a failed refresh does not clear or change the tokens or the expiry.  If
    it returns nil, the access token and the long-lived token are the same
    non-empty token.  With an empty access token it fails without a
    request; otherwise it makes exactly one request, the exchange of the
    access token. *)
Theorem RefreshToken_outcome (tm : TokenManager N) :
  tm_mutexHeld tm = false ->
  exists (e : option string) (tm' : TokenManager N),
    RefreshToken tm = (Done e, tm')
    /\ tm_mutexHeld tm' = false
    /\ calls (tm_net tm')
       = calls (tm_net tm)
         ++ (if decide (meta_AccessToken (tm_cfg tm) = "") then []
             else [EvTokenExchange (meta_AccessToken (tm_cfg tm))])
    /\ match e with
       | Some _ => tm_cfg tm' = tm_cfg tm
       | None =>
           meta_AccessToken (tm_cfg tm) <> ""
           /\ meta_AccessToken (tm_cfg tm') <> ""
           /\ meta_LongLivedToken (tm_cfg tm') = meta_AccessToken (tm_cfg tm')
       end.
Proof. intros Hfree. exact (refreshTokenInternal_spec tm Hfree). Qed.

(** With a non-empty access token, [EnsureValidToken] reads the clock and
    makes no request when the expiry is at least 24 hours away, returning
    nil with the configuration untouched; otherwise it makes exactly one
    request, the exchange of the access token. *)
Theorem EnsureValidToken_requests (tm : TokenManager N) (now : Time) (w : N) :
  tm_mutexHeld tm = false ->
  meta_AccessToken (tm_cfg tm) <> "" ->
  clock_Now (wire (tm_net tm)) = (now, w) ->
  (24 * Hour <= Until now (meta_TokenExpiresAt (tm_cfg tm)) ->
     EnsureValidToken tm = (Done None, setNet tm (mkNet w (calls (tm_net tm)))))
  /\ (Until now (meta_TokenExpiresAt (tm_cfg tm)) < 24 * Hour ->
        exists e tm',
          EnsureValidToken tm = (Done e, tm')
          /\ calls (tm_net tm')
             = calls (tm_net tm) ++ [EvTokenExchange (meta_AccessToken (tm_cfg tm))]).
Proof.
  intros Hfree Htok Hnow. unfold EnsureValidToken, Now.
  rewrite bool_decide_eq_false_2 by exact Htok. rewrite Hnow. split; intros Hcmp.
  - destruct (Z.ltb_spec (Until now (meta_TokenExpiresAt (tm_cfg tm))) (24 * Hour)); [lia|].
    reflexivity.
  - destruct (Z.ltb_spec (Until now (meta_TokenExpiresAt (tm_cfg tm))) (24 * Hour)); [|lia].
    unfold RefreshToken.
    destruct (refreshTokenInternal_spec (setNet tm (mkNet w (calls (tm_net tm)))) Hfree)
      as (e & tm' & Hrun & _ & Hcalls & _).
    cbn [setNet tm_cfg tm_net calls] in Hcalls.
    rewrite decide_False in Hcalls by exact Htok.
    exists e, tm'. split; [exact Hrun|exact Hcalls].
Qed.

(** With an empty access token, [EnsureValidToken] makes no request and
    changes nothing: it returns nil when a long-lived token is set, leaving
    the access token empty, and otherwise the error of the exchange that
    refuses an empty token. *)
Theorem EnsureValidToken_empty_access_token (tm : TokenManager N) :
  tm_mutexHeld tm = false ->
  meta_AccessToken (tm_cfg tm) = "" ->
  EnsureValidToken tm
  = (Done (if decide (meta_LongLivedToken (tm_cfg tm) = "")
           then Some "erro ao obter token de longa duração: token de acesso não pode ser vazio"
           else None), tm).
Proof.
  intros Hfree Htok. unfold EnsureValidToken, InitiateToken, withMutex.
  rewrite bool_decide_eq_true_2 by exact Htok. rewrite Hfree.
  cbn [setMutex tm_cfg tm_net tm_mutexHeld].
  destruct (decide (meta_LongLivedToken (tm_cfg tm) = "")) as [Hl|Hl].
  - rewrite bool_decide_eq_true_2 by exact Hl. cbn [negb].
    unfold GetLongLivedToken. rewrite Htok. cbn [decide].
    destruct (decide ("" = "")) as [_|Hc]; [|destruct Hc; reflexivity].
    cbn. destruct tm as [c m n]. cbn in *. by subst m.
  - rewrite bool_decide_eq_false_2 by exact Hl. cbn.
    destruct tm as [c m n]. cbn in *. by subst m.
Qed.

(** [InitiateToken] exchanges at most once: after a call that returned nil
    the long-lived token is set, and every later call returns nil without a
    request and without touching the configuration. *)
Theorem InitiateToken_once (tm tm' : TokenManager N) :
  tm_mutexHeld tm = false ->
  InitiateToken tm = (Done None, tm') ->
  meta_LongLivedToken (tm_cfg tm') <> "" /\ InitiateToken tm' = (Done None, tm').
Proof.
  intros Hfree Hrun.
  assert (Hpost : meta_LongLivedToken (tm_cfg tm') <> "" /\ tm_mutexHeld tm' = false).
  { revert Hrun. unfold InitiateToken, withMutex. rewrite Hfree.
    cbn [setMutex tm_cfg tm_net tm_mutexHeld].
    destruct (bool_decide (meta_LongLivedToken (tm_cfg tm) = "")) eqn:Hl; cbn [negb].
    - destruct (GetLongLivedToken _ _ _ _ _ (tm_net tm)) as [res n1] eqn:HG.
      destruct res as [tok|err]; [|discriminate].
      apply GetLongLivedToken_ok in HG as [_ Htok].
      destruct (CalculateTokenExpiration (tr_ExpiresIn tok) n1) as [expiresAt n2].
      intros [= <-]. by split.
    - apply bool_decide_eq_false_1 in Hl. intros [= <-]. by split. }
  destruct Hpost as [Hl Hfree']. split; [exact Hl|].
  unfold InitiateToken, withMutex. rewrite Hfree'.
  cbn [setMutex tm_cfg tm_net tm_mutexHeld].
  rewrite bool_decide_eq_false_2 by exact Hl. cbn [negb].
  f_equal. by apply setMutex_free.
Qed.

(** When the check of the long-lived token answers with a status other
    than 200, [ValidateExistingToken] never returns: it calls
    [refreshTokenInternal] while it holds the mutex, and blocks in its
    [Lock], before any exchange is requested; so does [InitToken] when it
    takes that path.  The mutex stays held, so every later [RefreshToken],
    [InitiateToken] and [ValidateExistingToken] blocks as well. *)
Theorem ValidateExistingToken_invalid_token_blocks (tm : TokenManager N)
    (statusCode : Z) (body : string) (readErr : option string) (w : N) :
  tm_mutexHeld tm = false ->
  meta_LongLivedToken (tm_cfg tm) <> "" ->
  graph_me (meta_URL (tm_cfg tm)) (meta_LongLivedToken (tm_cfg tm)) (wire (tm_net tm))
  = (Response statusCode body readErr, w) ->
  statusCode <> StatusOK ->
  let stuck :=
    mkTokenManager (tm_cfg tm) true
      (mkNet w (calls (tm_net tm) ++ [EvTokenCheck (meta_LongLivedToken (tm_cfg tm))])) in
  ValidateExistingToken tm = (Blocked, stuck)
  /\ (IsZero (meta_TokenExpiresAt (tm_cfg tm)) = true -> InitToken tm = (Blocked, stuck))
  /\ RefreshToken stuck = (Blocked, stuck)
  /\ InitiateToken stuck = (Blocked, stuck)
  /\ ValidateExistingToken stuck = (Blocked, stuck).
Proof.
  intros Hfree Hl Hme Hstatus stuck.
  assert (Hrun : ValidateExistingToken tm = (Blocked, stuck)).
  { unfold ValidateExistingToken, withMutex. rewrite Hfree.
    cbn [setMutex tm_cfg tm_net tm_mutexHeld].
    unfold CheckTokenValidity. rewrite decide_False by exact Hl. rewrite Hme.
    destruct (Z.eqb_spec statusCode StatusOK) as [Heq|_]; [by destruct Hstatus|].
    cbn [negb]. reflexivity. }
  split; [exact Hrun|]. split; [|by repeat split].
  intros Hzero. unfold InitToken.
  rewrite bool_decide_eq_false_2 by exact Hl. rewrite Hzero, Hrun. reflexivity.
Qed.

End TokenTheorems.

Section TokenResponses.

Context {N : Type} `{MetaGraph N}.

(** For a token that lives between nothing and [2^33] seconds, the expiry
    that [CalculateTokenExpiration] records is never before the clock
    reading and never after the real expiry: one day before it when the
    token lives a day or more, and half of its life otherwise. *)
Theorem CalculateTokenExpiration_window (expiresIn : Z) (n : Net N) (now : Time) (w : N) :
  clock_Now (wire n) = (now, w) ->
  0 <= expiresIn < 2 ^ 33 ->
  exists d : Z,
    CalculateTokenExpiration expiresIn n = (Add now (d * nanosPerSecond), mkNet w (calls n))
    /\ 0 <= d <= expiresIn
    /\ d = (if expiresIn <? 86400 then expiresIn / 2 else expiresIn - 86400).
Proof.
  intros Hnow Hrange. unfold CalculateTokenExpiration, Now. rewrite Hnow.
  change (24 * 60 * 60) with 86400.
  rewrite (wrap64_small (expiresIn - 86400)) by (unfold is_int64; lia).
  destruct (Z.ltb_spec (expiresIn - 86400) 0) as [Hshort|Hlong].
  - exists (expiresIn / 2). rewrite Z.quot_div_nonneg by lia.
    pose proof (Z.div_pos expiresIn 2 ltac:(lia) ltac:(lia)) as Hpos.
    pose proof (Z.div_le_upper_bound expiresIn 2 expiresIn ltac:(lia) ltac:(lia)) as Hle.
    rewrite wrap64_small by (unfold is_int64, nanosPerSecond; lia).
    split; [reflexivity|]. split; [lia|].
    destruct (Z.ltb_spec expiresIn 86400); [reflexivity|lia].
  - exists (expiresIn - 86400).
    rewrite wrap64_small by (unfold is_int64, nanosPerSecond; lia).
    split; [reflexivity|]. split; [lia|].
    destruct (Z.ltb_spec expiresIn 86400); [lia|reflexivity].
Qed.

Lemma refreshExpired_spec (tm : TokenManager N) :
  tm_mutexHeld tm = false ->
  exists (msg : string) (tm' : TokenManager N),
    refreshExpired tm = (Done (Err msg), tm')
    /\ tm_mutexHeld tm' = false
    /\ calls (tm_net tm')
       = calls (tm_net tm)
         ++ (if decide (meta_AccessToken (tm_cfg tm) = "") then []
             else [EvTokenExchange (meta_AccessToken (tm_cfg tm))]).
Proof.
  intros Hfree. unfold refreshExpired, RefreshToken.
  destruct (refreshTokenInternal_spec tm Hfree) as (e & tm' & Hrun & Hfree' & Hcalls & _).
  rewrite Hrun. destruct e as [refreshErr|].
  - destruct (Contains refreshErr "necessário reautorizar"); eauto.
  - eauto.
Qed.

(** [HandleResponse] returns the body exactly when the body was read and
    the status is 200, and then it touches nothing.  For every other status
    it returns an error, also when it has just renewed the token, after at
    most one request, the exchange of the access token. *)
Theorem HandleResponse_body_only_on_200 (statusCode : Z) (body : string)
    (tm : TokenManager N) :
  tm_mutexHeld tm = false ->
  (statusCode = StatusOK -> HandleResponse statusCode body None tm = (Done (Ok body), tm))
  /\ (statusCode <> StatusOK ->
        exists (msg : string) (tm' : TokenManager N),
          HandleResponse statusCode body None tm = (Done (Err msg), tm')
          /\ tm_mutexHeld tm' = false
          /\ (calls (tm_net tm') = calls (tm_net tm)
              \/ calls (tm_net tm')
                 = calls (tm_net tm) ++ [EvTokenExchange (meta_AccessToken (tm_cfg tm))])).
Proof.
  intros Hfree. split; intros Hstatus; unfold HandleResponse.
  - subst statusCode. reflexivity.
  - destruct (Z.eqb_spec statusCode StatusOK) as [Heq|_]; [by destruct Hstatus|].
    assert (Hexp : exists (msg : string) (tm' : TokenManager N),
               refreshExpired tm = (Done (Err msg), tm')
               /\ tm_mutexHeld tm' = false
               /\ (calls (tm_net tm') = calls (tm_net tm)
                   \/ calls (tm_net tm')
                      = calls (tm_net tm)
                        ++ [EvTokenExchange (meta_AccessToken (tm_cfg tm))])).
    { destruct (refreshExpired_spec tm Hfree) as (msg & tm' & Hrun & Hfree' & Hcalls).
      exists msg, tm'. split; [exact Hrun|]. split; [exact Hfree'|].
      destruct (decide (meta_AccessToken (tm_cfg tm) = "")); [left|right]; [|exact Hcalls].
      by rewrite app_nil_r in Hcalls. }
    unfold handleErrorResponse, handleExpiredToken, handleExpiredTokenByMessage.
    destruct (json_ErrorResponse body) as [errorResp|parseErr].
    + destruct (IsTokenExpired errorResp); [exact Hexp|].
      destruct (containsTokenExpirationMessage body); [exact Hexp|].
      eexists _, tm. split; [reflexivity|]. split; [exact Hfree|by left].
    + destruct (containsTokenExpirationMessage body); [exact Hexp|].
      eexists _, tm. split; [reflexivity|]. split; [exact Hfree|by left].
Qed.

(** When the exchange endpoint answers a refresh with a status other than
    200 and a body that holds one of the three expiry messages, every layer
    words the failure as permanent: [RefreshToken] asks for a new
    authorization, [handleExpiredToken] recognises that wording and reports
    that the token expired for good, and the configuration is unchanged. *)
Theorem expired_exchange_reported_as_permanent (tm : TokenManager N)
    (errorResp : ErrorResponse) (statusCode : Z) (body : string) :
  let c := tm_cfg tm in
  let n0 := if negb (IsZero (meta_TokenExpiresAt c)) then snd (Now (tm_net tm))
            else tm_net tm in
  tm_mutexHeld tm = false ->
  meta_AccessToken c <> "" ->
  fst (graph_oauth_access_token (meta_BaseURL c) (meta_Version c) (meta_AppID c)
         (meta_AppSecret c) (meta_AccessToken c) (wire n0))
  = Response statusCode body None ->
  statusCode <> StatusOK ->
  containsTokenExpirationMessage body = true ->
  exists tm' : TokenManager N,
    handleExpiredToken errorResp tm
    = (Done (Err ("token expirou permanentemente e requer reautorização manual: "
                  +:+ "o token de acesso expirou e não pode ser renovado automaticamente. "
                  +:+ "É necessário reautorizar o aplicativo através do processo de autenticação OAuth: "
                  +:+ "erro ao obter token de longa duração. Status: " +:+ Itoa statusCode
                  +:+ ", Resposta: " +:+ body)), tm')
    /\ tm_cfg tm' = c.
Proof.
  intros c n0 Hfree Htok Hreply Hstatus Hbody.
  set (errMsg := "erro ao obter token de longa duração. Status: " +:+ Itoa statusCode
                 +:+ ", Resposta: " +:+ body).
  assert (Hexch : exists n1, GetLongLivedToken (meta_AccessToken c) (meta_AppID c)
                    (meta_AppSecret c) (meta_BaseURL c) (meta_Version c) n0 = (Err errMsg, n1)).
  { unfold GetLongLivedToken. rewrite decide_False by exact Htok.
    destruct (graph_oauth_access_token _ _ _ _ _ (wire n0)) as [resp w1].
    cbn [fst] in Hreply. subst resp.
    destruct (Z.eqb_spec statusCode StatusOK) as [Heq|_]; [by destruct Hstatus|].
    cbn [negb]. eauto. }
  destruct Hexch as [n1 Hexch].
  assert (Hphrase : Contains errMsg "Error validating access token"
                    || Contains errMsg "Session has expired"
                    || Contains errMsg "The session has been invalidated" = true).
  { unfold containsTokenExpirationMessage in Hbody.
    apply orb_true_iff in Hbody as [Hbody|Hc3].
    - apply orb_true_iff in Hbody as [Hc1|Hc2].
      + apply orb_true_iff. left. apply orb_true_iff. left.
        subst errMsg. by do 3 apply Contains_app_r.
      + apply orb_true_iff. left. apply orb_true_iff. right.
        subst errMsg. by do 3 apply Contains_app_r.
    - apply orb_true_iff. right. subst errMsg. by do 3 apply Contains_app_r. }
  set (refreshErr :=
         "o token de acesso expirou e não pode ser renovado automaticamente. "
         +:+ "É necessário reautorizar o aplicativo através do processo de autenticação OAuth: "
         +:+ errMsg).
  assert (Hrefresh : RefreshToken tm = (Done (Some refreshErr), setNet tm n1)).
  { unfold RefreshToken, refreshTokenInternal, withMutex. rewrite Hfree.
    cbn [setMutex tm_cfg tm_net tm_mutexHeld]. fold c. fold n0.
    rewrite Hexch, Hphrase. f_equal.
    destruct tm as [c0 m0 net0]. cbn in *. by subst m0. }
  assert (Hword : Contains refreshErr "necessário reautorizar" = true).
  { subst refreshErr. apply Contains_app_r. apply Contains_app_l.
    vm_compute. reflexivity. }
  exists (setNet tm n1). split; [|reflexivity].
  unfold handleExpiredToken, refreshExpired. rewrite Hrefresh, Hword. reflexivity.
Qed.

End TokenResponses.

(** Concrete runs of the token manager in the scripted world. *)

Definition dayLater : Time := Add (Unix 1700000000) (30 * 24 * Hour).
Definition hourLater : Time := Add (Unix 1700000000) Hour.

Lemma RefreshToken_every_call_exchanges_witness :
  let tm := sampleManager "short" "" zeroTime
              [Response 200 "long1" None; GetFailed "timeout"; Response 200 "long2" None]
              (GetFailed "unused") in
  length (exchanges (calls (tm_net (refreshTimes 3 tm)))) = 3%nat
  /\ exchanges (calls (tm_net (refreshTimes 3 tm))) = ["short"; "long1"; "long1"].
Proof.
  intros tm.
  assert (Hfree : tm_mutexHeld tm = false) by reflexivity.
  assert (Htok : meta_AccessToken (tm_cfg tm) <> "") by (intros He; discriminate He).
  pose proof (RefreshToken_every_call_exchanges 3 tm Hfree Htok) as [Hlen _].
  split; [exact Hlen|]. vm_compute. reflexivity.
Defined.

Lemma RefreshToken_outcome_witness :
  let tm := sampleManager "short" "old" hourLater [GetFailed "timeout"] (GetFailed "unused") in
  exists (e : option string) (tm' : TokenManager Script),
    RefreshToken tm = (Done e, tm') /\ is_Some e /\ tm_cfg tm' = tm_cfg tm
    /\ calls (tm_net tm') = [EvTokenExchange "short"].
Proof.
  intros tm.
  assert (Hfree : tm_mutexHeld tm = false) by reflexivity.
  destruct (RefreshToken_outcome tm Hfree) as (e & tm' & Hrun & _ & Hcalls & He).
  exists e, tm'. split; [exact Hrun|].
  assert (Hsome : is_Some e).
  { vm_compute in Hrun. injection Hrun as <- _. eexists. reflexivity. }
  split; [exact Hsome|]. destruct Hsome as [msg ->]. split; [exact He|exact Hcalls].
Defined.

Lemma EnsureValidToken_requests_witness :
  let far := sampleManager "long0" "long0" dayLater [] (GetFailed "unused") in
  let near := sampleManager "long0" "long0" hourLater [Response 200 "long1" None]
                            (GetFailed "unused") in
  EnsureValidToken far = (Done None, far)
  /\ exists e tm', EnsureValidToken near = (Done e, tm')
                   /\ calls (tm_net tm') = [EvTokenExchange "long0"].
Proof.
  intros far near.
  assert (Hne : "long0" <> "") by (intros He; discriminate He).
  split.
  - assert (Hfar : 24 * Hour <= Until (Unix 1700000000) (meta_TokenExpiresAt (tm_cfg far)))
      by (vm_compute; intros Hc; discriminate Hc).
    exact (proj1 (EnsureValidToken_requests far (Unix 1700000000) (wire (tm_net far))
                    eq_refl Hne eq_refl) Hfar).
  - assert (Hnear : Until (Unix 1700000000) (meta_TokenExpiresAt (tm_cfg near)) < 24 * Hour)
      by (vm_compute; reflexivity).
    exact (proj2 (EnsureValidToken_requests near (Unix 1700000000) (wire (tm_net near))
                    eq_refl Hne eq_refl) Hnear).
Defined.

Lemma EnsureValidToken_empty_access_token_witness :
  let tm := sampleManager "" "long0" dayLater [Response 200 "long1" None]
                          (GetFailed "unused") in
  EnsureValidToken tm = (Done None, tm).
Proof.
  intros tm. exact (EnsureValidToken_empty_access_token tm eq_refl eq_refl).
Defined.

Lemma InitiateToken_once_witness :
  let tm := sampleManager "short" "" zeroTime
              [Response 200 "long1" None; Response 200 "long2" None] (GetFailed "unused") in
  let tm' := snd (InitiateToken tm) in
  meta_LongLivedToken (tm_cfg tm') = "long1"
  /\ exchanges (calls (tm_net tm')) = ["short"]
  /\ InitiateToken tm' = (Done None, tm').
Proof.
  intros tm tm'.
  assert (Hrun : InitiateToken tm = (Done None, tm')) by (vm_compute; reflexivity).
  pose proof (InitiateToken_once tm tm' eq_refl Hrun) as [_ Hagain].
  split; [vm_compute; reflexivity|]. split; [vm_compute; reflexivity|exact Hagain].
Defined.

Lemma ValidateExistingToken_invalid_token_blocks_witness :
  let tm := sampleManager "long0" "long0" zeroTime [Response 200 "long1" None]
                          (Response 401 "invalid token" None) in
  fst (ValidateExistingToken tm) = Blocked
  /\ fst (InitToken tm) = Blocked
  /\ tm_mutexHeld (snd (ValidateExistingToken tm)) = true
  /\ exchanges (calls (tm_net (snd (ValidateExistingToken tm)))) = [].
Proof.
  intros tm.
  assert (Hl : meta_LongLivedToken (tm_cfg tm) <> "") by (intros He; discriminate He).
  assert (Hstatus : 401 <> StatusOK) by (intros He; discriminate He).
  pose proof (ValidateExistingToken_invalid_token_blocks tm 401 "invalid token" None
                (wire (tm_net tm)) eq_refl Hl eq_refl Hstatus) as (Hrun & Hinit & _).
  rewrite (Hinit eq_refl), Hrun. repeat split.
Defined.

Lemma CalculateTokenExpiration_window_witness :
  let n := mkNet (mkScript [] (GetFailed "unused") (GetFailed "unused") (Unix 1700000000)) [] in
  fst (CalculateTokenExpiration 5184000 n) = Unix (1700000000 + 59 * 86400)
  /\ fst (CalculateTokenExpiration 3600 n) = Unix (1700000000 + 1800).
Proof.
  intros n.
  assert (Hlong : 0 <= 5184000 < 2 ^ 33) by lia.
  assert (Hshort : 0 <= 3600 < 2 ^ 33) by lia.
  assert (Hnow : clock_Now (wire n) = (Unix 1700000000, wire n)) by reflexivity.
  destruct (CalculateTokenExpiration_window 5184000 n (Unix 1700000000) (wire n) Hnow Hlong)
    as (d1 & Hrun1 & _ & Hd1).
  destruct (CalculateTokenExpiration_window 3600 n (Unix 1700000000) (wire n) Hnow Hshort)
    as (d2 & Hrun2 & _ & Hd2).
  rewrite Hrun1, Hrun2, Hd1, Hd2. split; vm_compute; reflexivity.
Defined.

Lemma HandleResponse_body_only_on_200_witness :
  let tm := sampleManager "long0" "long0" dayLater [Response 200 "long1" None]
                          (GetFailed "unused") in
  HandleResponse 200 "[]" None tm = (Done (Ok "[]"), tm)
  /\ exists msg tm', HandleResponse 500 "Session has expired" None tm = (Done (Err msg), tm')
                     /\ meta_AccessToken (tm_cfg tm') = "long1".
Proof.
  intros tm.
  assert (Hfree : tm_mutexHeld tm = false) by reflexivity.
  assert (Hstatus : 500 <> StatusOK) by (intros He; discriminate He).
  destruct (HandleResponse_body_only_on_200 200 "[]" tm Hfree) as [Hok _].
  destruct (HandleResponse_body_only_on_200 500 "Session has expired" tm Hfree)
    as [_ Herr].
  split; [exact (Hok eq_refl)|].
  destruct (Herr Hstatus) as (msg & tm' & Hrun & _ & _).
  exists msg, tm'. split; [exact Hrun|].
  vm_compute in Hrun. injection Hrun as _ <-. reflexivity.
Defined.

Lemma expired_exchange_reported_as_permanent_witness :
  let tm := sampleManager "long0" "long0" hourLater
              [Response 400 "Error validating access token: Session has expired" None]
              (GetFailed "unused") in
  exists msg tm',
    handleExpiredToken (mkErrorResponse "expired" "OAuthException" 190 463) tm
    = (Done (Err msg), tm')
    /\ String.prefix "token expirou permanentemente" msg = true
    /\ tm_cfg tm' = tm_cfg tm.
Proof.
  intros tm.
  assert (Htok : meta_AccessToken (tm_cfg tm) <> "") by (intros He; discriminate He).
  assert (Hstatus : 400 <> StatusOK) by (intros He; discriminate He).
  assert (Hfree : tm_mutexHeld tm = false) by reflexivity.
  assert (Hbody : containsTokenExpirationMessage
                    "Error validating access token: Session has expired" = true)
    by (vm_compute; reflexivity).
  pose proof (expired_exchange_reported_as_permanent tm
                (mkErrorResponse "expired" "OAuthException" 190 463) 400
                "Error validating access token: Session has expired") as Hthm.
  cbv zeta in Hthm.
  assert (Hreply :
            fst (graph_oauth_access_token (meta_BaseURL (tm_cfg tm)) (meta_Version (tm_cfg tm))
                   (meta_AppID (tm_cfg tm)) (meta_AppSecret (tm_cfg tm))
                   (meta_AccessToken (tm_cfg tm))
                   (wire (if negb (IsZero (meta_TokenExpiresAt (tm_cfg tm)))
                          then snd (Now (tm_net tm)) else tm_net tm)))
            = Response 400 "Error validating access token: Session has expired" None)
    by (vm_compute; reflexivity).
  destruct (Hthm Hfree Htok Hreply Hstatus Hbody) as (tm' & Hrun & Hcfg).
  eexists _, tm'. split; [exact Hrun|]. split; [vm_compute; reflexivity|exact Hcfg].
Defined.
